(** * The retrieval-augmented generation subsystem of the agent framework

    A shallow embedding of [agent/rag/document_processor.py],
    [agent/rag/vector_store.py] and [agent/rag/retrieval_tool.py].

    Conventions.
    - A Python [str] is a Rocq [string]; every character stands for the
      code point of the same number (U+0000 .. U+00FF).
    - A Python [dict] with string keys is a [gmap string _]; [d.update(e)]
      is the right-biased union.
    - A Python call that may raise returns a [result]; [try]/[except] is
      [try_except].
    - Objects of the libraries the code calls (the text splitter, the two
      vector stores, the file system) are modelled by their contents, and
      the failures they may signal are read from an explicit environment. *)

From Stdlib Require Import Ascii String ZArith QArith Lia.
From stdpp Require Import base option list gmap strings pretty.

Local Open Scope string_scope.
Local Open Scope list_scope.
Local Open Scope Z_scope.

(** ** Python strings *)

Module Py.

Definition ord (c : ascii) : Z := Z.of_N (N_of_ascii c).
Definition chr (n : Z) : ascii := ascii_of_N (Z.to_N n).

Definition len (s : string) : Z := Z.of_nat (String.length s).

(** [str.isspace] on one character of the range U+0000 .. U+00FF. *)
Definition isspace (c : ascii) : bool :=
  let n := ord c in
  ((9 <=? n) && (n <=? 13)) || ((28 <=? n) && (n <=? 32))
  || (n =? 133) || (n =? 160).

Fixpoint lstrip (s : string) : string :=
  match s with
  | String c r => if isspace c then lstrip r else s
  | EmptyString => EmptyString
  end.

Fixpoint rstrip (s : string) : string :=
  match s with
  | String c r =>
      match rstrip r with
      | EmptyString => if isspace c then EmptyString else String c EmptyString
      | r' => String c r'
      end
  | EmptyString => EmptyString
  end.

Definition strip (s : string) : string := rstrip (lstrip s).

(** [str.lower] on the range U+0000 .. U+00FF. *)
Definition lower_char (c : ascii) : ascii :=
  let n := ord c in
  if ((65 <=? n) && (n <=? 90))
     || ((192 <=? n) && (n <=? 222) && negb (n =? 215))
  then chr (n + 32) else c.

Fixpoint lower (s : string) : string :=
  match s with
  | String c r => String (lower_char c) (lower r)
  | EmptyString => EmptyString
  end.

(** [s[:n]] for [n >= 0]. *)
Fixpoint take (n : nat) (s : string) : string :=
  match n, s with
  | S n', String c r => String c (take n' r)
  | _, _ => EmptyString
  end.

(** [s[n:]] for [n >= 0]. *)
Fixpoint drop (n : nat) (s : string) : string :=
  match n, s with
  | S n', String _ r => drop n' r
  | _, _ => s
  end.

Fixpoint startswith (p s : string) : bool :=
  match p, s with
  | EmptyString, _ => true
  | String a p', String b s' => if Ascii.eqb a b then startswith p' s' else false
  | String _ _, EmptyString => false
  end.

(** [sub in s]. *)
Fixpoint contains (sub s : string) : bool :=
  startswith sub s ||
  match s with
  | String _ r => contains sub r
  | EmptyString => false
  end.

(** [s.rfind(c)] for a one-character [c]; [None] stands for [-1]. *)
Fixpoint rfind (c : ascii) (s : string) : option nat :=
  match s with
  | String a r =>
      match rfind c r with
      | Some i => Some (S i)
      | None => if Ascii.eqb a c then Some O else None
      end
  | EmptyString => None
  end.

(** [s.split(c)] for a one-character separator. *)
Fixpoint split (c : ascii) (s : string) : list string :=
  match s with
  | String a r =>
      if Ascii.eqb a c then EmptyString :: split c r
      else match split c r with
           | w :: ws => String a w :: ws
           | [] => [String a EmptyString]
           end
  | EmptyString => [EmptyString]
  end.

(** [sep.join(l)]. *)
Fixpoint join (sep : string) (l : list string) : string :=
  match l with
  | [] => EmptyString
  | [x] => x
  | x :: r => x +:+ sep +:+ join sep r
  end.

(** [s.encode('utf-8')], as a list of byte values. *)
Fixpoint encode_utf8 (s : string) : list Z :=
  match s with
  | String c r =>
      let n := ord c in
      if n <? 128 then n :: encode_utf8 r
      else Z.lor 192 (Z.shiftr n 6) :: Z.lor 128 (Z.land n 63) :: encode_utf8 r
  | EmptyString => []
  end.

End Py.

(** ** [hashlib.md5(...).hexdigest()] (RFC 1321) *)

Module MD5.

Definition mask32 : Z := 0xffffffff.
Definition add32 (a b : Z) : Z := Z.land (a + b) mask32.
Definition not32 (a : Z) : Z := Z.lxor a mask32.
Definition rotl32 (x c : Z) : Z :=
  Z.lor (Z.land (Z.shiftl x c) mask32) (Z.shiftr x (32 - c)).

Definition K : list Z :=
  [ 0xd76aa478; 0xe8c7b756; 0x242070db; 0xc1bdceee;
    0xf57c0faf; 0x4787c62a; 0xa8304613; 0xfd469501;
    0x698098d8; 0x8b44f7af; 0xffff5bb1; 0x895cd7be;
    0x6b901122; 0xfd987193; 0xa679438e; 0x49b40821;
    0xf61e2562; 0xc040b340; 0x265e5a51; 0xe9b6c7aa;
    0xd62f105d; 0x02441453; 0xd8a1e681; 0xe7d3fbc8;
    0x21e1cde6; 0xc33707d6; 0xf4d50d87; 0x455a14ed;
    0xa9e3e905; 0xfcefa3f8; 0x676f02d9; 0x8d2a4c8a;
    0xfffa3942; 0x8771f681; 0x6d9d6122; 0xfde5380c;
    0xa4beea44; 0x4bdecfa9; 0xf6bb4b60; 0xbebfbc70;
    0x289b7ec6; 0xeaa127fa; 0xd4ef3085; 0x04881d05;
    0xd9d4d039; 0xe6db99e5; 0x1fa27cf8; 0xc4ac5665;
    0xf4292244; 0x432aff97; 0xab9423a7; 0xfc93a039;
    0x655b59c3; 0x8f0ccc92; 0xffeff47d; 0x85845dd1;
    0x6fa87e4f; 0xfe2ce6e0; 0xa3014314; 0x4e0811a1;
    0xf7537e82; 0xbd3af235; 0x2ad7d2bb; 0xeb86d391 ].

Definition shifts : list Z :=
  [ 7; 12; 17; 22; 7; 12; 17; 22; 7; 12; 17; 22; 7; 12; 17; 22;
    5; 9; 14; 20; 5; 9; 14; 20; 5; 9; 14; 20; 5; 9; 14; 20;
    4; 11; 16; 23; 4; 11; 16; 23; 4; 11; 16; 23; 4; 11; 16; 23;
    6; 10; 15; 21; 6; 10; 15; 21; 6; 10; 15; 21; 6; 10; 15; 21 ].

(** Padding: a 1 bit, zeros up to 56 mod 64, the bit length on 64 bits. *)
Definition le_bytes (n : nat) (x : Z) : list Z :=
  map (fun i => Z.land (Z.shiftr x (8 * Z.of_nat i)) 255) (seq 0 n).

Definition pad (msg : list Z) : list Z :=
  let l := Z.of_nat (length msg) in
  let zeros := Z.to_nat ((55 - l) mod 64) in
  msg ++ [128] ++ repeat 0 zeros ++ le_bytes 8 (Z.land (8 * l) 0xffffffffffffffff).

Definition le_word (bs : list Z) : Z :=
  foldr (fun b acc => b + 256 * acc) 0 bs.

Fixpoint words (n : nat) (bs : list Z) : list Z :=
  match n with
  | O => []
  | S n' => le_word (firstn 4 bs) :: words n' (skipn 4 bs)
  end.

Definition state : Type := Z * Z * Z * Z.

Definition step (M : list Z) (st : state) (i : nat) : state :=
  let '(a, b, c, d) := st in
  let '(f, g) :=
    if (i <? 16)%nat then (Z.lor (Z.land b c) (Z.land (not32 b) d), i)
    else if (i <? 32)%nat then
      (Z.lor (Z.land d b) (Z.land (not32 d) c), ((5 * i + 1) mod 16)%nat)
    else if (i <? 48)%nat then
      (Z.lxor b (Z.lxor c d), ((3 * i + 5) mod 16)%nat)
    else (Z.lxor c (Z.lor b (not32 d)), ((7 * i) mod 16)%nat) in
  let F := add32 (add32 (add32 f a) (nth i K 0)) (nth g M 0) in
  (d, add32 b (rotl32 F (nth i shifts 0)), b, c).

Definition block (st : state) (bs : list Z) : state :=
  let '(a0, b0, c0, d0) := st in
  let '(a, b, c, d) := foldl (step (words 16 bs)) st (seq 0 64) in
  (add32 a0 a, add32 b0 b, add32 c0 c, add32 d0 d).

Fixpoint blocks (n : nat) (st : state) (bs : list Z) : state :=
  match n with
  | O => st
  | S n' => blocks n' (block st (firstn 64 bs)) (skipn 64 bs)
  end.

Definition init : state := (0x67452301, 0xefcdab89, 0x98badcfe, 0x10325476).

Definition digest (msg : list Z) : list Z :=
  let p := pad msg in
  let '(a, b, c, d) := blocks (length p / 64)%nat init p in
  le_bytes 4 a ++ le_bytes 4 b ++ le_bytes 4 c ++ le_bytes 4 d.

Definition hex_digit (n : Z) : ascii :=
  if n <? 10 then Py.chr (48 + n) else Py.chr (87 + n).

Fixpoint hex (bs : list Z) : string :=
  match bs with
  | b :: r => String (hex_digit (Z.shiftr b 4)) (String (hex_digit (Z.land b 15)) (hex r))
  | [] => EmptyString
  end.

Definition hexdigest (msg : list Z) : string := hex (digest msg).

End MD5.

(** ** Values, documents, exceptions *)

(** A metadata value: a string or a number. A float is kept as the rational
    it denotes. *)
Inductive value : Type :=
| VStr (s : string)
| VInt (n : Z)
| VFloat (q : Q).

(** [a == b] on metadata values. *)
Definition value_eqb (a b : value) : bool :=
  match a, b with
  | VStr s, VStr t => String.eqb s t
  | VInt n, VInt m => n =? m
  | VFloat p, VFloat q => Qeq_bool p q
  | VInt n, VFloat q | VFloat q, VInt n => Qeq_bool (inject_Z n) q
  | _, _ => false
  end.

(** [langchain_core.documents.Document]. *)
Record Document : Type := mkDocument {
  page_content : string;
  metadata : gmap string value
}.

(** [d.update(e)]: the entries of [e] win. *)
Definition update {V} (d e : gmap string V) : gmap string V := e ∪ d.

Inductive exn : Type := Exception (msg : string).

Definition exn_str (e : exn) : string := let 'Exception m := e in m.

Inductive result (A : Type) : Type :=
| Ok (a : A)
| Raise (e : exn).
Arguments Ok {A} a.
Arguments Raise {A} e.

Definition bind {A B} (r : result A) (k : A -> result B) : result B :=
  match r with
  | Ok a => k a
  | Raise e => Raise e
  end.

Notation "x <- r ;; k" := (bind r (fun x => k))
  (at level 100, r at next level, right associativity).

(** [try: body except Exception as e: handler(e)]. *)
Definition try_except {A} (body : result A) (handler : exn -> result A) : result A :=
  match body with
  | Ok a => Ok a
  | Raise e => handler e
  end.

(** ** The environment: the libraries and the operating system *)

(** [os.stat_result], the three fields the code reads. *)
Record stat_result : Type := mkStat {
  st_size : Z;
  st_ctime : Q;
  st_mtime : Q
}.

(** Calls into the vector-store libraries and the file system, for the
    fault oracle. *)
Inductive call : Type :=
| call_mkdir (path : string)
| call_rmtree (path : string)
| call_HuggingFaceEmbeddings
| call_Chroma
| call_delete_collection
| call_count
| call_delete (ids : list string)
| call_load_local
| call_from_documents (texts : list string)
| call_add_documents (texts : list string)
| call_save_local
| call_search (query : string) (k : Z).

Record Env : Type := mkEnv {
  (** the file system *)
  path_exists : string -> bool;
  path_is_dir : string -> bool;
  path_is_file : string -> bool;
  path_stat : string -> result stat_result;
  (** [Path(d).rglob(pattern)] ([recursive]) or [Path(d).glob(pattern)] *)
  path_glob : string -> bool -> string -> result (list string);
  (** the document loaders: [TextLoader(p, encoding='utf-8').load()],
      [UnstructuredMarkdownLoader(p).load()], [PyPDFLoader(p).load()],
      [Docx2txtLoader(p).load()] *)
  TextLoader_load : string -> result (list Document);
  UnstructuredMarkdownLoader_load : string -> result (list Document);
  PyPDFLoader_load : string -> result (list Document);
  Docx2txtLoader_load : string -> result (list Document);
  (** module flags of document_processor.py *)
  PDF_AVAILABLE : bool;
  DOCX_AVAILABLE : bool;
  (** the [n]-th draw of [uuid.uuid4()]: [.hex] and [str()] *)
  uuid4_hex : nat -> string;
  uuid4_str : nat -> string;
  (** [str(x)] and [f"{x:.4f}"] of a float *)
  float_str : Q -> string;
  format_4f : Q -> string;
  (** distance between the embeddings of a query and of a text *)
  distance : string -> string -> Q;
  (** [fault c = Some e]: the library call [c] raises [e] (an embedding
      model that fails, a storage error, an argument the library rejects) *)
  fault : call -> option exn
}.

Definition attempt (env : Env) (c : call) : result unit :=
  match fault env c with
  | Some e => Raise e
  | None => Ok tt
  end.

(** [str(v)], as an f-string formats a metadata value. *)
Definition value_str (env : Env) (v : value) : string :=
  match v with
  | VStr s => s
  | VInt n => pretty n
  | VFloat q => float_str env q
  end.

(** ** [pathlib.Path] (POSIX flavour) *)

Module Path.

Definition parts (p : string) : list string :=
  filter (fun c => negb (String.eqb c "") && negb (String.eqb c ".") = true)
         (Py.split "/" p).

Definition root (p : string) : string :=
  if Py.startswith "///" p then "/"
  else if Py.startswith "//" p then "//"
  else if Py.startswith "/" p then "/"
  else "".

(** [str(Path(p))]. *)
Definition str (p : string) : string :=
  match root p, parts p with
  | EmptyString, [] => "."
  | r, ps => r +:+ Py.join "/" ps
  end.

(** [Path(p).name]. *)
Definition name (p : string) : string := List.last (parts p) "".

(** [Path(p).suffix]. *)
Definition suffix (p : string) : string :=
  let n := name p in
  match Py.rfind "." n with
  | Some i =>
      if ((0 <? i) && (i <? String.length n - 1))%nat then Py.drop i n else ""
  | None => ""
  end.

End Path.

(** ** document_processor.py *)

Inductive loader : Type := _load_text | _load_markdown | _load_pdf | _load_docx.

(** [DocumentProcessor.__init__]: the extension table. *)
Definition supported_extensions (env : Env) : gmap string loader :=
  let base : gmap string loader :=
    <[".sql" := _load_text]> (<[".css" := _load_text]> (<[".html" := _load_text]>
    (<[".xml" := _load_text]> (<[".yml" := _load_text]> (<[".yaml" := _load_text]>
    (<[".json" := _load_text]> (<[".js" := _load_text]> (<[".py" := _load_text]>
    (<[".md" := _load_markdown]> (<[".txt" := _load_text]> ∅)))))))))) in
  let with_pdf := if PDF_AVAILABLE env then <[".pdf" := _load_pdf]> base else base in
  if DOCX_AVAILABLE env then <[".docx" := _load_docx]> with_pdf else with_pdf.

Definition is_supported (env : Env) (file_path : string) : bool :=
  let file_ext := Py.lower (Path.suffix file_path) in
  bool_decide (is_Some (supported_extensions env !! file_ext)).

Definition _generate_doc_id (content : string) : string :=
  MD5.hexdigest (Py.encode_utf8 content).

Definition run_load_text (env : Env) (file_path : string) : result (list Document) :=
  try_except (TextLoader_load env file_path) (fun _ => Ok []).

Definition run_loader (env : Env) (l : loader) (file_path : string)
    : result (list Document) :=
  match l with
  | _load_text => run_load_text env file_path
  | _load_markdown =>
      try_except (UnstructuredMarkdownLoader_load env file_path)
                 (fun _ => run_load_text env file_path)
  | _load_pdf => try_except (PyPDFLoader_load env file_path) (fun _ => Ok [])
  | _load_docx => try_except (Docx2txtLoader_load env file_path) (fun _ => Ok [])
  end.

(** [process_file]; the argument [file_path] stands for the object
    [Path(file_path)], and [Path.str file_path] for [str(file_path)]. *)
Definition process_file (env : Env) (file_path : string)
    (extra : option (gmap string value)) : result (list Document) :=
  try_except
    (if negb (path_exists env (Path.str file_path)) then Ok []
     else if negb (is_supported env (Path.str file_path)) then Ok []
     else
       let doc_id := _generate_doc_id (Path.str file_path) in
       st <- path_stat env (Path.str file_path) ;;
       let doc_metadata : gmap string value :=
         <["modified_at" := VFloat (st_mtime st)]>
         (<["created_at" := VFloat (st_ctime st)]>
         (<["file_size" := VInt (st_size st)]>
         (<["doc_id" := VStr doc_id]>
         (<["file_extension" := VStr (Path.suffix file_path)]>
         (<["filename" := VStr (Path.name file_path)]>
         (<["source" := VStr (Path.str file_path)]> ∅)))))) in
       let doc_metadata :=
         match extra with
         | Some m => update doc_metadata m
         | None => doc_metadata
         end in
       match supported_extensions env !! Py.lower (Path.suffix file_path) with
       | None => Raise (Exception "KeyError")
       | Some loader_func =>
           documents <- run_loader env loader_func (Path.str file_path) ;;
           Ok (map (fun doc => mkDocument (page_content doc)
                                 (update (metadata doc) doc_metadata)) documents)
       end)
    (fun _ => Ok []).

Definition process_text (text : string) (extra : option (gmap string value)) : Document :=
  let doc_id := _generate_doc_id text in
  let doc_metadata : gmap string value :=
    <["content_length" := VInt (Py.len text)]>
    (<["doc_id" := VStr doc_id]>
    (<["source" := VStr "text_input"]> ∅)) in
  let doc_metadata :=
    match extra with
    | Some m => update doc_metadata m
    | None => doc_metadata
    end in
  mkDocument text doc_metadata.

Definition validate_documents (documents : list Document) : list Document :=
  flat_map (fun doc =>
    if String.eqb (Py.strip (page_content doc)) "" then []
    else match metadata doc !! "doc_id" with
         | Some _ => [doc]
         | None => [mkDocument (page_content doc)
                      (<["doc_id" := VStr (_generate_doc_id (page_content doc))]> (metadata doc))]
         end) documents.

(** ** The text splitter: [langchain.text_splitter.RecursiveCharacterTextSplitter]

    The library routine behind [self.text_splitter], after the library's
    [TextSplitter._join_docs] and [TextSplitter._merge_splits],
    [_split_text_with_regex] and
    [RecursiveCharacterTextSplitter._split_text], with the defaults the
    constructor call of vector_store.py leaves in place
    ([keep_separator=True], [is_separator_regex=False],
    [strip_whitespace=True], [add_start_index=False]). *)

Module TextSplitter.

Record t : Type := RecursiveCharacterTextSplitter {
  _chunk_size : Z;
  _chunk_overlap : Z;
  _separators : list string
}.

(** [re.split(re.escape(sep), text)] for a non-empty [sep]: the segments
    between the occurrences of [sep] found from left to right; [skip]
    counts the characters of the current occurrence still to pass. *)
Fixpoint segments (sep : string) (skip : nat) (text : string) : list string :=
  match text with
  | EmptyString => [EmptyString]
  | String c r =>
      match skip with
      | S n => segments sep n r
      | O =>
          if Py.startswith sep text
          then EmptyString :: segments sep (String.length sep - 1) r
          else match segments sep 0 r with
               | w :: ws => String c w :: ws
               | [] => [String c EmptyString]
               end
      end
  end.

Fixpoint chars (text : string) : list string :=
  match text with
  | String c r => String c EmptyString :: chars r
  | EmptyString => []
  end.

(** [_split_text_with_regex(text, separator, keep_separator=True)]: every
    piece but the first starts with the separator it follows. *)
Definition _split_text_with_regex (text separator : string) : list string :=
  let splits :=
    if String.eqb separator "" then chars text
    else match segments separator 0 text with
         | first :: rest => first :: map (fun seg => separator +:+ seg) rest
         | [] => []
         end in
  filter (fun s => s <> EmptyString) splits.

(** [_join_docs]: [None] when nothing but whitespace is left. *)
Definition _join_docs (docs : list string) (separator : string) : option string :=
  let text := Py.strip (Py.join separator docs) in
  if String.eqb text "" then None else Some text.

Definition sep_if (b : bool) (separator_len : Z) : Z := if b then separator_len else 0.

(** The [while] loop of [_merge_splits], which drops documents from the
    front of [current_doc]. *)
Fixpoint pop_front (s : t) (separator_len _len total : Z) (current_doc : list string)
    : result (Z * list string) :=
  if (_chunk_overlap s <? total)
     || ((_chunk_size s <? total + _len
            + sep_if (0 <? Z.of_nat (length current_doc)) separator_len)
         && (0 <? total))
  then match current_doc with
       | [] => Raise (Exception "IndexError")
       | d0 :: rest =>
           pop_front s separator_len _len
             (total - (Py.len d0 + sep_if (1 <? Z.of_nat (length current_doc)) separator_len))
             rest
       end
  else Ok (total, current_doc).

Definition add_doc (docs : list string) (doc : option string) : list string :=
  match doc with
  | Some d => docs ++ [d]
  | None => docs
  end.

(** The [for] loop of [_merge_splits] over the state
    [(docs, current_doc, total)]. *)
Fixpoint merge_loop (s : t) (separator : string) (splits : list string)
    (docs current_doc : list string) (total : Z) : result (list string) :=
  match splits with
  | [] => Ok (add_doc docs (_join_docs current_doc separator))
  | d :: splits' =>
      let separator_len := Py.len separator in
      let _len := Py.len d in
      st <-
        (if _chunk_size s <? total + _len
              + sep_if (0 <? Z.of_nat (length current_doc)) separator_len
         then
           if 0 <? Z.of_nat (length current_doc)
           then
             let docs := add_doc docs (_join_docs current_doc separator) in
             popped <- pop_front s separator_len _len total current_doc ;;
             Ok (docs, snd popped, fst popped)
           else Ok (docs, current_doc, total)
         else Ok (docs, current_doc, total)) ;;
      let '(docs, current_doc, total) := st in
      let current_doc := current_doc ++ [d] in
      merge_loop s separator splits' docs current_doc
        (total + _len + sep_if (1 <? Z.of_nat (length current_doc)) separator_len)
  end.

Definition _merge_splits (s : t) (splits : list string) (separator : string)
    : result (list string) :=
  merge_loop s separator splits [] [] 0.

(** The loop of [_split_text] over the pieces, on the state
    [(final_chunks, _good_splits)]; [recurse] is [_split_text] on
    [new_separators]. *)
Fixpoint pieces_loop (s : t) (new_separators : list string)
    (recurse : string -> result (list string)) (splits : list string)
    (final_chunks _good_splits : list string) : result (list string) :=
  match splits with
  | [] =>
      match _good_splits with
      | [] => Ok final_chunks
      | _ => merged_text <- _merge_splits s _good_splits "" ;;
             Ok (final_chunks ++ merged_text)
      end
  | p :: splits' =>
      if Py.len p <? _chunk_size s
      then pieces_loop s new_separators recurse splits' final_chunks (_good_splits ++ [p])
      else
        final_chunks <-
          match _good_splits with
          | [] => Ok final_chunks
          | _ => merged_text <- _merge_splits s _good_splits "" ;;
                 Ok (final_chunks ++ merged_text)
          end ;;
        match new_separators with
        | [] => pieces_loop s new_separators recurse splits' (final_chunks ++ [p]) []
        | _ => other_info <- recurse p ;;
               pieces_loop s new_separators recurse splits' (final_chunks ++ other_info) []
        end
  end.

(** [_split_text] once [separator] and [new_separators] are chosen. *)
Definition split_with (s : t) (separator : string) (new_separators : list string)
    (recurse : string -> result (list string)) (text : string) : result (list string) :=
  pieces_loop s new_separators recurse (_split_text_with_regex text separator) [] [].

(** [_split_text(text, separators)], by the position the search for the
    separator has reached; [default] is [separators[-1]], used when the
    search ends without a match. *)
Fixpoint split_from (s : t) (default : string) (separators : list string) (text : string)
    : result (list string) :=
  match separators with
  | [] => split_with s default [] (fun _ => Ok []) text
  | _s :: rest =>
      if String.eqb _s "" then split_with s "" [] (fun _ => Ok []) text
      else if Py.contains _s text
      then split_with s _s rest (split_from s (List.last rest "") rest) text
      else split_from s default rest text
  end.

Definition _split_text (s : t) (text : string) (separators : list string)
    : result (list string) :=
  match separators with
  | [] => Raise (Exception "IndexError")
  | _ => split_from s (List.last separators "") separators text
  end.

Definition split_text (s : t) (text : string) : result (list string) :=
  _split_text s text (_separators s).

End TextSplitter.

(** ** vector_store.py: the state *)

(** An entry of a vector store: the identifier the library assigned and the
    stored chunk (its embedding is determined by the content). *)
Record Entry : Type := mkEntry {
  entry_id : string;
  entry_doc : Document
}.

(** What [self.vector_store] refers to: a [Chroma] object, which reads and
    writes the persisted collection, or a [FAISS] object, which holds its
    index in memory. *)
Inductive Backend : Type :=
| Chroma
| FAISS (index : list Entry).

(** The directory [persist_directory/chroma]. *)
Inductive chroma_state : Type :=
| NoCollection
| Collection (entries : list Entry)
| Corrupt (msg : string).

(** A [VectorStore] object together with what it keeps on disk.
    [faiss_disk]: [None] when [persist_directory/faiss_index] does not
    exist, [Some None] when it holds no loadable index, [Some (Some l)]
    when it holds the index saved last. [uuid_count]: the number of
    [uuid.uuid4()] draws so far. *)
Record VectorStore : Type := mkVectorStore {
  store_type : string;
  collection_name : string;
  persist_directory : string;
  embedding_model : string;
  vector_store : option Backend;
  chroma_disk : chroma_state;
  faiss_disk : option (option (list Entry));
  uuid_count : nat
}.

Definition set_store_type (x : string) (st : VectorStore) : VectorStore :=
  mkVectorStore x (collection_name st) (persist_directory st) (embedding_model st)
    (vector_store st) (chroma_disk st) (faiss_disk st) (uuid_count st).
Definition set_vector_store (x : option Backend) (st : VectorStore) : VectorStore :=
  mkVectorStore (store_type st) (collection_name st) (persist_directory st)
    (embedding_model st) x (chroma_disk st) (faiss_disk st) (uuid_count st).
Definition set_chroma_disk (x : chroma_state) (st : VectorStore) : VectorStore :=
  mkVectorStore (store_type st) (collection_name st) (persist_directory st)
    (embedding_model st) (vector_store st) x (faiss_disk st) (uuid_count st).
Definition set_faiss_disk (x : option (option (list Entry))) (st : VectorStore) : VectorStore :=
  mkVectorStore (store_type st) (collection_name st) (persist_directory st)
    (embedding_model st) (vector_store st) (chroma_disk st) x (uuid_count st).
Definition set_uuid_count (x : nat) (st : VectorStore) : VectorStore :=
  mkVectorStore (store_type st) (collection_name st) (persist_directory st)
    (embedding_model st) (vector_store st) (chroma_disk st) (faiss_disk st) x.

(** Computations on a [VectorStore]: what was written before an exception
    stays written. *)
Definition M (A : Type) : Type := VectorStore -> result A * VectorStore.

Definition ret {A} (a : A) : M A := fun st => (Ok a, st).
Definition raise {A} (e : exn) : M A := fun st => (Raise e, st).
Definition lift {A} (r : result A) : M A := fun st => (r, st).
Definition get {A} (f : VectorStore -> A) : M A := fun st => (Ok (f st), st).
Definition modify (f : VectorStore -> VectorStore) : M unit := fun st => (Ok tt, f st).

Definition bindM {A B} (c : M A) (k : A -> M B) : M B :=
  fun st => match c st with
            | (Ok a, st') => k a st'
            | (Raise e, st') => (Raise e, st')
            end.

Notation "x <~ c ;; k" := (bindM c (fun x => k))
  (at level 100, c at next level, right associativity).
Notation "c ;;; k" := (bindM c (fun _ => k))
  (at level 100, right associativity).

(** [try: body except Exception as e: handler(e)] on a [VectorStore]. *)
Definition try_exceptM {A} (body : M A) (handler : exn -> M A) : M A :=
  fun st => match body st with
            | (Ok a, st') => (Ok a, st')
            | (Raise e, st') => handler e st'
            end.

(** ** The two vector-store libraries

    [langchain_chroma.Chroma] and [langchain_community.vectorstores.FAISS]
    by what they hold: an entry per added document under a fresh uuid, a
    search that returns the nearest entries first, and for Chroma a
    collection that lives on disk. *)

Definition AttributeError : exn := Exception "AttributeError".

(** Exact match of every key of the filter. *)
Definition matches (filter_metadata : gmap string value) (doc : Document) : bool :=
  forallb (fun kv => match metadata doc !! kv.1 with
                     | Some v => value_eqb v kv.2
                     | None => false
                     end)
          (map_to_list filter_metadata).

Fixpoint insert_by (env : Env) (query : string) (e : Entry) (l : list Entry) : list Entry :=
  match l with
  | [] => [e]
  | x :: r =>
      if Qle_bool (distance env query (page_content (entry_doc x)))
                  (distance env query (page_content (entry_doc e)))
      then x :: insert_by env query e r
      else e :: l
  end.

(** The entries by increasing distance to the query, the earlier entry
    first among equals. *)
Definition nearest (env : Env) (query : string) (l : list Entry) : list Entry :=
  foldr (fun e acc => insert_by env query e acc) [] l.

Definition scored (env : Env) (query : string) (e : Entry) : Document * Q :=
  (entry_doc e, distance env query (page_content (entry_doc e))).

(** The entries a [Chroma] object reads. *)
Definition chroma_entries (st : VectorStore) : result (list Entry) :=
  match chroma_disk st with
  | Collection l => Ok l
  | NoCollection => Raise (Exception "collection does not exist")
  | Corrupt msg => Raise (Exception msg)
  end.

(** [obj.similarity_search_with_score(query=..., k=..., filter=...)] of
    either library: the [k] nearest entries among those the filter keeps. *)
Definition lib_similarity_search_with_score (env : Env) (b : Backend)
    (query : string) (k : Z) (filter_metadata : option (gmap string value))
    (st : VectorStore) : result (list (Document * Q)) :=
  _ <- attempt env (call_search query k) ;;
  entries <- match b with
             | Chroma => chroma_entries st
             | FAISS index => Ok index
             end ;;
  let kept := match filter_metadata with
              | Some f => List.filter (fun e => matches f (entry_doc e)) entries
              | None => entries
              end in
  Ok (map (scored env query) (firstn (Z.to_nat k) (nearest env query kept))).

(** [obj.similarity_search(...)]: the same, without the scores. *)
Definition lib_similarity_search (env : Env) (b : Backend)
    (query : string) (k : Z) (filter_metadata : option (gmap string value))
    (st : VectorStore) : result (list Document) :=
  r <- lib_similarity_search_with_score env b query k filter_metadata st ;;
  Ok (map fst r).

(** Fresh entries for the documents, with identifiers [str(uuid.uuid4())]. *)
Definition fresh_entries (env : Env) (u : nat) (docs : list Document) : list Entry :=
  imap (fun i d => mkEntry (uuid4_str env (u + i)) d) docs.

(** [obj.add_documents(docs)] of either library; returns the identifiers. *)
Definition lib_add_documents (env : Env) (b : Backend) (docs : list Document)
    : M (list string) :=
  lift (attempt env (call_add_documents (map page_content docs))) ;;;
  u <~ get uuid_count ;;
  let new := fresh_entries env u docs in
  modify (set_uuid_count (u + length docs)%nat) ;;;
  match b with
  | Chroma =>
      old <~ (fun st => (chroma_entries st, st)) ;;
      modify (set_chroma_disk (Collection (old ++ new))) ;;;
      ret (map entry_id new)
  | FAISS index =>
      modify (set_vector_store (Some (FAISS (index ++ new)))) ;;;
      ret (map entry_id new)
  end.

(** [Chroma(collection_name=..., embedding_function=...,
    persist_directory=...)]: opens the collection, creating it when there
    is none. *)
Definition lib_Chroma (env : Env) : M Backend :=
  lift (attempt env call_Chroma) ;;;
  d <~ get chroma_disk ;;
  match d with
  | Corrupt msg => raise (Exception msg)
  | Collection _ => ret Chroma
  | NoCollection => modify (set_chroma_disk (Collection [])) ;;; ret Chroma
  end.

(** [chroma.delete(ids)]. *)
Definition lib_delete (env : Env) (b : Backend) (ids : list string) : M unit :=
  lift (attempt env (call_delete ids)) ;;;
  match b with
  | Chroma =>
      old <~ (fun st => (chroma_entries st, st)) ;;
      modify (set_chroma_disk
                (Collection (List.filter
                   (fun e => negb (bool_decide (entry_id e ∈ ids))) old)))
  | FAISS _ => raise AttributeError
  end.

(** [chroma.delete_collection()]. *)
Definition lib_delete_collection (env : Env) (b : Backend) : M unit :=
  lift (attempt env call_delete_collection) ;;;
  match b with
  | Chroma =>
      _ <~ (fun st => (chroma_entries st, st)) ;;
      modify (set_chroma_disk NoCollection)
  | FAISS _ => raise AttributeError
  end.

(** [chroma._collection.count()]. *)
Definition lib_count (env : Env) (b : Backend) (st : VectorStore) : result Z :=
  match b with
  | Chroma =>
      _ <- attempt env call_count ;;
      l <- chroma_entries st ;;
      Ok (Z.of_nat (length l))
  | FAISS _ => Raise AttributeError
  end.

(** [faiss.index.ntotal]. *)
Definition lib_ntotal (b : Backend) : result Z :=
  match b with
  | FAISS index => Ok (Z.of_nat (length index))
  | Chroma => Raise AttributeError
  end.

(** [FAISS.load_local(path, embeddings, ...)]. *)
Definition lib_load_local (env : Env) : M Backend :=
  lift (attempt env call_load_local) ;;;
  d <~ get faiss_disk ;;
  match d with
  | Some (Some index) => ret (FAISS index)
  | _ => raise (Exception "could not open index file")
  end.

(** [FAISS.from_documents(docs, embeddings)]. *)
Definition lib_from_documents (env : Env) (docs : list Document) : M Backend :=
  lift (attempt env (call_from_documents (map page_content docs))) ;;;
  u <~ get uuid_count ;;
  modify (set_uuid_count (u + length docs)%nat) ;;;
  ret (FAISS (fresh_entries env u docs)).

(** [faiss.save_local(path)]. *)
Definition lib_save_local (env : Env) (b : Backend) : M unit :=
  lift (attempt env call_save_local) ;;;
  match b with
  | FAISS index => modify (set_faiss_disk (Some (Some index)))
  | Chroma => raise AttributeError
  end.

(** [path.mkdir(parents=True, exist_ok=True)] and [shutil.rmtree(path)] on
    the two directories under [persist_directory]. *)
Definition mkdir_faiss (env : Env) : M unit :=
  p <~ get persist_directory ;;
  lift (attempt env (call_mkdir (p +:+ "/faiss_index"))) ;;;
  modify (fun st => match faiss_disk st with
                    | None => set_faiss_disk (Some None) st
                    | Some _ => st
                    end).

Definition rmtree_faiss (env : Env) : M unit :=
  p <~ get persist_directory ;;
  lift (attempt env (call_rmtree (p +:+ "/faiss_index"))) ;;;
  modify (set_faiss_disk None).

Definition mkdir_chroma (env : Env) : M unit :=
  p <~ get persist_directory ;;
  lift (attempt env (call_mkdir (p +:+ "/chroma"))).

Definition rmtree_chroma (env : Env) : M unit :=
  p <~ get persist_directory ;;
  lift (attempt env (call_rmtree (p +:+ "/chroma"))) ;;;
  modify (set_chroma_disk NoCollection).

(** ** vector_store.py: the methods *)

Definition LF : string := String (Ascii.ascii_of_nat 10) EmptyString.

(** [self.text_splitter]. *)
Definition text_splitter : TextSplitter.t :=
  TextSplitter.RecursiveCharacterTextSplitter 1000 200 [LF +:+ LF; LF; " "; ""].

Definition dummy_doc : Document :=
  mkDocument "Dummy document for initialization"
    (<["doc_id" := VStr "dummy"]> (<["source" := VStr "initialization"]> ∅)).

(** [self.vector_store.method(...)]: an attribute of [None] raises. *)
Definition with_store {A} (method : Backend -> M A) : M A :=
  v <~ get vector_store ;;
  match v with
  | Some b => method b
  | None => raise AttributeError
  end.

Definition is_schema_mismatch (msg : string) : bool :=
  Py.contains "no such column" msg || Py.contains "OperationalError" msg
  || Py.contains "schema" msg.

Definition _init_chroma (env : Env) : M unit :=
  mkdir_chroma env ;;;
  try_exceptM
    (b <~ lib_Chroma env ;; modify (set_vector_store (Some b)))
    (fun e =>
       if is_schema_mismatch (exn_str e)
       then try_exceptM
              (rmtree_chroma env ;;;
               mkdir_chroma env ;;;
               b <~ lib_Chroma env ;;
               modify (set_vector_store (Some b)))
              (fun e2 => raise e2)
       else raise e).

Definition _init_faiss (env : Env) : M unit :=
  mkdir_faiss env ;;;
  d <~ get faiss_disk ;;
  (if bool_decide (is_Some d)
   then try_exceptM
          (b <~ lib_load_local env ;; modify (set_vector_store (Some b)))
          (fun _ => modify (set_vector_store None))
   else ret tt) ;;;
  v <~ get vector_store ;;
  match v with
  | None =>
      b <~ lib_from_documents env [dummy_doc] ;;
      modify (set_vector_store (Some b))
  | Some _ => ret tt
  end.

Definition _initialize_vector_store (env : Env) : M unit :=
  try_exceptM
    (ty <~ get store_type ;;
     if String.eqb ty "chroma"
     then try_exceptM (_init_chroma env)
            (fun _ => modify (set_store_type "faiss") ;;; _init_faiss env)
     else if String.eqb ty "faiss" then _init_faiss env
     else raise (Exception ("Unsupported vector store type: " +:+ ty)))
    (fun e => raise e).

(** [VectorStore(store_type, persist_directory, embedding_model,
    collection_name)] on the disk and the uuid count found at that time
    (the caller's [persist_directory]; the default is a directory under the
    project root). When the result is [Ok], the state is the new object.
    The state holds the two directories under [persist_directory]; the
    directory itself, which the constructor creates first, shows only as
    the call [call_mkdir], which may fail. *)
Definition __init__ (env : Env) (store_type persist_directory embedding_model
    collection_name : string) (chroma : chroma_state)
    (faiss : option (option (list Entry))) (uuids : nat) : result unit * VectorStore :=
  (lift (attempt env (call_mkdir (Path.str persist_directory))) ;;;
   lift (attempt env call_HuggingFaceEmbeddings) ;;;
   _initialize_vector_store env)
    (mkVectorStore (Py.lower store_type) collection_name (Path.str persist_directory)
       embedding_model None chroma faiss uuids).

(** [doc.metadata.get('doc_id', default)]. *)
Definition get_doc_id (doc : Document) (default : string) : value :=
  match metadata doc !! "doc_id" with
  | Some v => v
  | None => VStr default
  end.

(** The [chunk.metadata.update({...})] of [add_documents] for chunk [i] of
    [total]; [u] is the uuid count before the two draws of this chunk. *)
Definition stamp (env : Env) (doc : Document) (total u i : nat) (chunk : Document)
    : Document :=
  mkDocument (page_content chunk)
    (update (metadata chunk)
       (<["parent_doc_id" := get_doc_id doc (uuid4_hex env (u + 2 * i + 1))]>
       (<["total_chunks" := VInt (Z.of_nat total)]>
       (<["chunk_index" := VInt (Z.of_nat i)]>
       (<["chunk_id" :=
            VStr (value_str env (get_doc_id doc (uuid4_hex env (u + 2 * i)))
                  +:+ "_" +:+ pretty (Z.of_nat i))]> ∅))))).

(** [text_splitter.split_documents([doc])]: one document per piece of the
    content, each with a copy of the metadata. *)
Definition split_documents (split : string -> result (list string)) (doc : Document)
    : result (list Document) :=
  texts <- split (page_content doc) ;;
  Ok (map (fun text => mkDocument text (metadata doc)) texts).

(** The body of the loop over [documents] in [add_documents]. *)
Definition chunk_document (env : Env) (split : string -> result (list string))
    (u : nat) (doc : Document) : result (list Document) :=
  chunks <- split_documents split doc ;;
  Ok (imap (stamp env doc (length chunks) u) chunks).

Fixpoint chunk_documents (env : Env) (split : string -> result (list string))
    (u : nat) (documents : list Document) : result (list Document * nat) :=
  match documents with
  | [] => Ok ([], u)
  | doc :: rest =>
      chunks <- chunk_document env split u doc ;;
      r <- chunk_documents env split (u + 2 * length chunks) rest ;;
      Ok (chunks ++ r.1, r.2)
  end.

Definition UnboundLocalError : exn := Exception "UnboundLocalError".

Definition add_documents (env : Env) (documents : list Document) : M (list string) :=
  try_exceptM
    (match documents with
     | [] => ret []
     | _ =>
         u <~ get uuid_count ;;
         r <~ lift (chunk_documents env (TextSplitter.split_text text_splitter) u documents) ;;
         let chunked_docs := r.1 in
         modify (set_uuid_count r.2) ;;;
         ty <~ get store_type ;;
         if String.eqb ty "chroma"
         then with_store (fun b => lib_add_documents env b chunked_docs)
         else if String.eqb ty "faiss"
         then ids <~ with_store (fun b => lib_add_documents env b chunked_docs) ;;
              with_store (lib_save_local env) ;;;
              ret ids
         else raise UnboundLocalError
     end)
    (fun e => raise e).

(** [if filter_metadata:]: neither [None] nor an empty dict. *)
Definition given (filter_metadata : option (gmap string value))
    : option (gmap string value) :=
  match filter_metadata with
  | Some f => if bool_decide (f = ∅) then None else Some f
  | None => None
  end.

Definition similarity_search (env : Env) (st : VectorStore) (query : string) (k : Z)
    (filter_metadata : option (gmap string value)) : result (list Document) :=
  try_except
    (match vector_store st with
     | None => Ok []
     | Some b =>
         if String.eqb (store_type st) "chroma"
         then match given filter_metadata with
              | Some f => lib_similarity_search env b query k (Some f) st
              | None => lib_similarity_search env b query k None st
              end
         else if String.eqb (store_type st) "faiss"
         then results <- lib_similarity_search env b query k None st ;;
              match given filter_metadata with
              | Some f => Ok (List.filter (fun doc => matches f doc) results)
              | None => Ok results
              end
         else Raise UnboundLocalError
     end)
    (fun _ => Ok []).

Definition similarity_search_with_score (env : Env) (st : VectorStore) (query : string)
    (k : Z) (filter_metadata : option (gmap string value))
    : result (list (Document * Q)) :=
  try_except
    (match vector_store st with
     | None => Ok []
     | Some b =>
         if String.eqb (store_type st) "chroma"
         then match given filter_metadata with
              | Some f => lib_similarity_search_with_score env b query k (Some f) st
              | None => lib_similarity_search_with_score env b query k None st
              end
         else if String.eqb (store_type st) "faiss"
         then results <- lib_similarity_search_with_score env b query k None st ;;
              match given filter_metadata with
              | Some f => Ok (List.filter (fun ds => matches f ds.1) results)
              | None => Ok results
              end
         else Raise UnboundLocalError
     end)
    (fun _ => Ok []).

Definition delete_documents (env : Env) (doc_ids : list string) : M bool :=
  try_exceptM
    (ty <~ get store_type ;;
     if String.eqb ty "chroma"
     then with_store (fun b => lib_delete env b doc_ids) ;;; ret true
     else if String.eqb ty "faiss" then ret false
     else ret true)
    (fun _ => ret false).

(** The value of [info["document_count"]], when the key is set. *)
Definition document_count (env : Env) (st : VectorStore) : option value :=
  if String.eqb (store_type st) "chroma"
  then Some (match (b <- (match vector_store st with
                          | Some b => Ok b
                          | None => Raise AttributeError
                          end) ;;
                    lib_count env b st) with
             | Ok n => VInt n
             | Raise _ => VStr "Unknown"
             end)
  else if String.eqb (store_type st) "faiss"
  then Some (match (b <- (match vector_store st with
                          | Some b => Ok b
                          | None => Raise AttributeError
                          end) ;;
                    lib_ntotal b) with
             | Ok n => VInt n
             | Raise _ => VStr "Unknown"
             end)
  else None.

(** The dict [info], as the list of its items in insertion order. *)
Definition get_collection_info (env : Env) (st : VectorStore) : list (string * value) :=
  let info :=
    [("store_type", VStr (store_type st));
     ("collection_name", VStr (collection_name st));
     ("persist_directory", VStr (persist_directory st));
     ("embedding_model", VStr (embedding_model st))] in
  match document_count env st with
  | Some c => info ++ [("document_count", c)]
  | None => info
  end.

Definition clear_collection (env : Env) : M bool :=
  try_exceptM
    (ty <~ get store_type ;;
     (if String.eqb ty "chroma"
      then with_store (lib_delete_collection env) ;;; _init_chroma env
      else if String.eqb ty "faiss"
      then d <~ get faiss_disk ;;
           (if bool_decide (is_Some d) then rmtree_faiss env else ret tt) ;;;
           _init_faiss env
      else ret tt) ;;;
     ret true)
    (fun _ => ret false).

(** ** document_processor.py: [process_directory] *)

Fixpoint glob_all (env : Env) (directory : string) (recursive : bool)
    (patterns : list string) : result (list string) :=
  match patterns with
  | [] => Ok []
  | pattern :: rest =>
      found <- path_glob env directory recursive pattern ;;
      more <- glob_all env directory recursive rest ;;
      Ok (found ++ more)
  end.

Fixpoint exclude_all (env : Env) (directory : string) (recursive : bool)
    (patterns : list string) (files : list string) : result (list string) :=
  match patterns with
  | [] => Ok files
  | pattern :: rest =>
      exclude_files <- path_glob env directory recursive pattern ;;
      exclude_all env directory recursive rest
        (List.filter (fun f => negb (bool_decide (f ∈ exclude_files))) files)
  end.

Fixpoint process_files (env : Env) (files : list string) : result (list Document) :=
  match files with
  | [] => Ok []
  | file_path :: rest =>
      documents <- (if is_supported env file_path
                    then process_file env file_path None
                    else Ok []) ;;
      more <- process_files env rest ;;
      Ok (documents ++ more)
  end.

Definition process_directory (env : Env) (directory_path : string) (recursive : bool)
    (file_patterns exclude_patterns : option (list string)) : result (list Document) :=
  try_except
    (let directory := Path.str directory_path in
     if negb (path_exists env directory) || negb (path_is_dir env directory) then Ok []
     else
       files <- path_glob env directory recursive "*" ;;
       let files := List.filter (path_is_file env) files in
       files <- match file_patterns with
                | Some ((_ :: _) as patterns) =>
                    filtered_files <- glob_all env directory recursive patterns ;;
                    Ok (List.filter (fun f => bool_decide (f ∈ filtered_files)) files)
                | _ => Ok files
                end ;;
       files <- match exclude_patterns with
                | Some patterns => exclude_all env directory recursive patterns files
                | None => Ok files
                end ;;
       process_files env files)
    (fun _ => Ok []).

(** ** retrieval_tool.py: [RAGRetrievalTool]

    The tool holds a [VectorStore] and a [DocumentProcessor]; its state is
    the state of the vector store. *)

(** The content preview of one result. *)
Definition preview (page_content : string) : string :=
  let content := Py.strip page_content in
  if 300 <? Py.len content then Py.take 300 content +:+ "..." else content.

(** The lines appended to [output] for one document, after its heading. *)
Definition document_lines (env : Env) (doc : Document) : list string :=
  (match metadata doc !! "source" with
   | Some v => ["Source: " +:+ value_str env v]
   | None => []
   end)
  ++ (match metadata doc !! "filename" with
      | Some v => ["File: " +:+ value_str env v]
      | None => []
      end)
  ++ (match metadata doc !! "chunk_index" with
      | Some v =>
          ["Chunk: " +:+ value_str env v +:+ "/"
             +:+ match metadata doc !! "total_chunks" with
                 | Some t => value_str env t
                 | None => "?"
                 end]
      | None => []
      end)
  ++ ["Content: " +:+ preview (page_content doc); ""].

(** The list [output] of [_format_results]. *)
Definition format_results_output (env : Env) (results : list Document) (query : string)
    : list string :=
  ("Found " +:+ pretty (Z.of_nat (length results))
     +:+ " relevant documents for query: '" +:+ query +:+ "'" +:+ LF)
  :: concat (imap (fun i doc =>
               ("--- Document " +:+ pretty (Z.of_nat (S i)) +:+ " ---")
               :: document_lines env doc) results).

Definition _format_results (env : Env) (results : list Document) (query : string) : string :=
  match results with
  | [] => "No documents found for query: '" +:+ query +:+ "'"
  | _ => Py.join LF (format_results_output env results query)
  end.

(** The list [output] of [_format_scored_results]. *)
Definition format_scored_results_output (env : Env) (results : list (Document * Q))
    (query : string) : list string :=
  ("Found " +:+ pretty (Z.of_nat (length results))
     +:+ " relevant documents for query: '" +:+ query +:+ "' (with relevance scores)" +:+ LF)
  :: concat (imap (fun i ds =>
               ("--- Document " +:+ pretty (Z.of_nat (S i)) +:+ " (Score: "
                  +:+ format_4f env ds.2 +:+ ") ---")
               :: document_lines env ds.1) results).

Definition _format_scored_results (env : Env) (results : list (Document * Q))
    (query : string) : string :=
  match results with
  | [] => "No documents found for query: '" +:+ query +:+ "'"
  | _ => Py.join LF (format_scored_results_output env results query)
  end.

Definition _retrieve_documents_structured (env : Env) (st : VectorStore) (query : string)
    (k : Z) (with_scores : bool) (filter_metadata : option (gmap string value))
    : result string :=
  try_except
    (if with_scores
     then results <- similarity_search_with_score env st query k filter_metadata ;;
          Ok (_format_scored_results env results query)
     else results <- similarity_search env st query k filter_metadata ;;
          Ok (_format_results env results query))
    (fun e => Ok ("Error retrieving documents: " +:+ exn_str e)).

Fixpoint process_each (env : Env) (file_paths : list string) : result (list Document) :=
  match file_paths with
  | [] => Ok []
  | file_path :: rest =>
      documents <- process_file env file_path None ;;
      more <- process_each env rest ;;
      Ok (documents ++ more)
  end.

Definition add_documents_from_files (env : Env) (file_paths : list string) : M string :=
  try_exceptM
    (all_documents <~ lift (process_each env file_paths) ;;
     match all_documents with
     | [] => ret "No valid documents found in the provided files."
     | _ =>
         let valid_docs := validate_documents all_documents in
         _ <~ add_documents env valid_docs ;;
         ret ("Successfully added " +:+ pretty (Z.of_nat (length valid_docs))
              +:+ " documents from " +:+ pretty (Z.of_nat (length file_paths))
              +:+ " files to knowledge base.")
     end)
    (fun e => ret ("Error adding documents from files: " +:+ exn_str e)).

Definition add_documents_from_directory (env : Env) (directory_path : string)
    (recursive : bool) (file_patterns : option (list string)) : M string :=
  try_exceptM
    (documents <~ lift (process_directory env directory_path recursive file_patterns None) ;;
     match documents with
     | [] => ret ("No valid documents found in directory '" +:+ directory_path +:+ "'.")
     | _ =>
         let valid_docs := validate_documents documents in
         _ <~ add_documents env valid_docs ;;
         ret ("Successfully added " +:+ pretty (Z.of_nat (length valid_docs))
              +:+ " documents from directory '" +:+ directory_path
              +:+ "' to knowledge base.")
     end)
    (fun e => ret ("Error adding documents from directory: " +:+ exn_str e)).

Definition add_text_document (env : Env) (text : string)
    (extra : option (gmap string value)) : M string :=
  try_exceptM
    (let document := process_text text extra in
     _ <~ add_documents env [document] ;;
     ret ("Successfully added text document to knowledge base (ID: "
          +:+ match metadata document !! "doc_id" with
              | Some v => value_str env v
              | None => "unknown"
              end
          +:+ ")."))
    (fun e => ret ("Error adding text document: " +:+ exn_str e)).

(** [key.replace('_', ' ').title()] on the keys of [info], which hold
    lower-case ASCII letters and underscores. *)
Fixpoint title_key (previous_is_cased : bool) (key : string) : string :=
  match key with
  | String c r =>
      let n := Py.ord c in
      if n =? 95 then String " " (title_key false r)
      else if (97 <=? n) && (n <=? 122)
      then String (if previous_is_cased then c else Py.chr (n - 32)) (title_key true r)
      else String c (title_key false r)
  | EmptyString => EmptyString
  end.

Definition tool_get_collection_info (env : Env) (st : VectorStore) : result string :=
  try_except
    (let info := get_collection_info env st in
     Ok (Py.join LF
           ("Vector Store Information:"
            :: map (fun kv => "- " +:+ title_key false kv.1 +:+ ": " +:+ value_str env kv.2)
                   info)))
    (fun e => Ok ("Error getting collection info: " +:+ exn_str e)).

Definition clear_knowledge_base (env : Env) : M string :=
  try_exceptM
    (success <~ clear_collection env ;;
     if (success : bool)
     then ret "Successfully cleared all documents from knowledge base."
     else ret "Failed to clear knowledge base.")
    (fun e => ret ("Error clearing knowledge base: " +:+ exn_str e)).

(** ** retrieval_tool.py: [RAGManagementTool] *)

(** [if x:] for an optional string: neither [None] nor the empty string. *)
Definition nonempty (x : option string) : option string :=
  match x with
  | Some s => if String.eqb s "" then None else Some s
  | None => None
  end.

Definition _manage_rag_structured (env : Env) (action : string) (path content title
    : option string) (recursive : bool) (patterns : option (list string)) : M string :=
  try_exceptM
    (let action := Py.strip (Py.lower action) in
     if String.eqb action "info" then (fun st => (tool_get_collection_info env st, st))
     else if String.eqb action "clear" then clear_knowledge_base env
     else if String.eqb action "add_file"
     then match nonempty path with
          | None => ret "Error: path parameter required for add_file action"
          | Some p => add_documents_from_files env [p]
          end
     else if String.eqb action "add_files"
     then match nonempty path with
          | None => ret "Error: path parameter required for add_files action"
          | Some p => add_documents_from_files env (map Py.strip (Py.split "," p))
          end
     else if String.eqb action "add_directory"
     then match nonempty path with
          | None => ret "Error: path parameter required for add_directory action"
          | Some p => add_documents_from_directory env p recursive patterns
          end
     else if String.eqb action "add_text"
     then match nonempty content with
          | None => ret "Error: content parameter required for add_text action"
          | Some c =>
              let extra : gmap string value :=
                match nonempty title with
                | Some t => <["title" := VStr t]> ∅
                | None => ∅
                end in
              add_text_document env c (Some extra)
          end
     else ret ("Unknown action: " +:+ action
               +:+ ". Available actions: add_file, add_files, add_directory, add_text, info, clear"))
    (fun e => ret ("Error managing RAG system: " +:+ exn_str e)).

(** ** Concrete environments and stores *)

(** An environment in which no library call fails, over a file system that
    holds two text files with the same content and a binary file. *)
Definition quiet_env : Env := {|
  path_exists := fun p =>
    String.eqb p "a.txt" || String.eqb p "b.txt" || String.eqb p "c.bin";
  path_is_dir := fun _ => false;
  path_is_file := fun p =>
    String.eqb p "a.txt" || String.eqb p "b.txt" || String.eqb p "c.bin";
  path_stat := fun p =>
    if String.eqb p "a.txt" || String.eqb p "b.txt" || String.eqb p "c.bin"
    then Ok (mkStat 5 (inject_Z 1700000000) (inject_Z 1700000000))
    else Raise (Exception "FileNotFoundError");
  path_glob := fun _ _ _ => Ok [];
  TextLoader_load := fun p =>
    if String.eqb p "a.txt" || String.eqb p "b.txt"
    then Ok [mkDocument "hello" (<["source" := VStr p]> ∅)]
    else Raise (Exception "RuntimeError");
  UnstructuredMarkdownLoader_load := fun _ => Raise (Exception "ImportError");
  PyPDFLoader_load := fun _ => Raise (Exception "ImportError");
  Docx2txtLoader_load := fun _ => Raise (Exception "ImportError");
  PDF_AVAILABLE := false;
  DOCX_AVAILABLE := false;
  uuid4_hex := fun n => "hex" +:+ pretty n;
  uuid4_str := fun n => "uuid-" +:+ pretty n;
  float_str := fun q => pretty (Qnum q) +:+ "/" +:+ pretty (Zpos (Qden q));
  format_4f := fun q => pretty (Qnum q) +:+ "/" +:+ pretty (Zpos (Qden q));
  distance := fun query text => inject_Z (Z.abs (Py.len query - Py.len text));
  fault := fun _ => None
|}.

(** The same environment with the faults [f]. *)
Definition with_fault (env : Env) (f : call -> option exn) : Env := {|
  path_exists := path_exists env;
  path_is_dir := path_is_dir env;
  path_is_file := path_is_file env;
  path_stat := path_stat env;
  path_glob := path_glob env;
  TextLoader_load := TextLoader_load env;
  UnstructuredMarkdownLoader_load := UnstructuredMarkdownLoader_load env;
  PyPDFLoader_load := PyPDFLoader_load env;
  Docx2txtLoader_load := Docx2txtLoader_load env;
  PDF_AVAILABLE := PDF_AVAILABLE env;
  DOCX_AVAILABLE := DOCX_AVAILABLE env;
  uuid4_hex := uuid4_hex env;
  uuid4_str := uuid4_str env;
  float_str := float_str env;
  format_4f := format_4f env;
  distance := distance env;
  fault := f
|}.

(** chromadb rejects a deletion that names no identifier. *)
Definition chromadb_env : Env :=
  with_fault quiet_env
    (fun c => match c with
              | call_delete [] => Some (Exception "ValueError")
              | _ => None
              end).

(** An embedding model that fails on every query. *)
Definition no_embedding_env : Env :=
  with_fault quiet_env
    (fun c => match c with
              | call_search _ _ => Some (Exception "RuntimeError")
              | _ => None
              end).

Definition faiss_store (index : list Entry) : VectorStore :=
  mkVectorStore "faiss" "langchain_agent_docs" "data/vector_store"
    "sentence-transformers/all-MiniLM-L6-v2" (Some (FAISS index)) NoCollection
    (Some (Some index)) 0.

Definition chroma_store (entries : list Entry) : VectorStore :=
  mkVectorStore "chroma" "langchain_agent_docs" "data/vector_store"
    "sentence-transformers/all-MiniLM-L6-v2" (Some Chroma) (Collection entries)
    None 0.

Definition sample_entry : Entry :=
  mkEntry "uuid-7" (mkDocument "RAG combines retrieval and generation"
    (<["doc_id" := VStr "d1"]> (<["source" := VStr "text_input"]> ∅))).

(** The entries a search on the store can draw from. *)
Definition stored_entries (st : VectorStore) : list Entry :=
  match vector_store st with
  | Some Chroma =>
      match chroma_disk st with
      | Collection l => l
      | _ => []
      end
  | Some (FAISS index) => index
  | None => []
  end.

(** The library's deletion goes through: the store holds a [Chroma]
    object on a readable collection and the call does not fail. *)
Definition delete_succeeds (env : Env) (st : VectorStore) (doc_ids : list string) : Prop :=
  vector_store st = Some Chroma
  ∧ fault env (call_delete doc_ids) = None
  ∧ ∃ l, chroma_disk st = Collection l.

(** [FAISS.load_local] would succeed on this disk. *)
Definition loadable (env : Env) (faiss : option (option (list Entry))) : bool :=
  match fault env call_load_local, faiss with
  | None, Some (Some _) => true
  | _, _ => false
  end.

(** The store holds a FAISS index whose only entry is the dummy document. *)
Definition only_dummy (env : Env) (st : VectorStore) : Prop :=
  (∃ id, vector_store st = Some (FAISS [mkEntry id dummy_doc]))
  ∧ page_content dummy_doc = "Dummy document for initialization"
  ∧ metadata dummy_doc !! "doc_id" = Some (VStr "dummy")
  ∧ In ("document_count", VInt 1) (get_collection_info env st)
  ∧ ∀ query k, 1 <= k → fault env (call_search query k) = None →
      similarity_search env st query k None = Ok [dummy_doc].

(** The actions of the management tool. *)
Definition known_actions : list string :=
  ["info"; "clear"; "add_file"; "add_files"; "add_directory"; "add_text"].

(** The caller's metadata does not set [doc_id]. *)
Definition no_doc_id (extra : option (gmap string value)) : Prop :=
  match extra with
  | Some m => m !! "doc_id" = None
  | None => True
  end.

(** Two texts with the same MD5 digest. *)
Definition collision_X : string :=
  "TEXTCOLLBYfGiJUETHQ4hAcKSMd5zYpgqf1YRDhkmxHkhPWptrkoyz28wnI9V0aHeAuaKnak".
Definition collision_Y : string :=
  "TEXTCOLLBYfGiJUETHQ4hEcKSMd5zYpgqf1YRDhkmxHkhPWptrkoyz28wnI9V0aHeAuaKnak".

(** The four keys [add_documents] sets on a chunk. *)
Definition chunk_keys : list string :=
  ["chunk_id"; "chunk_index"; "total_chunks"; "parent_doc_id"].

(** The metadata of chunk [i] of [total] of a document whose [doc_id] is
    [id]. *)
Definition stamped (env : Env) (doc : Document) (id : value) (total i : nat)
    (chunk : Document) : Prop :=
  metadata chunk !! "chunk_id"
    = Some (VStr (value_str env id +:+ "_" +:+ pretty (Z.of_nat i)))
  ∧ metadata chunk !! "chunk_index" = Some (VInt (Z.of_nat i))
  ∧ metadata chunk !! "total_chunks" = Some (VInt (Z.of_nat total))
  ∧ metadata chunk !! "parent_doc_id" = Some id
  ∧ (∀ key, key ∉ chunk_keys → metadata chunk !! key = metadata doc !! key)
  ∧ (∃ chunk_id, metadata chunk !! "chunk_id" = Some (VStr chunk_id)
                 ∧ Py.startswith (value_str env id) chunk_id = true).

(** [c * n]: the character repeated. *)
Fixpoint repeat_char (c : ascii) (n : nat) : string :=
  match n with
  | O => EmptyString
  | S n' => String c (repeat_char c n')
  end.

(** A stored chunk of 301 characters, the last one a space. *)
Definition padded_entry : Entry :=
  mkEntry "uuid-9" (mkDocument (repeat_char "a" 300 +:+ " ") ∅).

(** What the splitter makes of a text that fits in one chunk: the text
    without its surrounding whitespace, or nothing when nothing is left. *)
Definition whole (text : string) : list string :=
  if String.eqb (Py.strip text) "" then [] else [Py.strip text].

(** A document as tests/test_rag_system.py passes to [add_documents]:
    its metadata has no [doc_id]. *)
Definition test_doc : Document :=
  mkDocument "Python is a high-level programming language."
    (<["category" := VStr "programming"]> (<["source" := VStr "test1"]> ∅)).

(** A document of 1500 characters, without [doc_id] either. *)
Definition long_test_doc : Document :=
  mkDocument (repeat_char "a" 1500) (<["source" := VStr "test2"]> ∅).

(** The library call made by a search fails: the embedding of the query or
    the search itself raises, or the collection behind the [Chroma] object
    cannot be read. *)
Definition search_fails (env : Env) (st : VectorStore) (query : string) (k : Z) : Prop :=
  is_Some (fault env (call_search query k))
  ∨ (vector_store st = Some Chroma ∧ ∃ e, chroma_entries st = Raise e).

(** Unfolds the operations of [M]. *)
Ltac run := unfold bindM, lift, get, modify, ret, raise, try_exceptM, attempt in *.

(** A chunk as the splitter is meant to cut it: not empty, without
    surrounding whitespace, of at most [size] characters. *)
Definition well_cut (size : Z) (chunk : string) : Prop :=
  chunk ≠ "" ∧ Py.strip chunk = chunk ∧ Py.len chunk <= size.

(** The backend object is the one [store_type] names. *)
Definition backend_matches (st : VectorStore) : Prop :=
  (store_type st = "chroma" ∧ vector_store st = Some Chroma)
  ∨ (store_type st = "faiss" ∧ ∃ index, vector_store st = Some (FAISS index)).

(** The attributes that no method assigns after construction. *)
Definition same_attributes (st st' : VectorStore) : Prop :=
  collection_name st' = collection_name st
  ∧ persist_directory st' = persist_directory st
  ∧ embedding_model st' = embedding_model st.

(** No directory operation fails. *)
Definition directories_work (env : Env) : Prop :=
  ∀ path, fault env (call_mkdir path) = None ∧ fault env (call_rmtree path) = None.


(** [get_supported_extensions]: the keys of the table in insertion order. *)
Definition get_supported_extensions (env : Env) : list string :=
  [".txt"; ".md"; ".py"; ".js"; ".json"; ".yaml"; ".yml"; ".xml"; ".html"; ".css"; ".sql"]
  ++ (if PDF_AVAILABLE env then [".pdf"] else [])
  ++ (if DOCX_AVAILABLE env then [".docx"] else []).

(** A document [validate_documents] lets through unchanged. *)
Definition valid_document (doc : Document) : Prop :=
  Py.strip (page_content doc) ≠ "" ∧ is_Some (metadata doc !! "doc_id").

(** ** More of Python's [str], for the parsers *)

Module PyStr.

(** [s.count(c)] for a one-character [c]. *)
Fixpoint count (c : ascii) (s : string) : Z :=
  match s with
  | String a r => (if Ascii.eqb a c then 1 else 0) + count c r
  | EmptyString => 0
  end.

(** [s.split()]: the maximal runs of characters that are not whitespace. *)
Fixpoint words (s : string) : list string :=
  match s with
  | EmptyString => []
  | String c r =>
      if Py.isspace c then words r
      else match r with
           | EmptyString => [String c EmptyString]
           | String d _ =>
               if Py.isspace d then String c EmptyString :: words r
               else match words r with
                    | w :: ws => String c w :: ws
                    | [] => [String c EmptyString]
                    end
           end
  end.

(** [c in s] for a one-character [c]. *)
Definition has (c : ascii) (s : string) : bool := Py.contains (String c EmptyString) s.

(** [s.split(c, 1)] when [c in s]: what is before and what is after the
    first [c]; [None] when [c] does not occur. *)
Fixpoint split1 (c : ascii) (s : string) : option (string * string) :=
  match s with
  | EmptyString => None
  | String a r =>
      if Ascii.eqb a c then Some (EmptyString, r)
      else match split1 c r with
           | Some (before, after) => Some (String a before, after)
           | None => None
           end
  end.

End PyStr.

Definition LF_char : ascii := Ascii.ascii_of_nat 10.

(** ** document_processor.py: [extract_metadata_from_content] *)

(** The loop over [lines[:10]]: the title, when the loop sets one. *)
Fixpoint find_title (lines : list string) : option string :=
  match lines with
  | [] => None
  | line :: rest =>
      let line := Py.strip line in
      if negb (String.eqb line "") && negb (Py.startswith "#" line)
      then if Py.len line <? 100 then Some line else None
      else if Py.startswith "# " line then Some (Py.strip (Py.drop 2 line))
      else find_title rest
  end.

Definition extract_metadata_from_content (content : string) (file_path : option string)
    : gmap string value :=
  let metadata : gmap string value :=
    <["line_count" := VInt (PyStr.count LF_char content + 1)]>
    (<["word_count" := VInt (Z.of_nat (length (PyStr.words content)))]>
    (<["content_length" := VInt (Py.len content)]> ∅)) in
  match nonempty file_path with
  | Some _ =>
      match find_title (firstn 10 (Py.split LF_char content)) with
      | Some title => <["extracted_title" := VStr title]> metadata
      | None => metadata
      end
  | None => metadata
  end.

(** ** retrieval_tool.py: the string interface of [RAGRetrievalTool] *)

(** One step of the loop of [_parse_filter]. *)
Definition parse_pair (filter_metadata : gmap string string) (pair : string)
    : gmap string string :=
  match PyStr.split1 "=" pair with
  | Some (key, value) => <[Py.strip key := Py.strip value]> filter_metadata
  | None => filter_metadata
  end.

Definition _parse_filter (filter_str : string) : gmap string string :=
  if String.eqb filter_str "" then ∅
  else foldl parse_pair ∅ (Py.split "," filter_str).

(** One step of the loop of [_parse_input]. *)
Definition parse_part (params : gmap string string) (part : string) : gmap string string :=
  match PyStr.split1 ":" part with
  | Some (key, value) => <[Py.strip key := Py.strip value]> params
  | None =>
      match params !! "query" with
      | None => <["query" := Py.strip part]> params
      | Some _ => params
      end
  end.

Definition _parse_input (input_str : string) : gmap string string :=
  if PyStr.has "|" input_str
  then foldl parse_part ∅ (Py.split "|" input_str)
  else <["query" := Py.strip input_str]> ∅.

(** [_retrieve_documents]; [int] is the builtin [int] on strings. *)
Definition _retrieve_documents (int : string -> result Z) (env : Env) (st : VectorStore)
    (input_str : string) : result string :=
  try_except
    (let params := _parse_input input_str in
     let query := default (Py.strip input_str) (params !! "query") in
     k <- match params !! "k" with
          | Some s => int s
          | None => Ok 5
          end ;;
     let with_scores := String.eqb (Py.lower (default "false" (params !! "with_scores"))) "true" in
     let filter_metadata :=
       match nonempty (params !! "filter") with
       | Some filter_str => Some (VStr <$> _parse_filter filter_str)
       | None => None
       end in
     if with_scores
     then results <- similarity_search_with_score env st query k filter_metadata ;;
          Ok (_format_scored_results env results query)
     else results <- similarity_search env st query k filter_metadata ;;
          Ok (_format_results env results query))
    (fun e => Ok ("Error retrieving documents: " +:+ exn_str e)).

(** ** retrieval_tool.py: the string interface of [RAGManagementTool] *)

(** The dict [_parse_directory_params] returns: [directory] is always
    set, the other two keys only by a part that names them. *)
Record directory_params : Type := mkDirectoryParams {
  directory : string;
  recursive_param : option bool;
  patterns_param : option (list string)
}.

(** One step of the loop over [parts[1:]]. *)
Definition parse_directory_part (params : directory_params) (part : string)
    : directory_params :=
  match PyStr.split1 ":" part with
  | Some (key, value) =>
      let key := Py.strip key in
      let value := Py.strip value in
      if String.eqb key "recursive"
      then mkDirectoryParams (directory params)
             (Some (String.eqb (Py.lower value) "true")) (patterns_param params)
      else if String.eqb key "patterns"
      then mkDirectoryParams (directory params) (recursive_param params)
             (Some (map Py.strip (Py.split "," value)))
      else params
  | None => params
  end.

Definition _parse_directory_params (params_str : string) : directory_params :=
  let params := mkDirectoryParams (Py.strip params_str) None None in
  if PyStr.has "|" params_str
  then match Py.split "|" params_str with
       | first :: rest =>
           foldl parse_directory_part
             (mkDirectoryParams (Py.strip first) None None) rest
       | [] => params
       end
  else params.

(** One step of the loop over [parts[1:]]. *)
Definition parse_text_part (params : gmap string string) (part : string)
    : gmap string string :=
  match PyStr.split1 ":" part with
  | Some (key, value) => <[Py.strip key := Py.strip value]> params
  | None => params
  end.

Definition _parse_text_params (params_str : string) : gmap string string :=
  let params : gmap string string := <["text" := Py.strip params_str]> ∅ in
  if PyStr.has "|" params_str
  then match Py.split "|" params_str with
       | first :: rest => foldl parse_text_part (<["text" := Py.strip first]> params) rest
       | [] => params
       end
  else params.

Definition _manage_rag (env : Env) (input_str : string) : M string :=
  try_exceptM
    (match PyStr.split1 ":" input_str with
     | None =>
         if String.eqb (Py.lower (Py.strip input_str)) "info"
         then (fun st => (tool_get_collection_info env st, st))
         else if String.eqb (Py.lower (Py.strip input_str)) "clear"
         then clear_knowledge_base env
         else ret "Invalid action. Use 'info' or 'clear', or specify action:parameters format."
     | Some (action, params_str) =>
         let action := Py.lower (Py.strip action) in
         if String.eqb action "add_file"
         then add_documents_from_files env [Py.strip params_str]
         else if String.eqb action "add_files"
         then add_documents_from_files env (map Py.strip (Py.split "," params_str))
         else if String.eqb action "add_directory"
         then let params := _parse_directory_params params_str in
              add_documents_from_directory env (directory params)
                (default true (recursive_param params)) (patterns_param params)
         else if String.eqb action "add_text"
         then let params := _parse_text_params params_str in
              let extra : gmap string value :=
                match params !! "title" with
                | Some t => <["title" := VStr t]> ∅
                | None => ∅
                end in
              match params !! "text" with
              | Some text => add_text_document env text (Some extra)
              | None => raise (Exception "'text'")
              end
         else ret ("Unknown action: " +:+ action
                   +:+ ". Available actions: add_file, add_files, add_directory, add_text, info, clear")
     end)
    (fun e => ret ("Error managing RAG system: " +:+ exn_str e)).

(** The format the docstring of [_parse_filter] names:
    [key=value,key2=value2]. *)
Definition filter_string (pairs : list (string * string)) : string :=
  Py.join "," (map (fun kv => kv.1 +:+ "=" +:+ kv.2) pairs).

(** A key and a value that the format can carry: without surrounding
    whitespace, without a comma, the key without an equals sign. *)
Definition clean_pair (kv : string * string) : Prop :=
  Py.strip kv.1 = kv.1 ∧ Py.strip kv.2 = kv.2
  ∧ PyStr.has "," kv.1 = false ∧ PyStr.has "," kv.2 = false
  ∧ PyStr.has "=" kv.1 = false.

(** A file system with a directory [docs] that holds a text file, a text
    file of nothing but blanks and a binary file; no library call fails. *)
Definition docs_env : Env := {|
  path_exists := fun p =>
    String.eqb p "docs" || String.eqb p "docs/a.txt" || String.eqb p "docs/blank.txt"
    || String.eqb p "docs/c.bin";
  path_is_dir := fun p => String.eqb p "docs";
  path_is_file := fun p =>
    String.eqb p "docs/a.txt" || String.eqb p "docs/blank.txt" || String.eqb p "docs/c.bin";
  path_stat := fun _ => Ok (mkStat 5 (inject_Z 1700000000) (inject_Z 1700000000));
  path_glob := fun d _ pattern =>
    if negb (String.eqb d "docs") then Ok []
    else if String.eqb pattern "*" then Ok ["docs/a.txt"; "docs/blank.txt"; "docs/c.bin"]
    else if String.eqb pattern "*.txt" then Ok ["docs/a.txt"; "docs/blank.txt"]
    else if String.eqb pattern "blank*" then Ok ["docs/blank.txt"]
    else Ok [];
  TextLoader_load := fun p =>
    Ok [mkDocument (if String.eqb p "docs/blank.txt" then "  " else "hello")
          (<["source" := VStr p]> ∅)];
  UnstructuredMarkdownLoader_load := fun _ => Raise (Exception "ImportError");
  PyPDFLoader_load := fun _ => Raise (Exception "ImportError");
  Docx2txtLoader_load := fun _ => Raise (Exception "ImportError");
  PDF_AVAILABLE := false;
  DOCX_AVAILABLE := false;
  uuid4_hex := fun n => "hex" +:+ pretty n;
  uuid4_str := fun n => "uuid-" +:+ pretty n;
  float_str := fun q => pretty (Qnum q) +:+ "/" +:+ pretty (Zpos (Qden q));
  format_4f := fun q => pretty (Qnum q) +:+ "/" +:+ pretty (Zpos (Qden q));
  distance := fun query text => inject_Z (Z.abs (Py.len query - Py.len text));
  fault := fun _ => None
|}.

(** A stored chunk without surrounding whitespace. *)
Definition stripped_entry (e : Entry) : Prop :=
  Py.strip (page_content (entry_doc e)) = page_content (entry_doc e).

(** Every chunk a search on the store can draw from is stripped. *)
Definition stripped_store (st : VectorStore) : Prop :=
  Forall stripped_entry (stored_entries st).

(** The same of everything the object and its two directories hold. *)
Definition stripped_state (st : VectorStore) : Prop :=
  (∀ index, vector_store st = Some (FAISS index) → Forall stripped_entry index)
  ∧ (∀ l, chroma_disk st = Collection l → Forall stripped_entry l)
  ∧ (∀ l, faiss_disk st = Some (Some l) → Forall stripped_entry l).

(** A backend object over stripped chunks. *)
Definition stripped_backend (b : Backend) : Prop :=
  ∀ index, b = FAISS index → Forall stripped_entry index.

(** The computation keeps everything stripped, whatever its outcome, and
    a value it returns satisfies [P]. *)
Definition returns {A} (P : A → Prop) (c : M A) : Prop :=
  ∀ st r st', stripped_state st → c st = (r, st') →
    stripped_state st' ∧ ∀ a, r = Ok a → P a.

(** The stores the code builds: constructed on an empty directory or on
    the directory an earlier store left, then changed by the methods that
    write, whatever their outcome. *)
Inductive reachable (env : Env) : VectorStore → Prop :=
| reach_new ty persist model name uuids r st :
    __init__ env ty persist model name NoCollection None uuids = (r, st) →
    reachable env st
| reach_reopen ty persist model name st0 r st :
    reachable env st0 →
    __init__ env ty persist model name (chroma_disk st0) (faiss_disk st0) (uuid_count st0)
      = (r, st) →
    reachable env st
| reach_add documents st0 r st :
    reachable env st0 → add_documents env documents st0 = (r, st) → reachable env st
| reach_delete doc_ids st0 r st :
    reachable env st0 → delete_documents env doc_ids st0 = (r, st) → reachable env st
| reach_clear st0 r st :
    reachable env st0 → clear_collection env st0 = (r, st) → reachable env st.

(** A store the code builds: constructed on an empty directory, then
    given a document of 1500 characters. *)
Definition built_store : VectorStore :=
  (add_documents quiet_env [long_test_doc]
     (__init__ quiet_env "faiss" "data/vector_store"
        "sentence-transformers/all-MiniLM-L6-v2" "langchain_agent_docs"
        NoCollection None 0).2).2.

(** * Properties *)

Example md5_empty : MD5.hexdigest (Py.encode_utf8 "") = "d41d8cd98f00b204e9800998ecf8427e".
Proof. vm_compute. reflexivity. Qed.

Example md5_abc : MD5.hexdigest (Py.encode_utf8 "abc") = "900150983cd24fb0d6963f7d28e17f72".
Proof. vm_compute. reflexivity. Qed.

Example md5_long :
  MD5.hexdigest (Py.encode_utf8
    "12345678901234567890123456789012345678901234567890123456789012345678901234567890")
  = "57edf4a22be3c955ac49da2e2107b67a".
Proof. vm_compute. reflexivity. Qed.

Example split_text_small :
  TextSplitter.split_text (TextSplitter.RecursiveCharacterTextSplitter 10 3 [LF +:+ LF; LF; " "; ""])
    " aa bb cc dd ee ff gg "
  = Ok ["aa bb cc"; "cc dd ee"; "ee ff gg"].
Proof. vm_compute. reflexivity. Qed.

(** ** Exceptions and handlers *)

Lemma try_except_ok {A} (body : result A) (h : exn -> A) :
  ∃ a, try_except body (fun e => Ok (h e)) = Ok a.
Proof. destruct body; simpl; eauto. Qed.

Lemma try_exceptM_ok {A} (body : M A) (h : exn -> A) (st : VectorStore) :
  ∃ a st', try_exceptM body (fun e => ret (h e)) st = (Ok a, st').
Proof.
  unfold try_exceptM, ret. destruct (body st) as [[a|e] st']; eauto.
Qed.

(** ** Adding documents *)

(** C5: [add_documents] of the empty list returns the empty list and
    leaves the whole state of the vector store, on disk and in memory, as
    it was; in particular the document count is the same. *)
Theorem add_documents_empty (env : Env) (st : VectorStore) :
  ∃ st', add_documents env [] st = (Ok [], st')
         ∧ st' = st
         ∧ document_count env st' = document_count env st.
Proof. exists st. repeat split. Qed.

(** ** Searching *)

Lemma lib_search_with_score_raises env st b query k f :
  vector_store st = Some b →
  search_fails env st query k →
  ∃ e, lib_similarity_search_with_score env b query k f st = Raise e.
Proof.
  intros Hb [[e He] | [Hc [e He]]]; unfold lib_similarity_search_with_score, attempt.
  - rewrite He. simpl. eauto.
  - destruct (fault env (call_search query k)); simpl; eauto.
    rewrite Hb in Hc. injection Hc as ->. rewrite He. simpl. eauto.
Qed.

Lemma lib_search_raises env st b query k f :
  vector_store st = Some b →
  search_fails env st query k →
  ∃ e, lib_similarity_search env b query k f st = Raise e.
Proof.
  intros Hb Hf. unfold lib_similarity_search.
  destruct (lib_search_with_score_raises env st b query k f Hb Hf) as [e ->].
  simpl. eauto.
Qed.

Lemma search_swallows_errors_plain env st query k f :
  ∃ docs, similarity_search env st query k f = Ok docs.
Proof. unfold similarity_search. apply (try_except_ok _ (fun _ => [])). Qed.

Lemma search_swallows_errors_scored env st query k f :
  ∃ scored, similarity_search_with_score env st query k f = Ok scored.
Proof. unfold similarity_search_with_score. apply (try_except_ok _ (fun _ => [])). Qed.

(** C4: the two search operations always return a list, never an
    exception, and the list is empty whenever the library call fails. *)
Theorem search_swallows_errors (env : Env) (st : VectorStore) (query : string) (k : Z)
    (filter_metadata : option (gmap string value)) :
  (∃ docs, similarity_search env st query k filter_metadata = Ok docs)
  ∧ (∃ scored, similarity_search_with_score env st query k filter_metadata = Ok scored)
  ∧ (search_fails env st query k →
     similarity_search env st query k filter_metadata = Ok []
     ∧ similarity_search_with_score env st query k filter_metadata = Ok []).
Proof.
  split; [apply search_swallows_errors_plain|].
  split; [apply search_swallows_errors_scored|].
  intros Hf. unfold similarity_search, similarity_search_with_score.
  destruct (vector_store st) as [b|] eqn:Hb; [|split; reflexivity].
  split.
  - destruct (String.eqb (store_type st) "chroma").
    + destruct (given filter_metadata) as [f|];
        [destruct (lib_search_raises env st b query k (Some f) Hb Hf) as [e ->]
        |destruct (lib_search_raises env st b query k None Hb Hf) as [e ->]];
        reflexivity.
    + destruct (String.eqb (store_type st) "faiss"); [|reflexivity].
      destruct (lib_search_raises env st b query k None Hb Hf) as [e ->].
      reflexivity.
  - destruct (String.eqb (store_type st) "chroma").
    + destruct (given filter_metadata) as [f|];
        [destruct (lib_search_with_score_raises env st b query k (Some f) Hb Hf) as [e ->]
        |destruct (lib_search_with_score_raises env st b query k None Hb Hf) as [e ->]];
        reflexivity.
    + destruct (String.eqb (store_type st) "faiss"); [|reflexivity].
      destruct (lib_search_with_score_raises env st b query k None Hb Hf) as [e ->].
      reflexivity.
Qed.

(** A query whose embedding fails and a query that matches nothing give
    the same answer. *)
Lemma search_swallows_errors_witness :
  search_fails no_embedding_env (faiss_store [sample_entry]) "what is RAG" 1
  ∧ similarity_search no_embedding_env (faiss_store [sample_entry]) "what is RAG" 1 None
    = similarity_search quiet_env (faiss_store []) "what is RAG" 1 None
  ∧ similarity_search quiet_env (faiss_store [sample_entry]) "what is RAG" 1 None
    = Ok [entry_doc sample_entry].
Proof.
  assert (H : search_fails no_embedding_env (faiss_store [sample_entry]) "what is RAG" 1).
  { left. simpl. eauto. }
  split; [exact H|]. split; [|reflexivity].
  destruct (search_swallows_errors no_embedding_env (faiss_store [sample_entry])
              "what is RAG" 1 None) as (_ & _ & Hempty).
  destruct (Hempty H) as [-> _]. reflexivity.
Defined.

(** What a search returns is stored. *)

Lemma insert_by_In env query e l x :
  In x (insert_by env query e l) ↔ x = e ∨ In x l.
Proof.
  induction l as [|y l IH]; simpl.
  - intuition.
  - destruct (Qle_bool _ _); simpl; rewrite ?IH; intuition.
Qed.

Lemma nearest_In env query l x : In x (nearest env query l) ↔ In x l.
Proof.
  induction l as [|y l IH]; simpl; [reflexivity|].
  rewrite insert_by_In, IH. intuition.
Qed.

Lemma firstn_In' {A} (n : nat) (l : list A) x : In x (firstn n l) → In x l.
Proof.
  revert l. induction n as [|n IH]; intros [|y l]; simpl; try tauto.
  intros [->|H]; auto.
Qed.

Lemma lib_search_with_score_stored env b query k f st r :
  vector_store st = Some b →
  lib_similarity_search_with_score env b query k f st = Ok r →
  ∀ ds, In ds r → ∃ e, In e (stored_entries st) ∧ ds = scored env query e
                      ∧ match f with Some m => matches m (entry_doc e) = true | None => True end.
Proof.
  intros Hb. unfold lib_similarity_search_with_score, stored_entries. rewrite Hb.
  destruct (attempt env (call_search query k)); simpl; [|discriminate].
  assert (Hkept : ∀ entries ds,
    In ds (map (scored env query) (firstn (Z.to_nat k) (nearest env query
       match f with
       | Some m => List.filter (fun e => matches m (entry_doc e)) entries
       | None => entries
       end))) →
    ∃ e, In e entries ∧ ds = scored env query e
         ∧ match f with Some m => matches m (entry_doc e) = true | None => True end).
  { intros entries ds Hin. apply in_map_iff in Hin as (e & <- & Hin).
    apply firstn_In', nearest_In in Hin. exists e.
    destruct f as [m|]; [apply filter_In in Hin as [? ?]|]; auto. }
  destruct b as [|index].
  - unfold chroma_entries. destruct (chroma_disk st); simpl; try discriminate.
    intros [= <-]. apply Hkept.
  - simpl. intros [= <-]. apply Hkept.
Qed.

Lemma similarity_search_stored env st query k f docs :
  similarity_search env st query k f = Ok docs →
  ∀ doc, In doc docs → ∃ e, In e (stored_entries st) ∧ entry_doc e = doc.
Proof.
  unfold similarity_search. destruct (vector_store st) as [b|] eqn:Hb; simpl.
  2:{ intros [= <-] doc []. }
  assert (Hlib : ∀ f' r, lib_similarity_search env b query k f' st = Ok r →
            ∀ doc, In doc r → ∃ e, In e (stored_entries st) ∧ entry_doc e = doc).
  { intros f' r. unfold lib_similarity_search.
    destruct (lib_similarity_search_with_score env b query k f' st) as [r'|] eqn:Hr;
      simpl; [|discriminate].
    intros [= <-] doc Hin. apply in_map_iff in Hin as (ds & <- & Hin).
    destruct (lib_search_with_score_stored _ _ _ _ _ _ _ Hb Hr ds Hin) as (e & He & -> & _).
    exists e. auto. }
  destruct (String.eqb (store_type st) "chroma").
  - destruct (given f) as [m|].
    + destruct (lib_similarity_search env b query k (Some m) st) eqn:Hr; simpl.
      * intros [= <-]. eapply Hlib; eauto.
      * intros [= <-] doc [].
    + destruct (lib_similarity_search env b query k None st) eqn:Hr; simpl.
      * intros [= <-]. eapply Hlib; eauto.
      * intros [= <-] doc [].
  - destruct (String.eqb (store_type st) "faiss"); simpl.
    2:{ intros [= <-] doc []. }
    destruct (lib_similarity_search env b query k None st) as [r|] eqn:Hr; simpl.
    2:{ intros [= <-] doc []. }
    destruct (given f) as [m|]; simpl; intros [= <-] doc Hin.
    + apply filter_In in Hin as [Hin _]. eapply Hlib; eauto.
    + eapply Hlib; eauto.
Qed.

(** ** Deleting *)

(** C3, as the code has it: on the FAISS backend [delete_documents]
    returns [False] and changes nothing; on the Chroma backend it returns
    [True] exactly when the library's deletion goes through, and then every
    later search result comes from an entry that was not named; when the
    library's deletion raises it returns [False] and changes nothing. *)
Theorem delete_documents_by_backend (env : Env) (st : VectorStore) (doc_ids : list string) :
  (store_type st = "faiss" → delete_documents env doc_ids st = (Ok false, st))
  ∧ (store_type st = "chroma" →
     ∃ ok st', delete_documents env doc_ids st = (Ok ok, st')
       ∧ (ok = true ↔ delete_succeeds env st doc_ids)
       ∧ (ok = false → st' = st)
       ∧ (ok = true →
          ∀ query k f docs, similarity_search env st' query k f = Ok docs →
          ∀ doc, In doc docs →
          ∃ e, In e (stored_entries st) ∧ (entry_id e ∉ doc_ids) ∧ entry_doc e = doc)).
Proof.
  split; intros Hty.
  - unfold delete_documents, try_exceptM, bindM, get. rewrite Hty. reflexivity.
  - unfold delete_documents, try_exceptM, bindM, get, with_store, bindM, get.
    rewrite Hty. simpl. unfold delete_succeeds.
    destruct (vector_store st) as [[|index]|] eqn:Hb; simpl.
    + unfold lib_delete, bindM, lift, attempt.
      destruct (fault env (call_delete doc_ids)) as [e|] eqn:Hfault; simpl.
      * exists false, st. repeat split; try discriminate.
        intros (_ & ? & _). discriminate.
      * unfold chroma_entries.
        destruct (chroma_disk st) as [|l|msg] eqn:Hdisk; simpl.
        -- exists false, st. repeat split; try discriminate.
           intros (_ & _ & l & ?). discriminate.
        -- eexists true, _. split; [reflexivity|]. split; [|split].
           ++ split; eauto.
           ++ discriminate.
           ++ intros _ query k f docs Hs doc Hin.
              destruct (similarity_search_stored _ _ _ _ _ _ Hs doc Hin) as (e & He & Hdoc).
              unfold stored_entries in *. simpl in He. rewrite Hb in *. rewrite Hdisk.
              apply filter_In in He as [He Hid]. exists e. repeat split; auto.
              apply negb_true_iff, bool_decide_eq_false in Hid. exact Hid.
        -- exists false, st. repeat split; try discriminate.
           intros (_ & _ & l & ?). discriminate.
    + exists false, st. unfold lib_delete, bindM, lift, attempt.
      destruct (fault env (call_delete doc_ids)); simpl;
        (repeat split; try discriminate; intros (? & _); discriminate).
    + exists false, st. repeat split; try discriminate.
      intros (? & _). discriminate.
Qed.

Lemma delete_documents_by_backend_witness :
  delete_documents quiet_env ["uuid-7"] (faiss_store [sample_entry])
    = (Ok false, faiss_store [sample_entry])
  ∧ ∃ ok st', delete_documents quiet_env ["uuid-7"] (chroma_store [sample_entry])
                = (Ok ok, st')
              ∧ ok = true
              ∧ similarity_search quiet_env st' "what is RAG" 1 None = Ok [].
Proof.
  split.
  - apply (delete_documents_by_backend quiet_env (faiss_store [sample_entry]) ["uuid-7"]).
    reflexivity.
  - destruct (proj2 (delete_documents_by_backend quiet_env (chroma_store [sample_entry])
                       ["uuid-7"]) eq_refl) as (ok & st' & Hrun & Hok & _ & _).
    exists ok, st'. split; [exact Hrun|]. split.
    + apply Hok. split; [reflexivity|]. split; [reflexivity|]. eexists. reflexivity.
    + vm_compute in Hrun. injection Hrun as _ <-. reflexivity.
Defined.

(** The claim as stated fails: on the Chroma backend a deletion that the
    library rejects, here the one that names no identifier, returns
    [False]. *)
Lemma delete_documents_chroma_false :
  store_type (chroma_store [sample_entry]) = "chroma"
  ∧ delete_documents chromadb_env [] (chroma_store [sample_entry])
    = (Ok false, chroma_store [sample_entry]).
Proof. split; reflexivity. Qed.

(** ** The FAISS backend starts from a dummy document *)

Lemma _init_faiss_fresh env st st' :
  loadable env (faiss_disk st) = false →
  _init_faiss env st = (Ok tt, st') →
  store_type st' = store_type st
  ∧ ∃ id, vector_store st' = Some (FAISS [mkEntry id dummy_doc]).
Proof.
  unfold _init_faiss, mkdir_faiss, loadable, lib_load_local, lib_from_documents. run.
  destruct (fault env (call_mkdir _)); simpl; [discriminate|].
  destruct (fault env call_load_local) eqn:Hload;
    destruct (faiss_disk st) as [[index|]|] eqn:Hdisk; simpl; rewrite ?Hdisk; simpl;
    try discriminate; intros _;
    destruct (fault env (call_from_documents _)); simpl; rewrite ?Hdisk; simpl;
    try discriminate; intros [= <-]; simpl; eauto.
Qed.

Lemma only_dummy_intro env st id :
  store_type st = "faiss" →
  vector_store st = Some (FAISS [mkEntry id dummy_doc]) →
  only_dummy env st.
Proof.
  intros Hty Hb. unfold only_dummy. split; [eauto|]. split; [reflexivity|].
  split; [reflexivity|]. split.
  - unfold get_collection_info, document_count. rewrite Hty, Hb. simpl.
    do 4 right. left. reflexivity.
  - intros query k Hk Hfault. unfold similarity_search. rewrite Hty, Hb. simpl.
    unfold lib_similarity_search, lib_similarity_search_with_score, attempt.
    rewrite Hfault. simpl.
    destruct (Z.to_nat k) as [|[|n]] eqn:Hn; [lia| |]; reflexivity.
Qed.

(** C2: a [VectorStore] constructed on the FAISS backend when no index can
    be loaded, and a FAISS store after every [clear_collection] that
    reports success, hold exactly one entry, the dummy document; the
    collection info counts 1 document and a search that asks for at least
    one result returns the dummy document. *)
Theorem faiss_holds_dummy (env : Env) :
  (∀ ty persist model name chroma faiss uuids st,
     Py.lower ty = "faiss" →
     loadable env faiss = false →
     __init__ env ty persist model name chroma faiss uuids = (Ok tt, st) →
     only_dummy env st)
  ∧ (∀ st st',
       store_type st = "faiss" →
       clear_collection env st = (Ok true, st') →
       only_dummy env st').
Proof.
  split.
  - intros ty persist model name chroma faiss uuids st Hty Hload.
    unfold __init__, _initialize_vector_store. run. simpl. rewrite Hty. simpl.
    destruct (fault env (call_mkdir _)); simpl; [discriminate|].
    destruct (fault env call_HuggingFaceEmbeddings); simpl; [discriminate|].
    destruct (_init_faiss env _) as [[[]|e] st1] eqn:Hinit; simpl; [|discriminate].
    intros [= <-].
    apply _init_faiss_fresh in Hinit as [Hty' [id Hb]]; [|exact Hload].
    eapply only_dummy_intro; eauto.
  - intros st st' Hty. unfold clear_collection. run. rewrite Hty. simpl.
    destruct (faiss_disk st) as [d|] eqn:Hdisk; simpl.
    + unfold rmtree_faiss. run.
      destruct (fault env (call_rmtree _)); simpl; [discriminate|].
      destruct (_init_faiss env _) as [[[]|e] st1] eqn:Hinit; simpl; [|discriminate].
      intros [= <-].
      apply _init_faiss_fresh in Hinit as [Hty' [id Hb]].
      * eapply only_dummy_intro; eauto. rewrite Hty'. exact Hty.
      * unfold loadable. destruct (fault env call_load_local); reflexivity.
    + destruct (_init_faiss env _) as [[[]|e] st1] eqn:Hinit; simpl; [|discriminate].
      intros [= <-].
      apply _init_faiss_fresh in Hinit as [Hty' [id Hb]].
      * eapply only_dummy_intro; eauto. congruence.
      * rewrite Hdisk. unfold loadable. destruct (fault env call_load_local); reflexivity.
Qed.

Lemma faiss_holds_dummy_witness :
  (∃ st, __init__ quiet_env "FAISS" "data/vector_store" "all-MiniLM-L6-v2" "docs"
           NoCollection None 0 = (Ok tt, st)
         ∧ only_dummy quiet_env st)
  ∧ (∃ st', clear_collection quiet_env (faiss_store [sample_entry]) = (Ok true, st')
            ∧ only_dummy quiet_env st').
Proof.
  split; eexists; (split; [reflexivity|]).
  - apply (proj1 (faiss_holds_dummy quiet_env) "FAISS" "data/vector_store"
             "all-MiniLM-L6-v2" "docs" NoCollection None 0%nat _
             eq_refl eq_refl eq_refl).
  - apply (proj2 (faiss_holds_dummy quiet_env) (faiss_store [sample_entry]) _
             eq_refl eq_refl).
Defined.

(** ** The document processor *)

(** C8: [process_file] returns the empty list, and does not raise, when
    the file does not exist or when the extension of its path is not a key
    of [supported_extensions]. *)
Theorem process_file_fails_soft (env : Env) (file_path : string)
    (extra : option (gmap string value)) :
  path_exists env (Path.str file_path) = false
  ∨ supported_extensions env !! Py.lower (Path.suffix (Path.str file_path)) = None →
  process_file env file_path extra = Ok [].
Proof.
  intros H. unfold process_file, is_supported.
  destruct (path_exists env (Path.str file_path)); simpl; [|reflexivity].
  destruct H as [H|H]; [discriminate|]. rewrite H. reflexivity.
Qed.

Lemma process_file_fails_soft_witness :
  path_exists quiet_env (Path.str "missing.txt") = false
  ∧ process_file quiet_env "missing.txt" None = Ok []
  ∧ path_exists quiet_env (Path.str "c.bin") = true
  ∧ process_file quiet_env "c.bin" None = Ok [].
Proof.
  split; [reflexivity|]. split.
  - apply (process_file_fails_soft quiet_env "missing.txt" None). left. reflexivity.
  - split; [reflexivity|].
    apply (process_file_fails_soft quiet_env "c.bin" None). right. reflexivity.
Defined.

(** C1, as the code has it: the [doc_id] of [process_text] is the MD5 hex
    digest of the UTF-8 encoding of the text, whatever other metadata the
    caller passes, so identical content always receives the identical
    [doc_id]; and a document that [validate_documents] completes receives
    the digest of its content. *)
Theorem doc_id_from_content (text : string) (extra1 extra2 : option (gmap string value)) :
  no_doc_id extra1 → no_doc_id extra2 →
  metadata (process_text text extra1) !! "doc_id"
    = Some (VStr (MD5.hexdigest (Py.encode_utf8 text)))
  ∧ metadata (process_text text extra1) !! "doc_id"
    = metadata (process_text text extra2) !! "doc_id"
  ∧ ∀ doc, metadata doc !! "doc_id" = None → Py.strip (page_content doc) ≠ "" →
      ∃ doc', validate_documents [doc] = [doc']
              ∧ page_content doc' = page_content doc
              ∧ metadata doc' !! "doc_id"
                = Some (VStr (MD5.hexdigest (Py.encode_utf8 (page_content doc)))).
Proof.
  assert (Hid : ∀ extra, no_doc_id extra →
            metadata (process_text text extra) !! "doc_id"
            = Some (VStr (MD5.hexdigest (Py.encode_utf8 text)))).
  { intros [m|] Hm; unfold process_text, update; simpl.
    - rewrite lookup_union_r by exact Hm.
      rewrite lookup_insert_ne by discriminate. apply lookup_insert_eq.
    - rewrite lookup_insert_ne by discriminate. apply lookup_insert_eq. }
  intros H1 H2. split; [auto|]. split; [rewrite !Hid; auto|].
  intros doc Hnone Hcontent. unfold validate_documents. simpl.
  destruct (String.eqb_spec (Py.strip (page_content doc)) ""); [contradiction|].
  rewrite Hnone. simpl. eexists. split; [reflexivity|]. split; [reflexivity|].
  simpl. apply lookup_insert_eq.
Qed.

Lemma doc_id_from_content_witness :
  metadata (process_text "X" (Some (<["title" := VStr "T"]> ∅))) !! "doc_id"
  = metadata (process_text "X" None) !! "doc_id".
Proof.
  apply (doc_id_from_content "X" (Some (<["title" := VStr "T"]> ∅)) None).
  - reflexivity.
  - exact I.
Defined.

(** The claim as stated fails twice: two different texts receive the
    same [doc_id], and [process_file] gives two files with the same content
    different [doc_id]s. *)
Lemma doc_id_not_injective_nor_content_based :
  (collision_X ≠ collision_Y
   ∧ metadata (process_text collision_X None) !! "doc_id"
     = metadata (process_text collision_Y None) !! "doc_id")
  ∧ (∃ da db, process_file quiet_env "a.txt" None = Ok [da]
              ∧ process_file quiet_env "b.txt" None = Ok [db]
              ∧ page_content da = page_content db
              ∧ metadata da !! "doc_id" ≠ metadata db !! "doc_id").
Proof.
  split.
  - split; [discriminate|]. vm_compute. reflexivity.
  - eexists _, _. split; [vm_compute; reflexivity|]. split; [vm_compute; reflexivity|].
    split; [reflexivity|]. vm_compute. discriminate.
Qed.

(** ** The management tool *)

Lemma eqb_not_in (a x : string) (l : list string) :
  a ∉ x :: l → String.eqb a x = false ∧ a ∉ l.
Proof.
  intros H. split.
  - apply String.eqb_neq. intros ->. apply H. left.
  - intros Hin. apply H. right. exact Hin.
Qed.

(** C9: the structured dispatch always returns a string; an unknown action
    and a missing [path] or [content] (absent or empty) give the error
    string of that case and leave the state as it was. *)
Theorem manage_rag_structured_errors (env : Env) (st : VectorStore) (action : string)
    (path content title : option string) (recursive : bool)
    (patterns : option (list string)) :
  let a := Py.strip (Py.lower action) in
  let outcome :=
    _manage_rag_structured env action path content title recursive patterns st in
  (∃ s st', outcome = (Ok s, st'))
  ∧ (a ∉ known_actions →
     outcome = (Ok ("Unknown action: " +:+ a
       +:+ ". Available actions: add_file, add_files, add_directory, add_text, info, clear"),
       st))
  ∧ (a ∈ ["add_file"; "add_files"; "add_directory"] → nonempty path = None →
     outcome = (Ok ("Error: path parameter required for " +:+ a +:+ " action"), st))
  ∧ (a = "add_text" → nonempty content = None →
     outcome = (Ok "Error: content parameter required for add_text action", st)).
Proof.
  intros a outcome. subst outcome. unfold _manage_rag_structured. fold a.
  split; [apply (try_exceptM_ok _ (fun e => "Error managing RAG system: " +:+ exn_str e))|].
  split; [|split].
  - intros Hun. unfold known_actions in Hun.
    repeat (apply eqb_not_in in Hun as [-> Hun]). reflexivity.
  - intros Hin Hpath. rewrite Hpath.
    apply elem_of_cons in Hin as [->|Hin]; [reflexivity|].
    apply elem_of_cons in Hin as [->|Hin]; [reflexivity|].
    apply elem_of_cons in Hin as [->|Hin]; [reflexivity|].
    apply elem_of_nil in Hin as [].
  - intros -> Hcontent. rewrite Hcontent. reflexivity.
Qed.

Lemma manage_rag_structured_errors_witness :
  _manage_rag_structured quiet_env "add_text" None (Some "") (Some "Empty") true None
    (faiss_store [sample_entry])
  = (Ok "Error: content parameter required for add_text action", faiss_store [sample_entry])
  ∧ _manage_rag_structured quiet_env " Add_File " None None None true None
      (faiss_store [sample_entry])
    = (Ok "Error: path parameter required for add_file action", faiss_store [sample_entry])
  ∧ _manage_rag_structured quiet_env "drop" None None None true None
      (faiss_store [sample_entry])
    = (Ok "Unknown action: drop. Available actions: add_file, add_files, add_directory, add_text, info, clear",
       faiss_store [sample_entry]).
Proof.
  pose proof (manage_rag_structured_errors quiet_env (faiss_store [sample_entry])
                "add_text" None (Some "") (Some "Empty") true None) as (_ & _ & _ & H1).
  pose proof (manage_rag_structured_errors quiet_env (faiss_store [sample_entry])
                " Add_File " None None None true None) as (_ & _ & H2 & _).
  pose proof (manage_rag_structured_errors quiet_env (faiss_store [sample_entry])
                "drop" None None None true None) as (_ & H3 & _).
  split; [apply H1; reflexivity|]. split.
  - apply H2; [|reflexivity]. left.
  - apply H3. vm_compute. intros H.
    repeat (apply elem_of_cons in H as [H|H]; [discriminate|]).
    apply elem_of_nil in H as [].
Defined.

(** ** Chunk metadata *)

Lemma startswith_app (p s : string) : Py.startswith p (p +:+ s) = true.
Proof.
  induction p as [|c p IH]; simpl; [reflexivity|].
  rewrite Ascii.eqb_refl. exact IH.
Qed.

Lemma map_imap_const {A B C} (g : B → C) (h : A → C) (f : nat → A → B) (l : list A) :
  (∀ i x, g (f i x) = h x) → map g (imap f l) = map h l.
Proof.
  revert f. induction l as [|x l IH]; intros f Hf; simpl; [reflexivity|].
  rewrite Hf. f_equal. apply IH. intros i y. apply Hf.
Qed.

Lemma stamp_stamped env doc id total u i chunk :
  metadata doc !! "doc_id" = Some id →
  metadata chunk = metadata doc →
  stamped env doc id total i (stamp env doc total u i chunk).
Proof.
  intros Hid Hmeta. unfold stamped, stamp, update, get_doc_id. simpl. rewrite Hid.
  assert (Hcid : ∀ (v w x y : value) (m : gmap string value),
    (<["parent_doc_id" := v]> (<["total_chunks" := w]> (<["chunk_index" := x]>
       (<["chunk_id" := y]> ∅))) ∪ m) !! "chunk_id" = Some y).
  { intros. erewrite lookup_union_Some_l; [reflexivity|].
    rewrite !lookup_insert_ne by discriminate. apply lookup_insert_eq. }
  split; [apply Hcid|]. split; [|split; [|split; [|split]]].
  - erewrite lookup_union_Some_l; [reflexivity|].
    rewrite !lookup_insert_ne by discriminate. apply lookup_insert_eq.
  - erewrite lookup_union_Some_l; [reflexivity|].
    rewrite !lookup_insert_ne by discriminate. apply lookup_insert_eq.
  - erewrite lookup_union_Some_l; [reflexivity|]. apply lookup_insert_eq.
  - intros key Hkey. unfold chunk_keys in Hkey. rewrite Hmeta.
    apply lookup_union_r.
    rewrite !lookup_insert_ne; [apply lookup_empty|..];
      intros <-; apply Hkey; set_solver.
  - eexists. split; [apply Hcid|]. apply startswith_app.
Qed.

Lemma chunk_document_stamped env split u doc id chunks :
  metadata doc !! "doc_id" = Some id →
  chunk_document env split u doc = Ok chunks →
  split (page_content doc) = Ok (map page_content chunks)
  ∧ ∀ i chunk, chunks !! i = Some chunk → stamped env doc id (length chunks) i chunk.
Proof.
  intros Hid. unfold chunk_document, split_documents.
  destruct (split (page_content doc)) as [texts|e]; simpl; [|discriminate].
  intros [= <-]. split.
  - f_equal. rewrite (map_imap_const page_content page_content) by reflexivity.
    rewrite map_map. simpl. symmetry. apply map_id.
  - intros i chunk. rewrite length_imap, list_lookup_imap.
    destruct (map _ texts !! i) as [c|] eqn:Hc; simpl; [|discriminate].
    intros [= <-]. apply stamp_stamped; [exact Hid|].
    apply list_elem_of_lookup_2, list_elem_of_In, in_map_iff in Hc as (t & <- & _).
    reflexivity.
Qed.

Lemma chunk_documents_stamped env (split : string → result (list string)) u u'
    (documents chunked : list Document) :
  Forall (fun doc => is_Some (metadata doc !! "doc_id")) documents →
  chunk_documents env split u documents = Ok (chunked, u') →
  ∃ groups,
    chunked = concat groups
    ∧ Forall2 (fun doc group =>
         ∃ id, metadata doc !! "doc_id" = Some id
               ∧ split (page_content doc) = Ok (map page_content group)
               ∧ ∀ i chunk, group !! i = Some chunk →
                   stamped env doc id (length group) i chunk)
        documents groups.
Proof.
  intros Hids. revert u chunked u'.
  induction Hids as [|doc documents [id Hid] _ IH]; intros u chunked u'; simpl.
  - intros [= <- <-]. exists []. split; [reflexivity|constructor].
  - destruct (chunk_document env split u doc) as [chunks|e] eqn:Hdoc; simpl; [|discriminate].
    destruct (chunk_documents env split _ documents) as [[rest u'']|e] eqn:Hrest;
      simpl; [|discriminate].
    intros [= <- <-].
    destruct (IH _ _ _ Hrest) as (groups & -> & Hgroups).
    exists (chunks :: groups). split; [reflexivity|].
    constructor; [|exact Hgroups].
    exists id. split; [exact Hid|]. eapply chunk_document_stamped; eauto.
Qed.

Lemma lib_add_documents_stored env b docs st ids st' :
  vector_store st = Some b →
  lib_add_documents env b docs st = (Ok ids, st') →
  map entry_doc (stored_entries st') = map entry_doc (stored_entries st) ++ docs.
Proof.
  intros Hb. unfold lib_add_documents. run.
  destruct (fault env (call_add_documents _)); simpl; [discriminate|].
  assert (Hnew : ∀ l, map entry_doc (l ++ fresh_entries env (uuid_count st) docs)
                      = map entry_doc l ++ docs).
  { intros l. rewrite map_app. f_equal. unfold fresh_entries.
    rewrite (map_imap_const entry_doc id) by reflexivity. apply map_id. }
  destruct b as [|index]; simpl.
  - unfold chroma_entries, stored_entries. rewrite Hb. simpl.
    destruct (chroma_disk st) as [|l|msg]; simpl; try discriminate.
    intros [= _ <-]. simpl. rewrite Hb. apply Hnew.
  - intros [= _ <-]. unfold stored_entries. simpl. rewrite Hb. apply Hnew.
Qed.

Lemma lib_save_local_stored env b st st' :
  lib_save_local env b st = (Ok tt, st') → stored_entries st' = stored_entries st.
Proof.
  unfold lib_save_local. run.
  destruct (fault env call_save_local); simpl; [discriminate|].
  destruct b; simpl; [discriminate|]. intros [= <-]. reflexivity.
Qed.

(** X29: for documents that carry a [doc_id], the chunks [add_documents] puts
    into the store are, document by document and in order, the pieces the
    splitter returns, each with the metadata of its document and with
    [chunk_id], [chunk_index] (its position, from 0), [total_chunks] (the
    number of pieces of that document) and [parent_doc_id] (the document's
    [doc_id], with which its [chunk_id] starts). *)
Theorem chunks_carry_parent_metadata (env : Env) (st st' : VectorStore)
    (documents : list Document) (ids : list string) :
  Forall (fun doc => is_Some (metadata doc !! "doc_id")) documents →
  add_documents env documents st = (Ok ids, st') →
  ∃ groups,
    map entry_doc (stored_entries st')
      = map entry_doc (stored_entries st) ++ concat groups
    ∧ Forall2 (fun doc group =>
         ∃ id, metadata doc !! "doc_id" = Some id
               ∧ TextSplitter.split_text text_splitter (page_content doc)
                 = Ok (map page_content group)
               ∧ ∀ i chunk, group !! i = Some chunk →
                   stamped env doc id (length group) i chunk)
        documents groups.
Proof.
  intros Hids. unfold add_documents.
  destruct documents as [|doc documents].
  { intros [= <- <-]. exists []. split; [symmetry; apply app_nil_r|constructor]. }
  set (docs := doc :: documents) in *. run.
  destruct (chunk_documents env _ (uuid_count st) docs) as [[chunked u']|e] eqn:Hchunk;
    simpl; [|discriminate].
  destruct (chunk_documents_stamped _ _ _ _ _ _ Hids Hchunk) as (groups & -> & Hgroups).
  intros Hadd. exists groups. split; [|exact Hgroups].
  set (st1 := set_uuid_count u' st) in *.
  assert (Hst1 : stored_entries st1 = stored_entries st) by reflexivity.
  assert (Hb1 : vector_store st1 = vector_store st) by reflexivity.
  assert (Hty1 : store_type st1 = store_type st) by reflexivity.
  rewrite <- Hst1. clearbody st1. unfold with_store in Hadd. run.
  rewrite ?Hty1 in Hadd.
  destruct (String.eqb (store_type st) "chroma");
    [|destruct (String.eqb (store_type st) "faiss"); [|discriminate]];
    cbv beta in Hadd;
    (destruct (vector_store st1) as [b|] eqn:Hb; [|discriminate]);
    (destruct (lib_add_documents env b (concat groups) st1) as [[ids'|e] st2] eqn:Hlib;
       [|discriminate]);
    (apply lib_add_documents_stored in Hlib; [|exact Hb]); rewrite <- Hlib.
  - injection Hadd as _ <-. reflexivity.
  - destruct (vector_store st2) as [b2|]; [|discriminate].
    destruct (lib_save_local env b2 st2) as [[[]|e] st3] eqn:Hsave; [|discriminate].
    injection Hadd as _ <-. f_equal. eapply lib_save_local_stored; eauto.
Qed.

Lemma chunks_carry_parent_metadata_witness :
  ∃ ids st',
    add_documents quiet_env [process_text "hello world" None] (faiss_store [])
      = (Ok ids, st')
    ∧ ∃ groups, map entry_doc (stored_entries st') = concat groups
                ∧ length groups = 1%nat.
Proof.
  destruct (add_documents quiet_env [process_text "hello world" None] (faiss_store []))
    as [[ids|e] st'] eqn:Hadd; [|vm_compute in Hadd; discriminate].
  exists ids, st'. split; [reflexivity|].
  assert (Hids : Forall (fun doc => is_Some (metadata doc !! "doc_id"))
                   [process_text "hello world" None]).
  { constructor; [|constructor]. vm_compute. eauto. }
  destruct (chunks_carry_parent_metadata quiet_env (faiss_store []) st'
              [process_text "hello world" None] ids Hids Hadd) as (groups & Heq & Hall).
  exists groups. split; [exact Heq|].
  apply Forall2_length in Hall. symmetry. exact Hall.
Defined.

(** ** Formatting the results *)

Lemma string_length_app (a b : string) :
  String.length (a +:+ b) = (String.length a + String.length b)%nat.
Proof. induction a as [|c a IH]; simpl; [reflexivity|]. rewrite IH. reflexivity. Qed.

Lemma take_length (n : nat) (s : string) :
  String.length (Py.take n s) = Nat.min n (String.length s).
Proof.
  revert s. induction n as [|n IH]; intros [|c s]; simpl; try reflexivity.
  rewrite IH. reflexivity.
Qed.

Lemma join_head_nonempty (sep : string) (c : ascii) (p x : string) (l : list string) :
  Py.join sep ((String c p +:+ x) :: l) ≠ "".
Proof. destruct l; simpl; discriminate. Qed.

Lemma In_concat_imap {A B} (g : A → B) (f : nat → A → list B) (l : list A) (x : A) :
  (∀ i y, In (g y) (f i y)) → In x l → In (g x) (concat (imap f l)).
Proof.
  revert f. induction l as [|y l IH]; intros f Hf; simpl; [tauto|].
  intros [->|Hin]; apply in_or_app; [left; apply Hf|right].
  apply IH; [intros i z; apply Hf|exact Hin].
Qed.

Lemma content_line env doc :
  In ("Content: " +:+ preview (page_content doc)) (document_lines env doc).
Proof.
  unfold document_lines. repeat (apply in_or_app; right). left. reflexivity.
Qed.

Lemma preview_spec (page_content : string) :
  let content := Py.strip page_content in
  (300 < Py.len content →
   preview page_content = Py.take 300 content +:+ "..."
   ∧ Py.len (preview page_content) = 303)
  ∧ (Py.len content <= 300 → preview page_content = content).
Proof.
  intros content. unfold preview. fold content. split; intros H.
  - apply Z.ltb_lt in H as Hb. rewrite Hb. split; [reflexivity|].
    unfold Py.len in *. rewrite string_length_app, take_length.
    change (String.length "...") with 3%nat. lia.
  - apply Z.ltb_ge in H. rewrite H. reflexivity.
Qed.

Lemma format_results_spec env (docs : list Document) (query : string) :
  _format_results env docs query ≠ ""
  ∧ (docs = [] → _format_results env docs query
                 = "No documents found for query: '" +:+ query +:+ "'")
  ∧ (docs ≠ [] →
     ∃ output, _format_results env docs query = Py.join LF output
               ∧ ∀ doc, In doc docs →
                   In ("Content: " +:+ preview (page_content doc)) output).
Proof.
  destruct docs as [|d docs].
  - split; [discriminate|]. split; [reflexivity|]. intros []. reflexivity.
  - change (_format_results env (d :: docs) query)
      with (Py.join LF (format_results_output env (d :: docs) query)).
    split; [apply join_head_nonempty|]. split; [discriminate|].
    intros _. eexists. split; [reflexivity|]. intros doc Hin. right.
    apply (In_concat_imap (fun doc => "Content: " +:+ preview (page_content doc)));
      [|exact Hin].
    intros i y. right. apply content_line.
Qed.

Lemma format_scored_results_spec env (scored : list (Document * Q)) (query : string) :
  _format_scored_results env scored query ≠ ""
  ∧ (map fst scored = [] → _format_scored_results env scored query
                            = "No documents found for query: '" +:+ query +:+ "'")
  ∧ (map fst scored ≠ [] →
     ∃ output, _format_scored_results env scored query = Py.join LF output
               ∧ ∀ doc, In doc (map fst scored) →
                   In ("Content: " +:+ preview (page_content doc)) output).
Proof.
  destruct scored as [|ds scored].
  - split; [discriminate|]. split; [reflexivity|]. intros []. reflexivity.
  - change (_format_scored_results env (ds :: scored) query)
      with (Py.join LF (format_scored_results_output env (ds :: scored) query)).
    split; [apply join_head_nonempty|]. split; [discriminate|].
    intros _. eexists. split; [reflexivity|]. intros doc Hin. right.
    apply in_map_iff in Hin as (ds' & <- & Hin).
    apply (In_concat_imap (fun ds => "Content: " +:+ preview (page_content ds.1)));
      [|exact Hin].
    intros i y. right. apply content_line.
Qed.

(** ** The splitter on a text that fits in one chunk *)

Lemma append_cons (c : ascii) (s t : string) : String c s +:+ t = String c (s +:+ t).
Proof. reflexivity. Qed.

Lemma append_nil_r (s : string) : s +:+ "" = s.
Proof.
  induction s as [|c s IH]; [reflexivity|]. rewrite append_cons, IH. reflexivity.
Qed.

Lemma append_assoc (a b c : string) : (a +:+ b) +:+ c = a +:+ b +:+ c.
Proof.
  induction a as [|x a IH]; [reflexivity|]. rewrite !append_cons, IH. reflexivity.
Qed.

Lemma join_empty_cons (x : string) (l : list string) :
  Py.join "" (x :: l) = x +:+ Py.join "" l.
Proof. destruct l; simpl; [symmetry; apply append_nil_r|reflexivity]. Qed.

Lemma len_app (a b : string) : Py.len (a +:+ b) = Py.len a + Py.len b.
Proof. unfold Py.len. rewrite string_length_app. lia. Qed.

Lemma len_nonneg (a : string) : 0 <= Py.len a.
Proof. unfold Py.len. lia. Qed.

Lemma len_pos (a : string) : a ≠ "" → 1 <= Py.len a.
Proof. destruct a; [congruence|]. unfold Py.len. simpl. lia. Qed.

Lemma sep_if_zero (b : bool) : TextSplitter.sep_if b 0 = 0.
Proof. destruct b; reflexivity. Qed.

Lemma merge_loop_fits (s : TextSplitter.t) (splits docs current : list string) (total : Z) :
  total + Py.len (Py.join "" splits) <= TextSplitter._chunk_size s →
  TextSplitter.merge_loop s "" splits docs current total
  = Ok (TextSplitter.add_doc docs (TextSplitter._join_docs (current ++ splits) "")).
Proof.
  revert current total. induction splits as [|d splits IH]; intros current total Hfit.
  - simpl. rewrite app_nil_r. reflexivity.
  - rewrite join_empty_cons, len_app in Hfit.
    pose proof (len_nonneg (Py.join "" splits)) as Hrest.
    cbn [TextSplitter.merge_loop].
    change (Py.len "") with 0. rewrite !sep_if_zero.
    replace (TextSplitter._chunk_size s <? total + Py.len d + 0) with false
      by (symmetry; apply Z.ltb_ge; lia).
    cbn [bind]. rewrite sep_if_zero. rewrite IH by lia.
    rewrite <- app_assoc. reflexivity.
Qed.

Lemma pieces_loop_small (s : TextSplitter.t) (new_separators : list string)
    (recurse : string → result (list string)) (splits final good : list string) :
  Forall (fun p => Py.len p < TextSplitter._chunk_size s) splits →
  TextSplitter.pieces_loop s new_separators recurse splits final good
  = match good ++ splits with
    | [] => Ok final
    | _ => merged_text <- TextSplitter._merge_splits s (good ++ splits) "" ;;
           Ok (final ++ merged_text)
    end.
Proof.
  intros Hsmall. revert good.
  induction Hsmall as [|p splits Hp _ IH]; intros good.
  - simpl. rewrite app_nil_r. destruct good; reflexivity.
  - cbn [TextSplitter.pieces_loop].
    apply Z.ltb_lt in Hp. rewrite Hp, IH, <- app_assoc. reflexivity.
Qed.

(** The pieces of a text, put together again, are the text. *)

Lemma drop_length (n : nat) (s : string) :
  String.length (Py.drop n s) = (String.length s - n)%nat.
Proof. revert s. induction n as [|n IH]; intros [|c s]; simpl; auto. Qed.

Lemma startswith_drop (p s : string) :
  Py.startswith p s = true → s = p +:+ Py.drop (String.length p) s.
Proof.
  revert s. induction p as [|a p IH]; intros [|b s]; simpl; try discriminate; auto.
  destruct (Ascii.eqb_spec a b) as [->|]; [|discriminate].
  intros H. rewrite append_cons. f_equal. apply IH. exact H.
Qed.

Lemma segments_skip (sep : string) (n : nat) (text : string) :
  (n <= String.length text)%nat →
  TextSplitter.segments sep n text = TextSplitter.segments sep 0 (Py.drop n text).
Proof.
  revert n. induction text as [|c r IH]; intros [|n] Hn; simpl in *;
    try reflexivity; try lia.
  apply IH. lia.
Qed.

Lemma segments_cat (sep text : string) :
  sep ≠ "" →
  ∃ first rest,
    TextSplitter.segments sep 0 text = first :: rest
    ∧ first +:+ Py.join "" (map (fun seg => sep +:+ seg) rest) = text.
Proof.
  intros Hsep. remember (String.length text) as n eqn:Hn. revert text Hn.
  induction n as [n IH] using lt_wf_ind. intros [|c r] Hn.
  - exists "", []. split; reflexivity.
  - cbn [TextSplitter.segments].
    destruct (Py.startswith sep (String c r)) eqn:Hstart.
    + apply startswith_drop in Hstart as Htext.
      destruct sep as [|a sep']; [congruence|].
      cbn [String.length Py.drop] in Htext.
      assert (Hlen : String.length (String c r)
                     = (String.length (String a sep') + String.length (Py.drop (String.length sep') r))%nat).
      { rewrite Htext at 1. apply string_length_app. }
      cbn [String.length] in Hlen.
      replace (String.length (String a sep') - 1)%nat with (String.length sep')
        by (simpl; lia).
      rewrite segments_skip by lia.
      destruct (IH (String.length (Py.drop (String.length sep') r))) with
        (text := Py.drop (String.length sep') r) as (first & rest & Hseg & Hcat);
        [simpl in Hn; lia|reflexivity|].
      rewrite Hseg. exists "", (first :: rest). split; [reflexivity|].
      cbn [map]. rewrite join_empty_cons, append_assoc, Hcat. simpl. symmetry. exact Htext.
    + destruct (IH (String.length r)) with (text := r) as (first & rest & Hseg & Hcat);
        [simpl in Hn; lia|reflexivity|].
      rewrite Hseg. exists (String c first), rest. split; [reflexivity|].
      rewrite append_cons, Hcat. reflexivity.
Qed.

Lemma join_empty_filter (l : list string) :
  Py.join "" (filter (fun s => s ≠ "") l) = Py.join "" l.
Proof.
  induction l as [|x l IH]; [reflexivity|].
  rewrite filter_cons. destruct (decide (x ≠ "")) as [Hx|Hx].
  - rewrite !join_empty_cons, IH. reflexivity.
  - apply dec_stable in Hx. subst x. rewrite join_empty_cons, IH. reflexivity.
Qed.

Lemma chars_spec (text : string) :
  Py.join "" (TextSplitter.chars text) = text
  ∧ Forall (fun p => Py.len p = 1) (TextSplitter.chars text).
Proof.
  induction text as [|c r [IH1 IH2]]; simpl TextSplitter.chars.
  - split; [reflexivity|constructor].
  - split; [rewrite join_empty_cons, IH1; reflexivity|].
    constructor; [reflexivity|exact IH2].
Qed.

Lemma split_pieces (text separator : string) :
  Py.join "" (TextSplitter._split_text_with_regex text separator) = text
  ∧ Forall (fun p => p ≠ "") (TextSplitter._split_text_with_regex text separator)
  ∧ (separator = "" →
     Forall (fun p => Py.len p = 1) (TextSplitter._split_text_with_regex text separator)).
Proof.
  unfold TextSplitter._split_text_with_regex. split; [|split].
  - rewrite join_empty_filter.
    destruct (String.eqb_spec separator "") as [->|Hsep]; [apply chars_spec|].
    destruct (segments_cat separator text Hsep) as (first & rest & -> & Hcat).
    rewrite join_empty_cons. exact Hcat.
  - apply Forall_forall. intros p Hp.
    apply list_elem_of_filter in Hp as [Hp _]. exact Hp.
  - intros ->. simpl. apply Forall_forall. intros p Hp.
    apply list_elem_of_filter in Hp as [_ Hp].
    destruct (chars_spec text) as [_ Hall]. rewrite Forall_forall in Hall. auto.
Qed.

Lemma len_join_In (p : string) (l : list string) :
  In p l → Py.len p <= Py.len (Py.join "" l).
Proof.
  induction l as [|x l IH]; [intros []|].
  rewrite join_empty_cons, len_app.
  pose proof (len_nonneg x). pose proof (len_nonneg (Py.join "" l)).
  intros [->|Hin]; [lia|]. apply IH in Hin. lia.
Qed.

(** A piece as long as the whole text is the only piece. *)
Lemma single_piece (p : string) (l : list string) :
  Forall (fun q => q ≠ "") l → In p l → Py.len (Py.join "" l) <= Py.len p → l = [p].
Proof.
  intros Hne Hin Hlen. destruct l as [|x l]; [destruct Hin|].
  rewrite join_empty_cons, len_app in Hlen.
  apply Forall_cons in Hne as [Hx Hl]. apply len_pos in Hx.
  destruct Hin as [->|Hin].
  - destruct l as [|y l]; [reflexivity|].
    apply Forall_cons in Hl as [Hy _]. apply len_pos in Hy.
    pose proof (len_join_In y (y :: l) (or_introl eq_refl)). lia.
  - apply len_join_In in Hin. lia.
Qed.

Lemma pieces_loop_fits (s : TextSplitter.t) (new_separators : list string)
    (recurse : string → result (list string)) (pieces : list string) (text : string) :
  Py.join "" pieces = text →
  Py.len text <= TextSplitter._chunk_size s →
  Forall (fun p => Py.len p < TextSplitter._chunk_size s) pieces →
  TextSplitter.pieces_loop s new_separators recurse pieces [] [] = Ok (whole text).
Proof.
  intros Hcat Hlen Hsmall. rewrite pieces_loop_small by exact Hsmall.
  cbn [app]. destruct pieces as [|p pieces].
  - simpl in Hcat. subst text. reflexivity.
  - unfold TextSplitter._merge_splits. rewrite merge_loop_fits by (rewrite Hcat; lia).
    cbn [app bind]. unfold TextSplitter._join_docs, whole. rewrite Hcat.
    destruct (String.eqb (Py.strip text) ""); reflexivity.
Qed.

Lemma split_with_short (s : TextSplitter.t) (separator : string)
    (new_separators : list string) (recurse : string → result (list string))
    (text : string) :
  1 < TextSplitter._chunk_size s →
  Py.len text <= TextSplitter._chunk_size s →
  separator = "" ∨ (new_separators ≠ [] ∧ recurse text = Ok (whole text)) →
  TextSplitter.split_with s separator new_separators recurse text = Ok (whole text).
Proof.
  intros Hsize Hlen Hcase. unfold TextSplitter.split_with.
  destruct (split_pieces text separator) as (Hcat & Hne & Hchars).
  set (pieces := TextSplitter._split_text_with_regex text separator) in *.
  destruct (decide (Forall (fun p => Py.len p < TextSplitter._chunk_size s) pieces))
    as [Hsmall|Hbig].
  { apply pieces_loop_fits; assumption. }
  apply not_Forall_Exists in Hbig; [|intros p; apply _].
  apply Exists_exists in Hbig as (p & Hin & Hp). simpl in Hp.
  destruct Hcase as [->|[Hnew Hrec]].
  - specialize (Hchars eq_refl). rewrite Forall_forall in Hchars.
    specialize (Hchars p Hin). lia.
  - apply list_elem_of_In in Hin.
    assert (Hone : pieces = [p]).
    { apply single_piece; [exact Hne|exact Hin|]. rewrite Hcat. lia. }
    rewrite Hone in *. simpl in Hcat. subst p.
    cbn [TextSplitter.pieces_loop].
    replace (Py.len text <? TextSplitter._chunk_size s) with false
      by (symmetry; apply Z.ltb_ge; lia).
    cbn [bind]. destruct new_separators as [|sep1 seps]; [congruence|].
    rewrite Hrec. reflexivity.
Qed.

Lemma split_from_short (s : TextSplitter.t) (default : string) (separators : list string)
    (text : string) :
  1 < TextSplitter._chunk_size s →
  Py.len text <= TextSplitter._chunk_size s →
  In "" separators →
  TextSplitter.split_from s default separators text = Ok (whole text).
Proof.
  intros Hsize Hlen. revert default.
  induction separators as [|_s rest IH]; intros default Hin; [destruct Hin|].
  cbn [TextSplitter.split_from].
  destruct (String.eqb_spec _s "") as [->|Hs].
  - apply split_with_short; auto.
  - destruct Hin as [Heq|Hin]; [congruence|].
    destruct (Py.contains _s text).
    + apply split_with_short; auto. right. split.
      * intros ->. destruct Hin.
      * apply IH. exact Hin.
    + apply IH. exact Hin.
Qed.

Lemma split_text_short (text : string) :
  Py.len text <= 1000 →
  TextSplitter.split_text text_splitter text = Ok (whole text).
Proof.
  intros Hlen. unfold TextSplitter.split_text, TextSplitter._split_text.
  change (TextSplitter._separators text_splitter) with [LF +:+ LF; LF; " "; ""].
  apply split_from_short; [reflexivity|exact Hlen|].
  right. right. right. left. reflexivity.
Qed.

Lemma stamp_position env doc total u i chunk :
  page_content (stamp env doc total u i chunk) = page_content chunk
  ∧ metadata (stamp env doc total u i chunk) !! "chunk_index" = Some (VInt (Z.of_nat i))
  ∧ metadata (stamp env doc total u i chunk) !! "total_chunks"
    = Some (VInt (Z.of_nat total)).
Proof.
  unfold stamp, update. simpl. split; [reflexivity|].
  split; (erewrite lookup_union_Some_l; [reflexivity|]);
    rewrite !lookup_insert_ne by discriminate; apply lookup_insert_eq.
Qed.

(** C7, as the code has it: a document of at most 1000 characters gives
    exactly one chunk, with [chunk_index] 0 and [total_chunks] 1, whose
    content is the content of the document without its leading and
    trailing whitespace (so the content itself when it has none); when
    nothing but whitespace is there, it gives no chunk. *)
Theorem short_document_one_chunk (env : Env) (u : nat) (doc : Document) :
  Py.len (page_content doc) <= 1000 →
  ∃ chunks,
    chunk_document env (TextSplitter.split_text text_splitter) u doc = Ok chunks
    ∧ (Py.strip (page_content doc) = "" → chunks = [])
    ∧ (Py.strip (page_content doc) ≠ "" →
       ∃ chunk, chunks = [chunk]
                ∧ page_content chunk = Py.strip (page_content doc)
                ∧ metadata chunk !! "chunk_index" = Some (VInt 0)
                ∧ metadata chunk !! "total_chunks" = Some (VInt 1))
    ∧ (Py.strip (page_content doc) = page_content doc → page_content doc ≠ "" →
       ∃ chunk, chunks = [chunk] ∧ page_content chunk = page_content doc).
Proof.
  intros Hlen. unfold chunk_document, split_documents.
  rewrite split_text_short by exact Hlen. unfold whole.
  destruct (String.eqb_spec (Py.strip (page_content doc)) "") as [Hempty|Hfull];
    cbn [bind map imap length]; eexists; (split; [reflexivity|]).
  - split; [reflexivity|]. split; [contradiction|].
    intros Hsame Hne. congruence.
  - split; [contradiction|].
    destruct (stamp_position env doc 1 u 0
                (mkDocument (Py.strip (page_content doc)) (metadata doc)))
      as (Hcontent & Hindex & Htotal).
    split.
    + intros _. eexists. split; [reflexivity|]. repeat split; assumption.
    + intros Hsame _. eexists. split; [reflexivity|]. rewrite Hcontent. exact Hsame.
Qed.

Lemma short_document_one_chunk_witness :
  ∃ chunk,
    chunk_document quiet_env (TextSplitter.split_text text_splitter) 0
      (process_text "hello world" None) = Ok [chunk]
    ∧ page_content chunk = "hello world".
Proof.
  destruct (short_document_one_chunk quiet_env 0 (process_text "hello world" None))
    as (chunks & Hrun & _ & _ & Hsame).
  - vm_compute. discriminate.
  - destruct Hsame as (chunk & -> & Hcontent); [reflexivity|discriminate|].
    exists chunk. split; [exact Hrun|exact Hcontent].
Defined.

(** The claim as stated fails: the chunk of a short text that ends with a
    line break is not equal to the text, and a text of whitespace gives no
    chunk at all. *)
Lemma short_document_is_trimmed :
  Py.len ("hello" +:+ LF) <= 1000
  ∧ (∃ chunk,
       chunk_document quiet_env (TextSplitter.split_text text_splitter) 0
         (process_text ("hello" +:+ LF) None) = Ok [chunk]
       ∧ page_content chunk = "hello"
       ∧ page_content chunk ≠ "hello" +:+ LF)
  ∧ chunk_document quiet_env (TextSplitter.split_text text_splitter) 0
      (process_text " " None) = Ok [].
Proof.
  split; [vm_compute; discriminate|]. split.
  - eexists. split; [vm_compute; reflexivity|]. split; [reflexivity|].
    vm_compute. discriminate.
  - vm_compute. reflexivity.
Qed.

(** Without a [doc_id] the two entries come from two draws of
    [uuid.uuid4()]. *)
Lemma stamp_without_doc_id env doc total u i chunk :
  metadata doc !! "doc_id" = None →
  metadata (stamp env doc total u i chunk) !! "chunk_id"
    = Some (VStr (uuid4_hex env (u + 2 * i) +:+ "_" +:+ pretty (Z.of_nat i)))
  ∧ metadata (stamp env doc total u i chunk) !! "parent_doc_id"
    = Some (VStr (uuid4_hex env (u + 2 * i + 1))).
Proof.
  intros Hnone. unfold stamp, update, get_doc_id. simpl. rewrite Hnone. simpl.
  split; (erewrite lookup_union_Some_l; [reflexivity|]);
    rewrite ?lookup_insert_ne by discriminate; apply lookup_insert_eq.
Qed.

(** C6 on a document without [doc_id], as the tests of the repository add
    them: the [chunk_id] of a chunk does not start with its
    [parent_doc_id], and the two chunks of one document have different
    [parent_doc_id]s. *)
Theorem chunk_ids_without_doc_id :
  (∃ ids st' chunk,
     add_documents quiet_env [test_doc] (faiss_store []) = (Ok ids, st')
     ∧ map entry_doc (stored_entries st') = [chunk]
     ∧ metadata chunk !! "chunk_id" = Some (VStr "hex0_0")
     ∧ metadata chunk !! "parent_doc_id" = Some (VStr "hex1")
     ∧ Py.startswith "hex1" "hex0_0" = false)
  ∧ (∃ ids st' chunk0 chunk1,
       add_documents quiet_env [long_test_doc] (faiss_store []) = (Ok ids, st')
       ∧ map entry_doc (stored_entries st') = [chunk0; chunk1]
       ∧ metadata chunk0 !! "parent_doc_id" = Some (VStr "hex1")
       ∧ metadata chunk1 !! "parent_doc_id" = Some (VStr "hex3")).
Proof.
  split.
  - eexists _, _, _. split; [vm_compute; reflexivity|].
    split; [vm_compute; reflexivity|]. repeat split; vm_compute; reflexivity.
  - eexists _, _, _, _. split; [vm_compute; reflexivity|].
    split; [vm_compute; reflexivity|]. repeat split; vm_compute; reflexivity.
Qed.

(** ** Trimming and lower case *)

Lemma rstrip_cons_keep (c : ascii) (r : string) :
  Py.isspace c = false → ∃ r', Py.rstrip (String c r) = String c r'.
Proof.
  intros Hc. cbn [Py.rstrip]. destruct (Py.rstrip r); rewrite ?Hc; eauto.
Qed.

Lemma rstrip_idem (s : string) : Py.rstrip (Py.rstrip s) = Py.rstrip s.
Proof.
  induction s as [|c r IH]; [reflexivity|].
  cbn [Py.rstrip]. destruct (Py.rstrip r) as [|c' r'] eqn:Hr.
  - destruct (Py.isspace c) eqn:Hc; [reflexivity|].
    cbn [Py.rstrip]. rewrite Hc. reflexivity.
  - cbn [Py.rstrip]. cbn [Py.rstrip] in IH. rewrite IH. reflexivity.
Qed.

Lemma lstrip_head (s : string) :
  Py.lstrip s = "" ∨ ∃ c r, Py.lstrip s = String c r ∧ Py.isspace c = false.
Proof.
  induction s as [|c r IH]; [left; reflexivity|].
  cbn [Py.lstrip]. destruct (Py.isspace c) eqn:Hc; [exact IH|]. right. eauto.
Qed.

Lemma lstrip_fixed (c : ascii) (r : string) :
  Py.isspace c = false → Py.lstrip (String c r) = String c r.
Proof. intros Hc. cbn [Py.lstrip]. rewrite Hc. reflexivity. Qed.

Lemma strip_idem (s : string) : Py.strip (Py.strip s) = Py.strip s.
Proof.
  unfold Py.strip. destruct (lstrip_head s) as [->|(c & r & -> & Hc)]; [reflexivity|].
  destruct (rstrip_cons_keep c r Hc) as [r' Hr]. rewrite Hr.
  rewrite (lstrip_fixed c r' Hc), <- Hr. apply rstrip_idem.
Qed.

Lemma lstrip_len (s : string) : Py.len (Py.lstrip s) <= Py.len s.
Proof.
  unfold Py.len. induction s as [|c r IH]; [reflexivity|].
  cbn [Py.lstrip]. destruct (Py.isspace c); simpl String.length; lia.
Qed.

Lemma rstrip_len (s : string) : Py.len (Py.rstrip s) <= Py.len s.
Proof.
  unfold Py.len. induction s as [|c r IH]; [reflexivity|].
  cbn [Py.rstrip]. destruct (Py.rstrip r); [destruct (Py.isspace c)|];
    simpl String.length in *; lia.
Qed.

Lemma strip_len (s : string) : Py.len (Py.strip s) <= Py.len s.
Proof.
  unfold Py.strip. pose proof (rstrip_len (Py.lstrip s)). pose proof (lstrip_len s). lia.
Qed.

(** ** The splitter: every chunk is well cut *)

Lemma join_empty_app (l1 l2 : list string) :
  Py.join "" (l1 ++ l2) = Py.join "" l1 +:+ Py.join "" l2.
Proof.
  induction l1 as [|x l1 IH]; [reflexivity|].
  cbn [app]. rewrite !join_empty_cons, IH, append_assoc. reflexivity.
Qed.

Lemma join_docs_well_cut (s : TextSplitter.t) (docs current : list string) :
  Forall (well_cut (TextSplitter._chunk_size s)) docs →
  Py.len (Py.join "" current) <= TextSplitter._chunk_size s →
  Forall (well_cut (TextSplitter._chunk_size s))
    (TextSplitter.add_doc docs (TextSplitter._join_docs current "")).
Proof.
  intros Hdocs Hlen. unfold TextSplitter._join_docs.
  destruct (String.eqb_spec (Py.strip (Py.join "" current)) "") as [_|Hne]; [exact Hdocs|].
  cbn [TextSplitter.add_doc]. apply Forall_app. split; [exact Hdocs|].
  constructor; [|constructor]. split; [exact Hne|]. split; [apply strip_idem|].
  pose proof (strip_len (Py.join "" current)). lia.
Qed.

Lemma pop_front_spec (s : TextSplitter.t) (_len : Z) (current : list string) :
  0 <= TextSplitter._chunk_overlap s →
  0 <= _len →
  ∃ total' current',
    TextSplitter.pop_front s 0 _len (Py.len (Py.join "" current)) current
      = Ok (total', current')
    ∧ total' = Py.len (Py.join "" current')
    ∧ (total' + _len <= TextSplitter._chunk_size s ∨ total' = 0).
Proof.
  intros Hov Hlen. induction current as [|d0 rest IH].
  - exists 0, []. cbn [TextSplitter.pop_front]. change (Py.len (Py.join "" [])) with 0.
    replace (TextSplitter._chunk_overlap s <? 0) with false
      by (symmetry; apply Z.ltb_ge; lia).
    rewrite andb_false_r. cbn [orb]. split; [reflexivity|]. split; [reflexivity|]. right.
    reflexivity.
  - cbn [TextSplitter.pop_front]. rewrite !sep_if_zero.
    destruct ((TextSplitter._chunk_overlap s <? Py.len (Py.join "" (d0 :: rest)))
              || ((TextSplitter._chunk_size s <? Py.len (Py.join "" (d0 :: rest)) + _len + 0)
                  && (0 <? Py.len (Py.join "" (d0 :: rest))))) eqn:Hcond.
    + replace (Py.len (Py.join "" (d0 :: rest)) - (Py.len d0 + 0))
        with (Py.len (Py.join "" rest))
        by (rewrite join_empty_cons, len_app; lia).
      exact IH.
    + eexists _, _. split; [reflexivity|]. split; [reflexivity|].
      apply orb_false_iff in Hcond as [_ Hcond].
      apply andb_false_iff in Hcond as [Hcond|Hcond].
      * left. apply Z.ltb_ge in Hcond. lia.
      * right. apply Z.ltb_ge in Hcond. pose proof (len_nonneg (Py.join "" (d0 :: rest))).
        lia.
Qed.

Lemma merge_loop_well_cut (s : TextSplitter.t) (splits docs current : list string) :
  0 <= TextSplitter._chunk_overlap s →
  Forall (fun p => Py.len p <= TextSplitter._chunk_size s) splits →
  Forall (well_cut (TextSplitter._chunk_size s)) docs →
  Py.len (Py.join "" current) <= TextSplitter._chunk_size s →
  ∃ out, TextSplitter.merge_loop s "" splits docs current (Py.len (Py.join "" current))
         = Ok out
         ∧ Forall (well_cut (TextSplitter._chunk_size s)) out.
Proof.
  intros Hov Hsplits. revert docs current.
  induction Hsplits as [|d splits Hd _ IH]; intros docs current Hdocs Hcur.
  - cbn [TextSplitter.merge_loop]. eexists. split; [reflexivity|].
    apply join_docs_well_cut; assumption.
  - cbn [TextSplitter.merge_loop]. change (Py.len "") with 0. rewrite !sep_if_zero.
    assert (Hstep : ∀ docs' current',
      Forall (well_cut (TextSplitter._chunk_size s)) docs' →
      Py.len (Py.join "" current') + Py.len d <= TextSplitter._chunk_size s →
      ∃ out,
        TextSplitter.merge_loop s "" splits docs' (current' ++ [d])
          (Py.len (Py.join "" current') + Py.len d
           + TextSplitter.sep_if (1 <? Z.of_nat (length (current' ++ [d]))) 0) = Ok out
        ∧ Forall (well_cut (TextSplitter._chunk_size s)) out).
    { intros docs' current' Hdocs' Hfit. rewrite sep_if_zero.
      replace (Py.len (Py.join "" current') + Py.len d + 0)
        with (Py.len (Py.join "" (current' ++ [d])))
        by (rewrite join_empty_app, len_app; simpl Py.join; lia).
      apply IH; [exact Hdocs'|].
      rewrite join_empty_app, len_app. simpl Py.join. lia. }
    destruct (TextSplitter._chunk_size s <? Py.len (Py.join "" current) + Py.len d + 0)
      eqn:Hover.
    + destruct current as [|c0 current].
      * cbn [length Z.of_nat Z.ltb Z.compare bind]. apply (Hstep docs []); [exact Hdocs|].
        change (Py.len (Py.join "" [])) with 0. lia.
      * replace (0 <? Z.of_nat (length (c0 :: current))) with true
          by (symmetry; apply Z.ltb_lt; simpl length; lia).
        destruct (pop_front_spec s (Py.len d) (c0 :: current) Hov (len_nonneg d))
          as (total' & current' & Hpop & -> & Hfit).
        rewrite Hpop. cbn [bind fst snd]. apply Hstep.
        -- apply join_docs_well_cut; assumption.
        -- destruct Hfit as [Hfit|Hzero]; lia.
    + cbn [bind]. apply Hstep; [exact Hdocs|]. apply Z.ltb_ge in Hover. lia.
Qed.

Lemma merge_splits_well_cut (s : TextSplitter.t) (splits : list string) :
  0 <= TextSplitter._chunk_overlap s →
  0 <= TextSplitter._chunk_size s →
  Forall (fun p => Py.len p <= TextSplitter._chunk_size s) splits →
  ∃ out, TextSplitter._merge_splits s splits "" = Ok out
         ∧ Forall (well_cut (TextSplitter._chunk_size s)) out.
Proof.
  intros Hov Hsize Hsplits. unfold TextSplitter._merge_splits.
  apply (merge_loop_well_cut s splits [] []); auto.
Qed.

Lemma pieces_loop_well_cut (s : TextSplitter.t) (new_separators : list string)
    (recurse : string → result (list string)) (splits final good : list string) :
  0 <= TextSplitter._chunk_overlap s →
  0 <= TextSplitter._chunk_size s →
  Forall (well_cut (TextSplitter._chunk_size s)) final →
  Forall (fun p => Py.len p <= TextSplitter._chunk_size s) good →
  (∀ p, In p splits → (Py.len p <? TextSplitter._chunk_size s) = false →
        new_separators ≠ []
        ∧ ∃ r, recurse p = Ok r ∧ Forall (well_cut (TextSplitter._chunk_size s)) r) →
  ∃ out, TextSplitter.pieces_loop s new_separators recurse splits final good = Ok out
         ∧ Forall (well_cut (TextSplitter._chunk_size s)) out.
Proof.
  intros Hov Hsize. revert final good.
  assert (Hflush : ∀ final good,
    Forall (well_cut (TextSplitter._chunk_size s)) final →
    Forall (fun p => Py.len p <= TextSplitter._chunk_size s) good →
    ∃ out,
      match good with
      | [] => Ok final
      | _ => merged_text <- TextSplitter._merge_splits s good "" ;;
             Ok (final ++ merged_text)
      end = Ok out
      ∧ Forall (well_cut (TextSplitter._chunk_size s)) out).
  { intros final good Hfinal Hgood. destruct good as [|g good]; [eauto|].
    destruct (merge_splits_well_cut s (g :: good) Hov Hsize Hgood) as (m & -> & Hm).
    cbn [bind]. eexists. split; [reflexivity|]. apply Forall_app. auto. }
  induction splits as [|piece splits IH]; intros final good Hfinal Hgood Hbig.
  - cbn [TextSplitter.pieces_loop]. apply Hflush; assumption.
  - cbn [TextSplitter.pieces_loop].
    destruct (Py.len piece <? TextSplitter._chunk_size s) eqn:Hp.
    + apply IH; [exact Hfinal| |].
      * apply Forall_app. split; [exact Hgood|]. constructor; [|constructor].
        apply Z.ltb_lt in Hp. lia.
      * intros q Hq. apply Hbig. right. exact Hq.
    + destruct (Hflush final good Hfinal Hgood) as (final' & -> & Hfinal').
      cbn [bind].
      destruct (Hbig piece (or_introl eq_refl) Hp) as (Hnew & r & Hr & Hcut).
      destruct new_separators as [|sep1 seps]; [congruence|].
      rewrite Hr. cbn [bind]. apply IH.
      * apply Forall_app. auto.
      * constructor.
      * intros q Hq. apply Hbig. right. exact Hq.
Qed.

Lemma split_from_well_cut (s : TextSplitter.t) (default : string)
    (separators : list string) (text : string) :
  0 <= TextSplitter._chunk_overlap s →
  1 < TextSplitter._chunk_size s →
  In "" separators →
  ∃ out, TextSplitter.split_from s default separators text = Ok out
         ∧ Forall (well_cut (TextSplitter._chunk_size s)) out.
Proof.
  intros Hov Hsize. revert default text.
  induction separators as [|_s rest IH]; intros default text Hin; [destruct Hin|].
  cbn [TextSplitter.split_from].
  destruct (String.eqb_spec _s "") as [->|Hs].
  - unfold TextSplitter.split_with.
    apply pieces_loop_well_cut; [lia|lia|constructor|constructor|].
    intros p Hp Hbig. destruct (split_pieces text "") as (_ & _ & Hone).
    specialize (Hone eq_refl). rewrite Forall_forall in Hone.
    apply list_elem_of_In in Hp. specialize (Hone p Hp).
    apply Z.ltb_ge in Hbig. lia.
  - destruct Hin as [Heq|Hin]; [congruence|].
    destruct (Py.contains _s text); [|apply IH; exact Hin].
    unfold TextSplitter.split_with.
    apply pieces_loop_well_cut; [lia|lia|constructor|constructor|].
    intros p _ _. split; [intros ->; destruct Hin|]. apply IH. exact Hin.
Qed.

Lemma split_text_well_cut (text : string) :
  ∃ out, TextSplitter.split_text text_splitter text = Ok out
         ∧ Forall (well_cut 1000) out.
Proof.
  unfold TextSplitter.split_text, TextSplitter._split_text.
  change (TextSplitter._separators text_splitter) with [LF +:+ LF; LF; " "; ""].
  apply (split_from_well_cut text_splitter); [discriminate|reflexivity|].
  right. right. right. left. reflexivity.
Qed.

(** ** What a successful [add_documents] leaves behind *)

Lemma chunk_document_contents env (split : string → result (list string)) u doc chunks :
  chunk_document env split u doc = Ok chunks →
  split (page_content doc) = Ok (map page_content chunks).
Proof.
  unfold chunk_document, split_documents.
  destruct (split (page_content doc)) as [texts|e]; simpl; [|discriminate].
  intros [= <-]. f_equal.
  rewrite (map_imap_const page_content page_content) by reflexivity.
  rewrite map_map. simpl. symmetry. apply map_id.
Qed.

Lemma chunk_documents_contents env (split : string → result (list string)) u u'
    (documents chunked : list Document) :
  chunk_documents env split u documents = Ok (chunked, u') →
  ∀ chunk, In chunk chunked →
  ∃ doc texts, In doc documents ∧ split (page_content doc) = Ok texts
               ∧ In (page_content chunk) texts.
Proof.
  revert u chunked u'. induction documents as [|doc documents IH]; intros u chunked u'; simpl.
  - intros [= <- <-] chunk [].
  - destruct (chunk_document env split u doc) as [chunks|e] eqn:Hdoc; simpl; [|discriminate].
    destruct (chunk_documents env split _ documents) as [[rest u'']|e] eqn:Hrest;
      simpl; [|discriminate].
    intros [= <- <-] chunk Hin. apply in_app_or in Hin as [Hin|Hin].
    + exists doc, (map page_content chunks). split; [left; reflexivity|].
      split; [eapply chunk_document_contents; eauto|]. apply in_map. exact Hin.
    + destruct (IH _ _ _ Hrest chunk Hin) as (d & texts & Hd & Hsplit & Htext).
      exists d, texts. split; [right; exact Hd|]. auto.
Qed.

Lemma lib_add_documents_entries env b docs st ids st' :
  vector_store st = Some b →
  lib_add_documents env b docs st = (Ok ids, st') →
  stored_entries st' = stored_entries st ++ fresh_entries env (uuid_count st) docs
  ∧ ids = map entry_id (fresh_entries env (uuid_count st) docs)
  ∧ store_type st' = store_type st
  ∧ match b with
    | Chroma => vector_store st' = Some Chroma ∧ faiss_disk st' = faiss_disk st
    | FAISS index => vector_store st' = Some (FAISS (stored_entries st'))
                     ∧ faiss_disk st' = faiss_disk st
                     ∧ chroma_disk st' = chroma_disk st
    end.
Proof.
  intros Hb. unfold lib_add_documents. run.
  destruct (fault env (call_add_documents _)); simpl; [discriminate|].
  destruct b as [|index]; simpl.
  - unfold chroma_entries, stored_entries. rewrite Hb. simpl.
    destruct (chroma_disk st) as [|l|msg]; simpl; try discriminate.
    intros [= <- <-]. simpl. rewrite Hb. repeat split.
  - intros [= <- <-]. unfold stored_entries. simpl. rewrite Hb. repeat split.
Qed.

Lemma add_documents_success env (documents : list Document) st ids st' :
  documents ≠ [] →
  add_documents env documents st = (Ok ids, st') →
  ∃ chunked u',
    chunk_documents env (TextSplitter.split_text text_splitter) (uuid_count st) documents
      = Ok (chunked, u')
    ∧ stored_entries st' = stored_entries st ++ fresh_entries env u' chunked
    ∧ ids = map entry_id (fresh_entries env u' chunked)
    ∧ store_type st' = store_type st
    ∧ (store_type st = "faiss" →
       vector_store st' = Some (FAISS (stored_entries st'))
       ∧ faiss_disk st' = Some (Some (stored_entries st'))
       ∧ chroma_disk st' = chroma_disk st).
Proof.
  intros Hne. unfold add_documents.
  destruct documents as [|doc documents]; [congruence|].
  set (docs := doc :: documents) in *. run.
  destruct (chunk_documents env _ (uuid_count st) docs) as [[chunked u']|e] eqn:Hchunk;
    simpl; [|discriminate].
  intros Hadd. exists chunked, u'. split; [reflexivity|].
  set (st1 := set_uuid_count u' st) in *.
  assert (Hst1 : stored_entries st1 = stored_entries st) by reflexivity.
  assert (Hty1 : store_type st1 = store_type st) by reflexivity.
  assert (Hu1 : uuid_count st1 = u') by reflexivity.
  assert (Hc1 : chroma_disk st1 = chroma_disk st) by reflexivity.
  rewrite <- Hst1, <- Hu1, <- Hc1. clearbody st1. unfold with_store in Hadd. run.
  rewrite ?Hty1 in Hadd.
  destruct (String.eqb_spec (store_type st) "chroma") as [Hchroma|_];
    [|destruct (String.eqb_spec (store_type st) "faiss") as [Hfaiss|_]; [|discriminate]];
    cbv beta in Hadd;
    (destruct (vector_store st1) as [b|] eqn:Hb; [|discriminate]);
    (destruct (lib_add_documents env b chunked st1) as [[ids'|e] st2] eqn:Hlib;
       [|discriminate]);
    (apply lib_add_documents_entries in Hlib as (Hent & Hids & Hty2 & Hkind);
       [|exact Hb]).
  - injection Hadd as <- <-. repeat split; try assumption; try congruence.
    all: intros Hf; rewrite Hchroma in Hf; discriminate.
  - destruct b as [|index].
    + destruct Hkind as [Hb2 _]. rewrite Hb2 in Hadd.
      unfold lib_save_local in Hadd. run.
      destruct (fault env call_save_local); discriminate.
    + destruct Hkind as (Hb2 & Hdisk & Hchroma). rewrite Hb2 in Hadd.
      unfold lib_save_local in Hadd. run.
      destruct (fault env call_save_local); [discriminate|]. simpl in Hadd.
      injection Hadd as <- <-.
      assert (Hst3 : stored_entries (set_faiss_disk (Some (Some (stored_entries st2))) st2)
                     = stored_entries st2) by reflexivity.
      rewrite Hst3. split; [exact Hent|]. split; [exact Hids|].
      split; [simpl; congruence|]. intros _. simpl. auto.
Qed.

Lemma fresh_entries_docs env u (docs : list Document) :
  map entry_doc (fresh_entries env u docs) = docs.
Proof.
  unfold fresh_entries. rewrite (map_imap_const entry_doc id) by reflexivity. apply map_id.
Qed.

(** X1: every chunk that [add_documents] puts into the store is not empty,
    has no leading or trailing whitespace and has at most 1000 characters;
    the entries that were there stay as they were, in front. *)
Theorem stored_chunks_well_cut (env : Env) (documents : list Document)
    (st st' : VectorStore) (ids : list string) :
  add_documents env documents st = (Ok ids, st') →
  ∃ new, stored_entries st' = stored_entries st ++ new
         ∧ Forall (fun e => well_cut 1000 (page_content (entry_doc e))) new.
Proof.
  intros Hadd. destruct documents as [|doc documents].
  { injection Hadd as _ <-. exists []. split; [symmetry; apply app_nil_r|constructor]. }
  apply add_documents_success in Hadd as (chunked & u' & Hchunk & Hent & _); [|discriminate].
  eexists. split; [exact Hent|]. apply List.Forall_forall. intros e He.
  assert (Hin : In (entry_doc e) chunked).
  { rewrite <- (fresh_entries_docs env u' chunked). apply in_map. exact He. }
  destruct (chunk_documents_contents _ _ _ _ _ _ Hchunk _ Hin) as (d & texts & _ & Hsplit & Ht).
  destruct (split_text_well_cut (page_content d)) as (out & Hout & Hcut).
  rewrite Hout in Hsplit. injection Hsplit as <-.
  rewrite List.Forall_forall in Hcut. apply Hcut. exact Ht.
Qed.

Lemma stored_chunks_well_cut_witness :
  ∃ ids st' new,
    add_documents quiet_env [long_test_doc] (faiss_store [sample_entry]) = (Ok ids, st')
    ∧ stored_entries st' = sample_entry :: new
    ∧ Forall (fun e => well_cut 1000 (page_content (entry_doc e))) new.
Proof.
  destruct (add_documents quiet_env [long_test_doc] (faiss_store [sample_entry]))
    as [[ids|e] st'] eqn:Hadd; [|vm_compute in Hadd; discriminate].
  destruct (stored_chunks_well_cut quiet_env [long_test_doc] (faiss_store [sample_entry])
              st' ids Hadd) as (new & Hent & Hcut).
  exists ids, st', new. split; [reflexivity|]. split; [exact Hent|exact Hcut].
Defined.

Lemma _init_faiss_loads env st st' index :
  fault env call_load_local = None →
  faiss_disk st = Some (Some index) →
  _init_faiss env st = (Ok tt, st') →
  vector_store st' = Some (FAISS index) ∧ store_type st' = store_type st
  ∧ faiss_disk st' = faiss_disk st.
Proof.
  intros Hload Hdisk. unfold _init_faiss, mkdir_faiss, lib_load_local. run.
  destruct (fault env (call_mkdir _)); simpl; [discriminate|].
  rewrite Hload.
  destruct (faiss_disk st) as [[index'|]|] eqn:Hd; try discriminate.
  injection Hdisk as ->. simpl.
  repeat (rewrite Hd; simpl).
  intros [= <-]. simpl. auto.
Qed.

(** X2: on the FAISS backend a successful [add_documents] returns one
    identifier per chunk, those of the entries it appended, and saves the
    whole index: a [VectorStore] constructed afterwards on the same
    directory holds the same entries, in the same order. *)
Theorem faiss_index_survives_restart (env : Env) (documents : list Document)
    (st st' st2 : VectorStore) (ids : list string) (ty persist model name : string) :
  store_type st = "faiss" →
  documents ≠ [] →
  add_documents env documents st = (Ok ids, st') →
  fault env call_load_local = None →
  Py.lower ty = "faiss" →
  __init__ env ty persist model name (chroma_disk st') (faiss_disk st') (uuid_count st')
    = (Ok tt, st2) →
  (∃ new, stored_entries st' = stored_entries st ++ new ∧ ids = map entry_id new)
  ∧ stored_entries st2 = stored_entries st'.
Proof.
  intros Hty Hne Hadd Hload Hlow.
  apply add_documents_success in Hadd as (chunked & u' & _ & Hent & Hids & _ & Hsaved);
    [|exact Hne].
  destruct (Hsaved Hty) as (_ & Hdisk & _).
  unfold __init__, _initialize_vector_store. run. simpl. rewrite Hlow. simpl.
  destruct (fault env (call_mkdir _)); simpl; [discriminate|].
  destruct (fault env call_HuggingFaceEmbeddings); simpl; [discriminate|].
  destruct (_init_faiss env _) as [[[]|e] st3] eqn:Hinit; simpl; [|discriminate].
  intros [= <-]. split; [eauto|].
  eapply _init_faiss_loads in Hinit as (Hb & _); [|exact Hload|simpl; exact Hdisk].
  unfold stored_entries at 1. rewrite Hb. reflexivity.
Qed.

Lemma faiss_index_survives_restart_witness :
  ∃ ids st' st2,
    add_documents quiet_env [test_doc] (faiss_store [sample_entry]) = (Ok ids, st')
    ∧ __init__ quiet_env "faiss" "data/vector_store" "all-MiniLM-L6-v2" "docs"
        (chroma_disk st') (faiss_disk st') (uuid_count st') = (Ok tt, st2)
    ∧ stored_entries st2 = stored_entries st'
    ∧ length (stored_entries st2) = 2%nat.
Proof.
  destruct (add_documents quiet_env [test_doc] (faiss_store [sample_entry]))
    as [[ids|e] st'] eqn:Hadd; [|vm_compute in Hadd; discriminate].
  destruct (__init__ quiet_env "faiss" "data/vector_store" "all-MiniLM-L6-v2" "docs"
              (chroma_disk st') (faiss_disk st') (uuid_count st'))
    as [[[]|e] st2] eqn:Hinit.
  - exists ids, st', st2. split; [reflexivity|]. split; [exact Hinit|].
    destruct (faiss_index_survives_restart quiet_env [test_doc] (faiss_store [sample_entry])
                st' st2 ids "faiss" "data/vector_store" "all-MiniLM-L6-v2" "docs")
      as [_ Hsame]; try reflexivity; try assumption; [discriminate|].
    split; [exact Hsame|]. rewrite Hsame. vm_compute in Hadd. injection Hadd as _ <-.
    reflexivity.
  - vm_compute in Hadd. injection Hadd as _ <-. vm_compute in Hinit. discriminate.
Defined.

(** ** More on searching *)

Lemma map_fst_filter {A B} (p : A → bool) (l : list (A * B)) :
  map fst (List.filter (fun ab => p ab.1) l) = List.filter p (map fst l).
Proof.
  induction l as [|[a b] l IH]; simpl; [reflexivity|].
  destruct (p a); simpl; rewrite IH; reflexivity.
Qed.

(** X3: the plain search returns the documents of the scored search, in the
    same order and without the scores, for every store, query, [k] and
    filter, also when the library call fails (both are then empty). *)
Theorem search_is_scored_search (env : Env) (st : VectorStore) (query : string) (k : Z)
    (filter_metadata : option (gmap string value)) :
  ∃ r, similarity_search_with_score env st query k filter_metadata = Ok r
       ∧ similarity_search env st query k filter_metadata = Ok (map fst r).
Proof.
  unfold similarity_search, similarity_search_with_score, lib_similarity_search.
  destruct (vector_store st) as [b|]; simpl; [|eexists; split; reflexivity].
  destruct (String.eqb (store_type st) "chroma").
  - destruct (given filter_metadata) as [m|];
      destruct (lib_similarity_search_with_score env b query k _ st); simpl;
      eexists; split; reflexivity.
  - destruct (String.eqb (store_type st) "faiss"); simpl; [|eexists; split; reflexivity].
    destruct (lib_similarity_search_with_score env b query k None st); simpl;
      [|eexists; split; reflexivity].
    destruct (given filter_metadata) as [m|]; simpl; eexists; split; try reflexivity.
    rewrite map_fst_filter. reflexivity.
Qed.

Lemma lib_search_with_score_bounded env b query k f st r :
  lib_similarity_search_with_score env b query k f st = Ok r →
  (length r <= Z.to_nat k)%nat.
Proof.
  unfold lib_similarity_search_with_score.
  destruct (attempt env (call_search query k)); simpl; [|discriminate].
  destruct (match b with Chroma => chroma_entries st | FAISS index => Ok index end);
    simpl; [|discriminate].
  intros [= <-]. rewrite length_map. apply firstn_le_length.
Qed.

(** X4: a search returns at most [k] documents, each of them the document
    of an entry of the store, and each of them matching every key of the
    filter when one is given. *)
Theorem search_results_bounded (env : Env) (st : VectorStore) (query : string) (k : Z)
    (filter_metadata : option (gmap string value)) :
  0 <= k →
  ∃ docs, similarity_search env st query k filter_metadata = Ok docs
          ∧ Z.of_nat (length docs) <= k
          ∧ (∀ doc, In doc docs → ∃ e, In e (stored_entries st) ∧ entry_doc e = doc)
          ∧ (∀ m, given filter_metadata = Some m →
               ∀ doc, In doc docs → matches m doc = true).
Proof.
  intros Hk.
  destruct (search_swallows_errors_plain env st query k filter_metadata) as [docs Hdocs].
  exists docs. split; [exact Hdocs|].
  split; [|split; [exact (similarity_search_stored _ _ _ _ _ _ Hdocs)|]].
  - revert Hdocs. unfold similarity_search, lib_similarity_search.
    destruct (vector_store st) as [b|]; simpl; [|intros [= <-]; simpl; lia].
    assert (Hlen : ∀ f r, lib_similarity_search_with_score env b query k f st = Ok r →
                     Z.of_nat (length r) <= k).
    { intros f r Hr. apply lib_search_with_score_bounded in Hr. lia. }
    destruct (String.eqb (store_type st) "chroma").
    + destruct (given filter_metadata) as [m|];
        destruct (lib_similarity_search_with_score env b query k _ st) as [r|] eqn:Hr;
        simpl; intros [= <-]; simpl; try lia; rewrite length_map; eauto.
    + destruct (String.eqb (store_type st) "faiss"); simpl; [|intros [= <-]; simpl; lia].
      destruct (lib_similarity_search_with_score env b query k None st) as [r|] eqn:Hr;
        simpl; [|intros [= <-]; simpl; lia].
      apply Hlen in Hr.
      destruct (given filter_metadata) as [m|]; simpl; intros [= <-].
      * pose proof (filter_length_le (fun doc => matches m doc) (map fst r)) as Hf.
        rewrite length_map in Hf. lia.
      * rewrite length_map. exact Hr.
  - intros m Hm. revert Hdocs. unfold similarity_search, lib_similarity_search.
    rewrite Hm.
    destruct (vector_store st) as [b|] eqn:Hb; simpl; [|intros [= <-] doc []].
    destruct (String.eqb (store_type st) "chroma").
    + destruct (lib_similarity_search_with_score env b query k (Some m) st) as [r|] eqn:Hr;
        simpl; intros [= <-]; [|intros doc []].
      intros doc Hin. apply in_map_iff in Hin as (ds & <- & Hin).
      destruct (lib_search_with_score_stored _ _ _ _ _ _ _ Hb Hr ds Hin) as (e & _ & -> & He).
      exact He.
    + destruct (String.eqb (store_type st) "faiss"); simpl; [|intros [= <-] doc []].
      destruct (lib_similarity_search_with_score env b query k None st) as [r|];
        simpl; intros [= <-]; [|intros doc []].
      intros doc Hin. apply filter_In in Hin as [_ Hin]. exact Hin.
Qed.

Lemma search_results_bounded_witness :
  ∃ docs, similarity_search quiet_env (faiss_store [sample_entry; padded_entry]) "rag" 1
            (Some (<["doc_id" := VStr "d1"]> ∅)) = Ok docs
          ∧ Z.of_nat (length docs) <= 1.
Proof.
  destruct (search_results_bounded quiet_env (faiss_store [sample_entry; padded_entry])
              "rag" 1 (Some (<["doc_id" := VStr "d1"]> ∅))) as (docs & H1 & H2 & _);
    [lia|].
  exists docs. split; [exact H1|exact H2].
Defined.


(** ** Construction *)

Lemma _init_faiss_backend env st r st' :
  _init_faiss env st = (r, st') →
  store_type st' = store_type st ∧ chroma_disk st' = chroma_disk st
  ∧ same_attributes st st'
  ∧ (r = Ok tt → ∃ index, vector_store st' = Some (FAISS index)).
Proof.
  unfold _init_faiss, mkdir_faiss, lib_load_local, lib_from_documents, same_attributes. run.
  destruct (fault env (call_mkdir _)); simpl; [intros [= <- <-]; auto; repeat split; discriminate|].
  destruct (fault env call_load_local) eqn:Hload;
    destruct (faiss_disk st) as [[index|]|] eqn:Hdisk; simpl;
    repeat (rewrite Hdisk; simpl);
    try (destruct (fault env (call_from_documents _)); simpl);
    repeat (rewrite Hdisk; simpl);
    intros [= <- <-]; simpl; repeat split; try discriminate; eauto.
Qed.

Lemma _init_chroma_backend env st r st' :
  _init_chroma env st = (r, st') →
  store_type st' = store_type st ∧ faiss_disk st' = faiss_disk st
  ∧ same_attributes st st'
  ∧ (r = Ok tt → vector_store st' = Some Chroma ∧ ∃ l, chroma_disk st' = Collection l).
Proof.
  unfold _init_chroma, mkdir_chroma, rmtree_chroma, lib_Chroma, same_attributes. run.
  destruct (fault env (call_mkdir _)) eqn:Hmk; simpl;
    [intros [= <- <-]; repeat split; discriminate|].
  destruct (fault env call_Chroma) as [e|]; simpl.
  - destruct (is_schema_mismatch (exn_str e)); simpl;
      [|intros [= <- <-]; repeat split; discriminate].
    destruct (fault env (call_rmtree _)); simpl;
      [intros [= <- <-]; repeat split; discriminate|].
    rewrite Hmk. simpl. intros [= <- <-]; repeat split; discriminate.
  - destruct (chroma_disk st) as [|l|msg] eqn:Hdisk; simpl.
    + intros [= <- <-]. simpl. eauto 10.
    + intros [= <- <-]. simpl. eauto 10.
    + destruct (is_schema_mismatch msg); simpl;
        [|intros [= <- <-]; repeat split; discriminate].
      destruct (fault env (call_rmtree _)); simpl;
        [intros [= <- <-]; repeat split; discriminate|].
      rewrite Hmk. simpl. intros [= <- <-]. simpl. eauto 10.
Qed.

(** X5: a [VectorStore] that was constructed holds the backend its
    [store_type] names: a [Chroma] object on a readable collection, only
    when Chroma was asked for, or a FAISS index, when FAISS was asked for
    or the Chroma initialisation failed; the other attributes are the
    arguments. *)
Theorem init_backend_matches_type (env : Env) (ty persist model name : string)
    (chroma : chroma_state) (faiss : option (option (list Entry))) (uuids : nat)
    (st' : VectorStore) :
  __init__ env ty persist model name chroma faiss uuids = (Ok tt, st') →
  backend_matches st'
  ∧ (store_type st' = "chroma" → Py.lower ty = "chroma" ∧ ∃ l, chroma_disk st' = Collection l)
  ∧ (Py.lower ty = "faiss" → store_type st' = "faiss" ∧ chroma_disk st' = chroma)
  ∧ collection_name st' = name ∧ persist_directory st' = Path.str persist
  ∧ embedding_model st' = model.
Proof.
  unfold __init__, _initialize_vector_store. run. simpl.
  destruct (fault env (call_mkdir _)); simpl; [discriminate|].
  destruct (fault env call_HuggingFaceEmbeddings); simpl; [discriminate|].
  set (st0 := mkVectorStore _ _ _ _ _ _ _ _).
  destruct (String.eqb_spec (Py.lower ty) "chroma") as [Hty|Hty].
  - destruct (_init_chroma env st0) as [[[]|e] st1] eqn:Hc; simpl;
      apply _init_chroma_backend in Hc as (Hs & _ & Ha & Hb).
    + intros [= <-]. destruct (Hb eq_refl) as [Hv Hl].
      simpl in Hs. rewrite Hty in Hs.
      split; [left; auto|]. split; [auto|]. split; [rewrite Hty; discriminate|].
      exact Ha.
    + destruct (_init_faiss env (set_store_type "faiss" st1)) as [[[]|e'] st2] eqn:Hf;
        simpl; [|discriminate].
      intros [= <-]. apply _init_faiss_backend in Hf as (Hs' & _ & Ha' & Hb').
      destruct (Hb' eq_refl) as [index Hi]. simpl in Hs'.
      split; [right; eauto|]. split; [rewrite Hs'; discriminate|].
      split; [rewrite Hty; discriminate|].
      destruct Ha as (? & ? & ?), Ha' as (? & ? & ?). simpl in *.
      repeat split; congruence.
  - destruct (String.eqb_spec (Py.lower ty) "faiss") as [Hty'|Hty']; simpl; [|discriminate].
    destruct (_init_faiss env st0) as [[[]|e'] st2] eqn:Hf; simpl; [|discriminate].
    intros [= <-]. apply _init_faiss_backend in Hf as (Hs & Hc & Ha & Hb).
    destruct (Hb eq_refl) as [index Hi]. simpl in Hs. rewrite Hty' in Hs.
    split; [right; eauto|]. split; [rewrite Hs; discriminate|].
    split; [auto|]. exact Ha.
Qed.

Lemma init_backend_matches_type_witness :
  ∃ st', __init__ quiet_env "Chroma" "data/vector_store" "all-MiniLM-L6-v2" "docs"
           NoCollection None 0 = (Ok tt, st')
         ∧ backend_matches st' ∧ collection_name st' = "docs".
Proof.
  destruct (__init__ quiet_env "Chroma" "data/vector_store" "all-MiniLM-L6-v2" "docs"
              NoCollection None 0) as [[[]|e] st'] eqn:Hinit; [|vm_compute in Hinit; discriminate].
  exists st'. split; [reflexivity|].
  destruct (init_backend_matches_type quiet_env "Chroma" "data/vector_store"
              "all-MiniLM-L6-v2" "docs" NoCollection None 0 st' Hinit)
    as (Hb & _ & _ & Hn & _).
  split; [exact Hb|exact Hn].
Defined.

Lemma lib_add_documents_backend env b docs st r st' :
  vector_store st = Some b →
  lib_add_documents env b docs st = (r, st') →
  store_type st' = store_type st
  ∧ match b with
    | Chroma => vector_store st' = Some Chroma
    | FAISS _ => ∃ index, vector_store st' = Some (FAISS index)
    end.
Proof.
  intros Hb. unfold lib_add_documents. run.
  destruct (fault env (call_add_documents _)); simpl.
  { intros [= <- <-]. split; [reflexivity|]. rewrite Hb. destruct b; eauto. }
  destruct b as [|index]; simpl.
  - unfold chroma_entries. simpl. destruct (chroma_disk st); simpl; intros [= <- <-]; simpl; auto.
  - intros [= <- <-]. simpl. eauto.
Qed.

Lemma lib_save_local_backend env b st r st' :
  lib_save_local env b st = (r, st') →
  store_type st' = store_type st ∧ vector_store st' = vector_store st.
Proof.
  unfold lib_save_local. run. destruct (fault env call_save_local); simpl.
  { intros [= <- <-]. auto. }
  destruct b; simpl; intros [= <- <-]; auto.
Qed.

Lemma lib_delete_backend env b ids st r st' :
  lib_delete env b ids st = (r, st') →
  store_type st' = store_type st ∧ vector_store st' = vector_store st.
Proof.
  unfold lib_delete. run. destruct (fault env (call_delete ids)); simpl.
  { intros [= <- <-]. auto. }
  destruct b; simpl; [|intros [= <- <-]; auto].
  unfold chroma_entries. destruct (chroma_disk st); simpl; intros [= <- <-]; auto.
Qed.

Lemma add_documents_backend_matches env documents st r st' :
  backend_matches st →
  add_documents env documents st = (r, st') →
  backend_matches st'.
Proof.
  intros Hm. unfold add_documents.
  destruct documents as [|doc documents]; [intros [= <- <-]; exact Hm|].
  set (docs := doc :: documents). run.
  destruct (chunk_documents env _ (uuid_count st) docs) as [[chunked u']|e];
    simpl; [|intros [= <- <-]; exact Hm].
  set (st1 := set_uuid_count u' st).
  assert (Hm1 : backend_matches st1) by exact Hm.
  assert (Hty1 : store_type st1 = store_type st) by reflexivity. clearbody st1.
  unfold with_store. run. rewrite <- Hty1.
  destruct Hm1 as [[Hty Hb]|[Hty [index Hb]]]; rewrite Hty; simpl; rewrite Hb.
  - destruct (lib_add_documents env Chroma chunked st1) as [[ids|e] st2] eqn:Hadd;
      apply (lib_add_documents_backend _ _ _ _ _ _ Hb) in Hadd as [Hs Hv];
      intros [= <- <-]; left; split; congruence.
  - destruct (lib_add_documents env (FAISS index) chunked st1) as [[ids|e] st2] eqn:Hadd;
      apply (lib_add_documents_backend _ _ _ _ _ _ Hb) in Hadd as [Hs [index2 Hv]].
    + rewrite Hv.
      destruct (lib_save_local env (FAISS index2) st2) as [[[]|e] st3] eqn:Hsave;
        apply lib_save_local_backend in Hsave as [Hs3 Hv3];
        intros [= <- <-]; right; split; try congruence; exists index2; congruence.
    + intros [= <- <-]. right. split; [congruence|eauto].
Qed.

(** X6: the methods keep the backend and [store_type] in agreement:
    [add_documents] and [delete_documents] whatever their outcome, and
    [clear_collection] when it returns [True]. *)
Theorem backend_matches_preserved (env : Env) (st : VectorStore) :
  backend_matches st →
  (∀ documents r st', add_documents env documents st = (r, st') → backend_matches st')
  ∧ (∀ doc_ids r st', delete_documents env doc_ids st = (r, st') → backend_matches st')
  ∧ (∀ st', clear_collection env st = (Ok true, st') → backend_matches st').
Proof.
  intros Hm. split; [|split].
  - intros documents r st'. apply add_documents_backend_matches. exact Hm.
  - intros doc_ids r st'. unfold delete_documents, with_store. run.
    destruct Hm as [[Hty Hb]|[Hty [index Hb]]]; rewrite Hty; simpl.
    + rewrite Hb.
      destruct (lib_delete env Chroma doc_ids st) as [[[]|e] st2] eqn:Hdel;
        apply lib_delete_backend in Hdel as [Hs Hv];
        intros [= <- <-]; left; split; congruence.
    + intros [= <- <-]. right. eauto.
  - intros st'. unfold clear_collection, with_store. run.
    destruct Hm as [[Hty Hb]|[Hty [index Hb]]]; rewrite Hty; simpl.
    + rewrite Hb.
      destruct (lib_delete_collection env Chroma st) as [[[]|e] st1] eqn:Hdel;
        [|discriminate].
      assert (Hs1 : store_type st1 = store_type st).
      { revert Hdel. unfold lib_delete_collection. run.
        destruct (fault env call_delete_collection); simpl; [discriminate|].
        unfold chroma_entries. destruct (chroma_disk st); simpl; intros [= <-]; auto;
          discriminate. }
      destruct (_init_chroma env st1) as [[[]|e] st2] eqn:Hinit; [|discriminate].
      apply _init_chroma_backend in Hinit as (Hs & _ & _ & Hok).
      destruct (Hok eq_refl) as [Hv _].
      intros [= <-]. left. split; congruence.
    + assert (Hr : ∃ r1 st1, (if bool_decide (is_Some (faiss_disk st))
                              then rmtree_faiss env else ret tt) st = (r1, st1)
                             ∧ store_type st1 = store_type st).
      { destruct (bool_decide (is_Some (faiss_disk st))); [|eexists _, _; split; reflexivity].
        unfold rmtree_faiss. run. destruct (fault env (call_rmtree _)); simpl;
          eexists _, _; split; reflexivity. }
      unfold ret in Hr. destruct Hr as (r1 & st1 & -> & Hs1).
      destruct r1 as [[]|e]; [|discriminate].
      destruct (_init_faiss env st1) as [[[]|e] st2] eqn:Hinit; [|discriminate].
      apply _init_faiss_backend in Hinit as (Hs & _ & _ & Hok).
      destruct (Hok eq_refl) as [index2 Hv].
      intros [= <-]. right. split; [congruence|eauto].
Qed.

Lemma backend_matches_preserved_witness :
  ∃ ids st', add_documents quiet_env [test_doc] (chroma_store [sample_entry]) = (Ok ids, st')
             ∧ backend_matches st'.
Proof.
  destruct (add_documents quiet_env [test_doc] (chroma_store [sample_entry]))
    as [[ids|e] st'] eqn:Hadd; [|vm_compute in Hadd; discriminate].
  exists ids, st'. split; [reflexivity|].
  assert (Hm : backend_matches (chroma_store [sample_entry])) by (left; split; reflexivity).
  destruct (backend_matches_preserved quiet_env (chroma_store [sample_entry]) Hm) as [H _].
  exact (H _ _ _ Hadd).
Defined.

(** X7: a store type other than [chroma] and [faiss] (in any case of its
    letters) makes the constructor raise, always: with the exception of the
    call that creates [persist_directory] or of the embeddings constructor
    when one of them fails, and otherwise, the directory created and the
    embeddings loaded, with the exception that names the lower-cased type.
    No backend exists then, and the Chroma and FAISS directories under
    [persist_directory] are as they were. *)
Theorem unsupported_store_type_raises (env : Env) (ty persist model name : string)
    (chroma : chroma_state) (faiss : option (option (list Entry))) (uuids : nat) :
  Py.lower ty ≠ "chroma" → Py.lower ty ≠ "faiss" →
  ∃ e st',
    __init__ env ty persist model name chroma faiss uuids = (Raise e, st')
    ∧ vector_store st' = None ∧ chroma_disk st' = chroma ∧ faiss_disk st' = faiss
    ∧ e = match fault env (call_mkdir (Path.str persist)),
                fault env call_HuggingFaceEmbeddings with
          | Some e_mkdir, _ => e_mkdir
          | None, Some e_embeddings => e_embeddings
          | None, None => Exception ("Unsupported vector store type: " +:+ Py.lower ty)
          end.
Proof.
  intros Hc Hf. unfold __init__, _initialize_vector_store. run. simpl.
  destruct (fault env (call_mkdir _)) as [e1|]; simpl.
  { eexists _, _. split; [reflexivity|]. simpl. auto. }
  destruct (fault env call_HuggingFaceEmbeddings) as [e2|]; simpl.
  { eexists _, _. split; [reflexivity|]. simpl. auto. }
  destruct (String.eqb_spec (Py.lower ty) "chroma"); [contradiction|].
  destruct (String.eqb_spec (Py.lower ty) "faiss"); [contradiction|].
  simpl. eexists _, _. split; [reflexivity|]. simpl. auto.
Qed.

Lemma unsupported_store_type_raises_witness :
  ∃ st', __init__ quiet_env "Pinecone" "data" "model" "docs" NoCollection None 0
         = (Raise (Exception "Unsupported vector store type: pinecone"), st')
         ∧ vector_store st' = None.
Proof.
  destruct (unsupported_store_type_raises quiet_env "Pinecone" "data" "model" "docs"
              NoCollection None 0) as (e & st' & H & Hv & _ & _ & He);
    [vm_compute; discriminate|vm_compute; discriminate|].
  exists st'. split; [|exact Hv]. rewrite H, He. reflexivity.
Defined.

(** X8: a Chroma directory the library cannot read counts as a schema
    mismatch when the message names a missing column, an OperationalError or
    a schema: the constructor then deletes the directory and continues on an
    empty collection; after any other message it leaves the directory as it
    is and turns the store into a FAISS store. *)
Theorem chroma_schema_mismatch_resets (env : Env) (ty persist model name msg : string)
    (faiss : option (option (list Entry))) (uuids : nat) :
  Py.lower ty = "chroma" →
  directories_work env →
  fault env call_HuggingFaceEmbeddings = None →
  fault env call_Chroma = None →
  (is_schema_mismatch msg = true →
   ∃ st', __init__ env ty persist model name (Corrupt msg) faiss uuids = (Ok tt, st')
          ∧ store_type st' = "chroma" ∧ vector_store st' = Some Chroma
          ∧ chroma_disk st' = Collection [] ∧ faiss_disk st' = faiss)
  ∧ (is_schema_mismatch msg = false →
     ∀ r st', __init__ env ty persist model name (Corrupt msg) faiss uuids = (r, st') →
       store_type st' = "faiss" ∧ chroma_disk st' = Corrupt msg).
Proof.
  intros Hty Hdirs Hhf Hch.
  assert (Hmk : ∀ path, fault env (call_mkdir path) = None) by (intros; apply Hdirs).
  assert (Hrm : ∀ path, fault env (call_rmtree path) = None) by (intros; apply Hdirs).
  unfold __init__, _initialize_vector_store. run. simpl.
  rewrite Hmk, Hhf, Hty. simpl.
  unfold _init_chroma, mkdir_chroma, rmtree_chroma, lib_Chroma. run. simpl.
  rewrite !Hmk, !Hch. simpl. split; intros Hmis; rewrite Hmis; simpl.
  - rewrite ?Hrm. simpl. rewrite ?Hmk, ?Hch. simpl.
    eexists. split; [reflexivity|]. simpl. auto.
  - intros r st'.
    destruct (_init_faiss env _) as [r2 st2] eqn:Hf.
    apply _init_faiss_backend in Hf as (Hs & Hc & _). simpl in Hs, Hc.
    destruct r2; intros [= <- <-]; auto.
Qed.

Lemma chroma_schema_mismatch_resets_witness :
  ∃ st', __init__ quiet_env "chroma" "data" "model" "docs"
           (Corrupt "no such column: collections.topic") None 0 = (Ok tt, st')
         ∧ chroma_disk st' = Collection [].
Proof.
  destruct (chroma_schema_mismatch_resets quiet_env "chroma" "data" "model" "docs"
              "no such column: collections.topic" None 0) as [H _];
    [reflexivity|intros path; split; reflexivity|reflexivity|reflexivity|].
  destruct (H eq_refl) as (st' & Hinit & _ & _ & Hd & _).
  exists st'. split; [exact Hinit|exact Hd].
Defined.



(** ** Clearing, deleting and counting *)

Lemma _init_faiss_disk env st st' :
  _init_faiss env st = (Ok tt, st') →
  faiss_disk st' = match faiss_disk st with
                   | None => Some None
                   | Some d => Some d
                   end.
Proof.
  unfold _init_faiss, mkdir_faiss, lib_load_local, lib_from_documents. run.
  destruct (fault env (call_mkdir _)); simpl; [discriminate|].
  destruct (fault env call_load_local) eqn:Hload;
    destruct (faiss_disk st) as [[index|]|] eqn:Hdisk; simpl;
    repeat (rewrite Hdisk; simpl);
    try (destruct (fault env (call_from_documents _)); simpl);
    repeat (rewrite Hdisk; simpl);
    try discriminate; intros [= <-]; simpl; rewrite ?Hdisk; reflexivity.
Qed.

Lemma search_nothing_stored env st query k f :
  stored_entries st = [] → similarity_search env st query k f = Ok [].
Proof.
  intros Hempty.
  destruct (search_swallows_errors_plain env st query k f) as [docs Hdocs].
  rewrite Hdocs. destruct docs as [|doc docs]; [reflexivity|].
  destruct (similarity_search_stored _ _ _ _ _ _ Hdocs doc) as (e & He & _); [left; reflexivity|].
  rewrite Hempty in He. destruct He.
Qed.

(** X10: on a Chroma store whose collection can be read, and when the
    library calls go through, [clear_collection] returns [True] and leaves an
    empty collection behind the same [Chroma] backend: the count is 0 and
    every search returns nothing; the FAISS directory is not touched. *)
Theorem clear_chroma_empties (env : Env) (st : VectorStore) (l : list Entry) :
  store_type st = "chroma" →
  vector_store st = Some Chroma →
  chroma_disk st = Collection l →
  fault env call_delete_collection = None →
  fault env (call_mkdir (persist_directory st +:+ "/chroma")) = None →
  fault env call_Chroma = None →
  ∃ st', clear_collection env st = (Ok true, st')
         ∧ store_type st' = "chroma" ∧ vector_store st' = Some Chroma
         ∧ chroma_disk st' = Collection []
         ∧ faiss_disk st' = faiss_disk st
         ∧ (fault env call_count = None → document_count env st' = Some (VInt 0))
         ∧ ∀ query k f, similarity_search env st' query k f = Ok [].
Proof.
  intros Hty Hb Hdisk Hdel Hmk Hch.
  unfold clear_collection, with_store, lib_delete_collection, _init_chroma,
    mkdir_chroma, lib_Chroma, chroma_entries. run.
  rewrite Hty. simpl. rewrite Hb, Hdel. simpl. rewrite Hdisk. simpl.
  rewrite Hmk. simpl. rewrite Hch. simpl.
  eexists. split; [reflexivity|]. simpl.
  split; [exact Hty|]. split; [reflexivity|]. split; [reflexivity|].
  split; [reflexivity|]. split.
  - intros Hcount. unfold document_count. simpl. rewrite Hty. simpl.
    unfold attempt. rewrite Hcount. reflexivity.
  - intros query k f. apply search_nothing_stored. reflexivity.
Qed.

Lemma clear_chroma_empties_witness :
  ∃ st', clear_collection quiet_env (chroma_store [sample_entry; padded_entry]) = (Ok true, st')
         ∧ document_count quiet_env st' = Some (VInt 0).
Proof.
  destruct (clear_chroma_empties quiet_env (chroma_store [sample_entry; padded_entry])
              [sample_entry; padded_entry])
    as (st' & Hclear & _ & _ & _ & _ & Hcount & _); try reflexivity.
  exists st'. split; [exact Hclear|]. apply Hcount. reflexivity.
Defined.

(** X11: on a FAISS store a [clear_collection] that returns [True] leaves
    an index that holds the dummy document and nothing else, so the count
    is 1, not 0; the index directory exists but holds no saved index. *)
Theorem clear_faiss_leaves_dummy (env : Env) (st st' : VectorStore) :
  store_type st = "faiss" →
  clear_collection env st = (Ok true, st') →
  (∃ id, stored_entries st' = [mkEntry id dummy_doc])
  ∧ document_count env st' = Some (VInt 1)
  ∧ faiss_disk st' = Some None
  ∧ chroma_disk st' = chroma_disk st.
Proof.
  intros Hty. unfold clear_collection. run. rewrite Hty. simpl.
  assert (Hr : ∃ r1 st1, (if bool_decide (is_Some (faiss_disk st))
                          then rmtree_faiss env else (fun st0 => (Ok tt, st0))) st = (r1, st1)
                         ∧ store_type st1 = "faiss" ∧ chroma_disk st1 = chroma_disk st
                         ∧ (r1 = Ok tt → faiss_disk st1 = None)).
  { destruct (faiss_disk st) as [d|] eqn:Hd; simpl.
    - unfold rmtree_faiss. run. destruct (fault env (call_rmtree _)); simpl;
        eexists _, _; (split; [reflexivity|]); simpl; repeat split; auto; discriminate.
    - eexists _, _. split; [reflexivity|]. auto. }
  destruct Hr as (r1 & st1 & -> & Hty1 & Hc1 & Hd1).
  destruct r1 as [[]|e]; [|discriminate]. specialize (Hd1 eq_refl).
  destruct (_init_faiss env st1) as [[[]|e] st2] eqn:Hinit; [|discriminate].
  intros [= <-].
  pose proof (_init_faiss_disk _ _ _ Hinit) as Hdisk. rewrite Hd1 in Hdisk.
  pose proof (_init_faiss_backend _ _ _ _ Hinit) as (_ & Hc & _).
  apply _init_faiss_fresh in Hinit as (Hs & id & Hv).
  2:{ unfold loadable. rewrite Hd1. destruct (fault env call_load_local); reflexivity. }
  split; [exists id; unfold stored_entries; rewrite Hv; reflexivity|].
  split; [|split; [exact Hdisk|congruence]].
  unfold document_count. rewrite Hs, Hty1, Hv. reflexivity.
Qed.

Lemma clear_faiss_leaves_dummy_witness :
  ∃ st', clear_collection quiet_env (faiss_store [sample_entry; padded_entry]) = (Ok true, st')
         ∧ document_count quiet_env st' = Some (VInt 1).
Proof.
  destruct (clear_collection quiet_env (faiss_store [sample_entry; padded_entry]))
    as [[[]|e] st'] eqn:Hclear; try (vm_compute in Hclear; discriminate).
  exists st'. split; [reflexivity|].
  destruct (clear_faiss_leaves_dummy quiet_env (faiss_store [sample_entry; padded_entry]) st'
              eq_refl Hclear) as (_ & Hcount & _).
  exact Hcount.
Defined.

Lemma add_documents_chroma env (documents : list Document) st ids st' :
  store_type st = "chroma" →
  vector_store st = Some Chroma →
  documents ≠ [] →
  add_documents env documents st = (Ok ids, st') →
  ∃ old new, chroma_disk st = Collection old
             ∧ chroma_disk st' = Collection (old ++ new)
             ∧ ids = map entry_id new
             ∧ vector_store st' = Some Chroma ∧ store_type st' = "chroma"
             ∧ faiss_disk st' = faiss_disk st.
Proof.
  intros Hty Hb Hne. unfold add_documents.
  destruct documents as [|doc documents]; [congruence|].
  set (docs := doc :: documents) in *. run.
  destruct (chunk_documents env _ (uuid_count st) docs) as [[chunked u']|e];
    simpl; [|discriminate].
  unfold with_store, lib_add_documents, chroma_entries. run. simpl.
  rewrite Hty. simpl. rewrite Hb.
  destruct (fault env (call_add_documents _)); simpl; [discriminate|].
  destruct (chroma_disk st) as [|old|msg]; simpl; try discriminate.
  intros [= <- <-]. eexists old, _. simpl. repeat split; auto.
Qed.

Lemma filter_out_new (ids : list string) (old new : list Entry) :
  (∀ e, In e old → entry_id e ∉ ids) →
  ids = map entry_id new →
  List.filter (fun e => negb (bool_decide (entry_id e ∈ ids))) (old ++ new) = old.
Proof.
  intros Hold ->. rewrite List.filter_app.
  assert (H1 : List.filter (fun e => negb (bool_decide (entry_id e ∈ map entry_id new))) old
               = old).
  { induction old as [|e old IH]; simpl; [reflexivity|].
    rewrite bool_decide_eq_false_2 by (apply Hold; left; reflexivity).
    simpl. f_equal. apply IH. intros e' He'. apply Hold. right. exact He'. }
  assert (H2 : ∀ l, (∀ e, In e l → In e new) →
               List.filter (fun e => negb (bool_decide (entry_id e ∈ map entry_id new))) l
               = []).
  { induction l as [|e l IH]; simpl; intros Hl; [reflexivity|].
    rewrite bool_decide_eq_true_2.
    - simpl. apply IH. intros e' He'. apply Hl. right. exact He'.
    - apply list_elem_of_In, in_map, Hl. left. reflexivity. }
  rewrite H1, H2 by auto. apply app_nil_r.
Qed.

(** X12: on a Chroma store, deleting the identifiers that
    [add_documents] returned takes exactly the added chunks out again: the
    collection is back to the entries it held before, provided none of
    those carries one of the new identifiers. *)
Theorem add_then_delete_restores (env : Env) (documents : list Document)
    (st st1 : VectorStore) (ids : list string) :
  store_type st = "chroma" →
  vector_store st = Some Chroma →
  documents ≠ [] →
  add_documents env documents st = (Ok ids, st1) →
  fault env (call_delete ids) = None →
  (∀ e, In e (stored_entries st) → entry_id e ∉ ids) →
  ∃ st2, delete_documents env ids st1 = (Ok true, st2)
         ∧ chroma_disk st2 = chroma_disk st
         ∧ stored_entries st2 = stored_entries st.
Proof.
  intros Hty Hb Hne Hadd Hdel Hold.
  apply add_documents_chroma in Hadd as (old & new & Hd & Hd1 & Hids & Hb1 & Hty1 & _);
    auto.
  unfold stored_entries in Hold. rewrite Hb, Hd in Hold.
  unfold delete_documents, with_store, lib_delete, chroma_entries. run.
  rewrite Hty1. simpl. rewrite Hb1, Hdel. simpl. rewrite Hd1. simpl.
  rewrite (filter_out_new ids old new Hold Hids).
  eexists. split; [reflexivity|]. unfold stored_entries. simpl.
  rewrite Hb1, Hb, Hd. auto.
Qed.

Lemma add_then_delete_restores_witness :
  ∃ ids st1 st2,
    add_documents quiet_env [test_doc] (chroma_store [sample_entry]) = (Ok ids, st1)
    ∧ delete_documents quiet_env ids st1 = (Ok true, st2)
    ∧ stored_entries st2 = [sample_entry].
Proof.
  destruct (add_documents quiet_env [test_doc] (chroma_store [sample_entry]))
    as [[ids|e] st1] eqn:Hadd; [|vm_compute in Hadd; discriminate].
  assert (Hids : ids = ["uuid-2"]) by (vm_compute in Hadd; congruence).
  destruct (add_then_delete_restores quiet_env [test_doc] (chroma_store [sample_entry])
              st1 ids) as (st2 & Hdel & _ & Hst); try reflexivity; try assumption.
  - discriminate.
  - subst ids. simpl. intros e [<-|[]] Hin.
    apply list_elem_of_In in Hin. destruct Hin as [Hin|[]]. discriminate.
  - exists ids, st1, st2. split; [reflexivity|]. split; [exact Hdel|exact Hst].
Defined.

(** X13: when the collection reports a count, a successful
    [add_documents] raises it by the number of identifiers returned, one
    per stored chunk. *)
Theorem document_count_grows (env : Env) (documents : list Document)
    (st st' : VectorStore) (ids : list string) (n : Z) :
  document_count env st = Some (VInt n) →
  add_documents env documents st = (Ok ids, st') →
  document_count env st' = Some (VInt (n + Z.of_nat (length ids))).
Proof.
  intros Hcount Hadd. destruct documents as [|doc documents].
  { injection Hadd as <- <-. rewrite Hcount. simpl. do 2 f_equal. lia. }
  revert Hcount. unfold document_count.
  destruct (String.eqb_spec (store_type st) "chroma") as [Hty|Hty].
  - destruct (vector_store st) as [[|index]|] eqn:Hb; simpl; try discriminate.
    unfold attempt. destruct (fault env call_count) eqn:Hc; simpl; [discriminate|].
    apply add_documents_chroma in Hadd as (old & new & Hd & Hd1 & -> & Hb1 & Hty1 & _);
      auto; try discriminate.
    unfold chroma_entries. rewrite Hd. simpl. intros [= <-].
    rewrite Hty1. simpl. rewrite Hb1. simpl. unfold attempt, chroma_entries.
    rewrite Hc, Hd1. simpl. rewrite length_app, length_map. do 2 f_equal. lia.
  - destruct (String.eqb_spec (store_type st) "faiss") as [Hty'|Hty']; [|discriminate].
    apply add_documents_success in Hadd as (chunked & u' & _ & Hent & -> & Hs & Hf);
      [|discriminate].
    destruct (Hf Hty') as (Hb1 & _).
    rewrite Hs, Hty'. simpl. rewrite Hb1. simpl.
    destruct (vector_store st) as [[|index]|] eqn:Hb; simpl; try discriminate.
    intros [= <-]. rewrite Hent. unfold stored_entries at 1. rewrite Hb.
    rewrite length_app, length_map. do 2 f_equal. lia.
Qed.

Lemma document_count_grows_witness :
  ∃ ids st',
    add_documents quiet_env [long_test_doc] (faiss_store [sample_entry]) = (Ok ids, st')
    ∧ document_count quiet_env st' = Some (VInt (1 + Z.of_nat (length ids))).
Proof.
  destruct (add_documents quiet_env [long_test_doc] (faiss_store [sample_entry]))
    as [[ids|e] st'] eqn:Hadd; [|vm_compute in Hadd; discriminate].
  exists ids, st'. split; [reflexivity|].
  apply (document_count_grows quiet_env [long_test_doc] (faiss_store [sample_entry]) st' ids 1);
    [reflexivity|exact Hadd].
Defined.


(** ** More on the document processor *)

(** X14: [validate_documents] returns documents with content other than
    whitespace and with a [doc_id]; it keeps the order and the contents of
    the documents it lets through, changes no metadata entry that was
    there, and validating a second time changes nothing. *)
Theorem validate_documents_valid (documents : list Document) :
  Forall valid_document (validate_documents documents)
  ∧ map page_content (validate_documents documents)
    = List.filter (fun text => negb (String.eqb (Py.strip text) ""))
        (map page_content documents)
  ∧ (∀ doc', In doc' (validate_documents documents) →
       ∃ doc, In doc documents ∧ page_content doc' = page_content doc
              ∧ ∀ key v, metadata doc !! key = Some v → metadata doc' !! key = Some v)
  ∧ validate_documents (validate_documents documents) = validate_documents documents
  ∧ (Forall valid_document documents → validate_documents documents = documents).
Proof.
  assert (Hfix : ∀ docs, Forall valid_document docs → validate_documents docs = docs).
  { induction docs as [|doc docs IH]; intros Hall; [reflexivity|].
    apply Forall_cons in Hall as [[Hc [v Hv]] Hall].
    unfold validate_documents. simpl. fold (validate_documents docs).
    rewrite IH by exact Hall.
    destruct (String.eqb_spec (Py.strip (page_content doc)) ""); [contradiction|].
    rewrite Hv. reflexivity. }
  assert (Hvalid : Forall valid_document (validate_documents documents)).
  { induction documents as [|doc documents IH]; [constructor|].
    unfold validate_documents. simpl. fold (validate_documents documents).
    destruct (String.eqb_spec (Py.strip (page_content doc)) "") as [|Hc]; [exact IH|].
    destruct (metadata doc !! "doc_id") as [v|] eqn:Hv; simpl; constructor; try exact IH.
    - split; [exact Hc|]. rewrite Hv. eauto.
    - split; [exact Hc|]. simpl. rewrite lookup_insert_eq. eauto. }
  split; [exact Hvalid|].
  split; [|split; [|split; [apply Hfix; exact Hvalid|apply Hfix]]]; clear Hvalid.
  - induction documents as [|doc documents IH]; [reflexivity|].
    unfold validate_documents. simpl. fold (validate_documents documents).
    destruct (String.eqb (Py.strip (page_content doc)) ""); simpl; [exact IH|].
    destruct (metadata doc !! "doc_id"); simpl; rewrite IH; reflexivity.
  - induction documents as [|doc documents IH]; [intros doc' []|].
    unfold validate_documents. simpl. fold (validate_documents documents).
    intros doc' Hin. apply in_app_or in Hin as [Hin|Hin].
    + exists doc. split; [left; reflexivity|].
      destruct (String.eqb (Py.strip (page_content doc)) ""); [destruct Hin|].
      destruct (metadata doc !! "doc_id") as [v|] eqn:Hv; destruct Hin as [<-|[]];
        simpl; split; auto.
      intros key w Hw. rewrite lookup_insert_ne; [exact Hw|congruence].
    + destruct (IH doc' Hin) as (d & Hd & H). exists d. split; [right; exact Hd|exact H].
Qed.

(** X15: [is_supported] holds exactly for the paths whose extension, in
    lower case, is in the list [get_supported_extensions] returns, and that
    list names no extension twice. *)
Theorem is_supported_extensions (env : Env) (file_path : string) :
  (is_supported env file_path = true
   ↔ Py.lower (Path.suffix file_path) ∈ get_supported_extensions env)
  ∧ NoDup (get_supported_extensions env).
Proof.
  split.
  - unfold is_supported, supported_extensions, get_supported_extensions.
    rewrite bool_decide_eq_true.
    generalize (Py.lower (Path.suffix file_path)). intros ext.
    destruct (PDF_AVAILABLE env), (DOCX_AVAILABLE env); simpl;
      rewrite ?lookup_insert_is_Some, lookup_empty, is_Some_alt;
      rewrite ?elem_of_cons, elem_of_nil; intuition congruence.
  - unfold get_supported_extensions.
    destruct (PDF_AVAILABLE env), (DOCX_AVAILABLE env); simpl; apply NoDup_ListNoDup;
      repeat (constructor; [simpl; intuition discriminate|]); constructor.
Qed.

Lemma process_file_documents env file_path extra documents :
  process_file env file_path extra = Ok documents →
  documents = []
  ∨ path_exists env (Path.str file_path) = true
    ∧ is_supported env (Path.str file_path) = true
    ∧ ∃ st loader_func loaded,
        path_stat env (Path.str file_path) = Ok st
        ∧ supported_extensions env !! Py.lower (Path.suffix file_path) = Some loader_func
        ∧ run_loader env loader_func (Path.str file_path) = Ok loaded
        ∧ documents
          = map (fun doc => mkDocument (page_content doc)
                   (update (metadata doc)
                      (update
                         (<["modified_at" := VFloat (st_mtime st)]>
                         (<["created_at" := VFloat (st_ctime st)]>
                         (<["file_size" := VInt (st_size st)]>
                         (<["doc_id" := VStr (_generate_doc_id (Path.str file_path))]>
                         (<["file_extension" := VStr (Path.suffix file_path)]>
                         (<["filename" := VStr (Path.name file_path)]>
                         (<["source" := VStr (Path.str file_path)]> ∅)))))))
                         (default ∅ extra)))) loaded.
Proof.
  unfold process_file.
  destruct (path_exists env (Path.str file_path)); simpl; [|intros [= <-]; auto].
  destruct (is_supported env (Path.str file_path)); simpl; [|intros [= <-]; auto].
  destruct (path_stat env (Path.str file_path)) as [st|e]; simpl; [|intros [= <-]; auto].
  destruct (supported_extensions env !! Py.lower (Path.suffix file_path)) as [l|];
    simpl; [|intros [= <-]; auto].
  destruct (run_loader env l (Path.str file_path)) as [loaded|e] eqn:Hl; simpl;
    [|intros [= <-]; auto].
  intros [= <-]. right. split; [reflexivity|]. split; [reflexivity|].
  exists st, l, loaded. split; [reflexivity|]. split; [reflexivity|]. split; [exact Hl|].
  destruct extra as [m|]; simpl; [reflexivity|].
  unfold update at 3. rewrite (left_id_L ∅ (∪)). reflexivity.
Qed.

(** X16: every document [process_file] returns carries the caller's
    metadata, whatever the loader or the file says; where the caller sets
    nothing, its [doc_id] is the MD5 digest of the path string (so all the
    documents of one file share it), its [source] is the path, its
    [filename] and [file_extension] those of the path. *)
Theorem process_file_metadata (env : Env) (file_path : string)
    (extra : option (gmap string value)) (documents : list Document) :
  process_file env file_path extra = Ok documents →
  ∀ doc, In doc documents →
    (∀ key v, default ∅ extra !! key = Some v → metadata doc !! key = Some v)
    ∧ ∀ key v,
        In (key, v) [("doc_id", VStr (_generate_doc_id (Path.str file_path)));
                     ("source", VStr (Path.str file_path));
                     ("filename", VStr (Path.name file_path));
                     ("file_extension", VStr (Path.suffix file_path))] →
        default ∅ extra !! key = None → metadata doc !! key = Some v.
Proof.
  intros Hp doc Hin.
  apply process_file_documents in Hp as [->|(_ & _ & st & l & loaded & _ & _ & _ & ->)];
    [destruct Hin|].
  apply in_map_iff in Hin as (d & <- & _). simpl. unfold update. split.
  - intros key v Hv. apply lookup_union_Some_l, lookup_union_Some_l. exact Hv.
  - intros key v Hkv Hnone.
    apply lookup_union_Some_l. rewrite lookup_union_r by exact Hnone.
    simpl in Hkv. destruct Hkv as [[= <- <-]|[[= <- <-]|[[= <- <-]|[[= <- <-]|[]]]]];
      repeat (rewrite lookup_insert_ne by discriminate); apply lookup_insert_eq.
Qed.

Lemma process_file_metadata_witness :
  ∃ doc, process_file quiet_env "./a.txt" (Some (<["source" := VStr "manual"]> ∅)) = Ok [doc]
         ∧ metadata doc !! "source" = Some (VStr "manual")
         ∧ metadata doc !! "filename" = Some (VStr "a.txt").
Proof.
  destruct (process_file quiet_env "./a.txt" (Some (<["source" := VStr "manual"]> ∅)))
    as [[|doc [|]]|] eqn:Hp; try (vm_compute in Hp; discriminate).
  exists doc. split; [reflexivity|].
  destruct (process_file_metadata quiet_env "./a.txt" (Some (<["source" := VStr "manual"]> ∅))
              [doc] Hp doc) as [Hgiven Hown]; [left; reflexivity|].
  split.
  - apply Hgiven. reflexivity.
  - apply Hown; [simpl; auto|reflexivity].
Defined.

(** X17: no loader lets an exception of its library out: when the text,
    PDF or DOCX loader of the library raises the result is the empty list,
    and when the Markdown loader raises the result is what the text loader
    gives for the same file. *)
Theorem loaders_never_raise (env : Env) (l : loader) (file_path : string) :
  (∃ documents, run_loader env l file_path = Ok documents)
  ∧ (∀ e, UnstructuredMarkdownLoader_load env file_path = Raise e →
       run_loader env _load_markdown file_path = run_loader env _load_text file_path)
  ∧ (∀ e, TextLoader_load env file_path = Raise e →
       run_loader env _load_text file_path = Ok []
       ∧ (∀ e', UnstructuredMarkdownLoader_load env file_path = Raise e' →
            run_loader env _load_markdown file_path = Ok []))
  ∧ (∀ e, PyPDFLoader_load env file_path = Raise e →
       run_loader env _load_pdf file_path = Ok [])
  ∧ (∀ e, Docx2txtLoader_load env file_path = Raise e →
       run_loader env _load_docx file_path = Ok []).
Proof.
  unfold run_loader, run_load_text. split; [|split; [|split; [|split]]].
  - destruct l; simpl.
    + destruct (TextLoader_load env file_path); simpl; eauto.
    + destruct (UnstructuredMarkdownLoader_load env file_path); simpl; eauto.
      destruct (TextLoader_load env file_path); simpl; eauto.
    + destruct (PyPDFLoader_load env file_path); simpl; eauto.
    + destruct (Docx2txtLoader_load env file_path); simpl; eauto.
  - intros e ->. reflexivity.
  - intros e ->. split; [reflexivity|]. intros e' ->. reflexivity.
  - intros e ->. reflexivity.
  - intros e ->. reflexivity.
Qed.

Lemma glob_all_In env directory recursive patterns found f :
  glob_all env directory recursive patterns = Ok found →
  In f found →
  ∃ pattern l, In pattern patterns ∧ path_glob env directory recursive pattern = Ok l
               ∧ In f l.
Proof.
  revert found. induction patterns as [|pattern rest IH]; simpl; intros found.
  - intros [= <-] [].
  - destruct (path_glob env directory recursive pattern) as [l|] eqn:Hl; simpl;
      [|discriminate].
    destruct (glob_all env directory recursive rest) as [more|]; simpl; [|discriminate].
    intros [= <-] Hin. apply in_app_or in Hin as [Hin|Hin].
    + exists pattern, l. auto.
    + destruct (IH more eq_refl Hin) as (p & l' & Hp & Hl' & Hf). exists p, l'. auto.
Qed.

Lemma exclude_all_In env directory recursive patterns files kept f :
  exclude_all env directory recursive patterns files = Ok kept →
  In f kept →
  In f files
  ∧ ∀ pattern, In pattern patterns →
      ∃ l, path_glob env directory recursive pattern = Ok l ∧ ¬ In f l.
Proof.
  revert files. induction patterns as [|pattern rest IH]; simpl; intros files.
  - intros [= <-] Hin. split; [exact Hin|]. intros pattern [].
  - destruct (path_glob env directory recursive pattern) as [l|] eqn:Hl; simpl;
      [|discriminate].
    intros Hk Hin. destruct (IH _ Hk Hin) as [Hf Hrest].
    apply filter_In in Hf as [Hf Hnot].
    apply negb_true_iff, bool_decide_eq_false in Hnot.
    split; [exact Hf|]. intros p [<-|Hp]; [|auto].
    exists l. split; [exact Hl|]. intros Hfl. apply Hnot, list_elem_of_In. exact Hfl.
Qed.

Lemma process_files_In env files documents doc :
  process_files env files = Ok documents →
  In doc documents →
  ∃ f from_file, In f files ∧ is_supported env f = true
                 ∧ process_file env f None = Ok from_file ∧ In doc from_file.
Proof.
  revert documents. induction files as [|f rest IH]; simpl; intros documents.
  - intros [= <-] [].
  - destruct (is_supported env f) eqn:Hs.
    + destruct (process_file env f None) as [from_file|] eqn:Hp; simpl; [|discriminate].
      destruct (process_files env rest) as [more|]; simpl; [|discriminate].
      intros [= <-] Hin. apply in_app_or in Hin as [Hin|Hin].
      * exists f, from_file. auto.
      * destruct (IH more eq_refl Hin) as (f' & ff & ? & ? & ? & ?). exists f', ff. auto.
    + simpl. destruct (process_files env rest) as [more|]; simpl; [|discriminate].
      intros [= <-] Hin.
      destruct (IH more eq_refl Hin) as (f' & ff & ? & ? & ? & ?). exists f', ff. auto.
Qed.

(** X18: [process_directory] never raises, returns nothing for a path
    that is not an existing directory, and otherwise returns only documents
    of regular files that the directory listing contains, that have a
    supported extension, that one of the given patterns matches (when
    patterns are given) and that no exclude pattern matches. *)
Theorem process_directory_selects (env : Env) (directory_path : string) (recursive : bool)
    (file_patterns exclude_patterns : option (list string)) :
  ∃ documents,
    process_directory env directory_path recursive file_patterns exclude_patterns
      = Ok documents
    ∧ (path_exists env (Path.str directory_path) = false
       ∨ path_is_dir env (Path.str directory_path) = false → documents = [])
    ∧ ∀ doc, In doc documents →
        ∃ listing f from_file,
          path_glob env (Path.str directory_path) recursive "*" = Ok listing
          ∧ In f listing ∧ path_is_file env f = true ∧ is_supported env f = true
          ∧ process_file env f None = Ok from_file ∧ In doc from_file
          ∧ (∀ pattern rest, file_patterns = Some (pattern :: rest) →
               ∃ p l, In p (pattern :: rest)
                      ∧ path_glob env (Path.str directory_path) recursive p = Ok l
                      ∧ In f l)
          ∧ (∀ patterns pattern, exclude_patterns = Some patterns → In pattern patterns →
               ∃ l, path_glob env (Path.str directory_path) recursive pattern = Ok l
                    ∧ ¬ In f l).
Proof.
  unfold process_directory. set (directory := Path.str directory_path).
  destruct (path_exists env directory); simpl.
  2:{ exists []. split; [reflexivity|]. split; [reflexivity|]. intros doc []. }
  destruct (path_is_dir env directory); simpl.
  2:{ exists []. split; [reflexivity|]. split; [reflexivity|]. intros doc []. }
  destruct (path_glob env directory recursive "*") as [listing|] eqn:Hlist; simpl.
  2:{ exists []. split; [reflexivity|]. split; [reflexivity|]. intros doc []. }
  set (files0 := List.filter (path_is_file env) listing).
  destruct (match file_patterns with
            | Some ((_ :: _) as patterns) =>
                filtered_files <- glob_all env directory recursive patterns ;;
                Ok (List.filter (fun f => bool_decide (f ∈ filtered_files)) files0)
            | _ => Ok files0
            end) as [files1|] eqn:H1; simpl.
  2:{ exists []. split; [reflexivity|]. split; [intros [|]; discriminate|]. intros doc []. }
  destruct (match exclude_patterns with
            | Some patterns => exclude_all env directory recursive patterns files1
            | None => Ok files1
            end) as [files2|] eqn:H2; simpl.
  2:{ exists []. split; [reflexivity|]. split; [intros [|]; discriminate|]. intros doc []. }
  destruct (process_files env files2) as [documents|] eqn:H3; simpl.
  2:{ exists []. split; [reflexivity|]. split; [intros [|]; discriminate|]. intros doc []. }
  exists documents. split; [reflexivity|]. split; [intros [|]; discriminate|].
  intros doc Hdoc.
  destruct (process_files_In _ _ _ _ H3 Hdoc) as (f & from_file & Hf2 & Hsup & Hp & Hin).
  assert (Hf1 : In f files1
                ∧ ∀ patterns pattern, exclude_patterns = Some patterns → In pattern patterns →
                    ∃ l, path_glob env directory recursive pattern = Ok l ∧ ¬ In f l).
  { destruct exclude_patterns as [patterns|].
    - destruct (exclude_all_In _ _ _ _ _ _ _ H2 Hf2) as [Hf Hex].
      split; [exact Hf|]. intros ps p [= <-]. apply Hex.
    - injection H2 as <-. split; [exact Hf2|]. discriminate. }
  destruct Hf1 as [Hf1 Hex].
  assert (Hf0 : In f files0
                ∧ ∀ pattern rest, file_patterns = Some (pattern :: rest) →
                    ∃ p l, In p (pattern :: rest)
                           ∧ path_glob env directory recursive p = Ok l ∧ In f l).
  { destruct file_patterns as [[|pattern rest]|].
    - injection H1 as <-. split; [exact Hf1|]. discriminate.
    - destruct (glob_all env directory recursive (pattern :: rest)) as [found|] eqn:Hg;
        simpl in H1; [|discriminate].
      injection H1 as <-. apply filter_In in Hf1 as [Hf0 Hfound].
      apply bool_decide_eq_true, list_elem_of_In in Hfound.
      split; [exact Hf0|]. intros p r [= <- <-].
      exact (glob_all_In _ _ _ _ _ _ Hg Hfound).
    - injection H1 as <-. split; [exact Hf1|]. discriminate. }
  destruct Hf0 as [Hf0 Hpat]. apply filter_In in Hf0 as [Hlisting Hfile].
  exists listing, f, from_file. repeat split; auto.
Qed.

(** ** Finding what was added *)

Lemma insert_by_length env query e l :
  length (insert_by env query e l) = S (length l).
Proof.
  induction l as [|x l IH]; simpl; [reflexivity|].
  destruct (Qle_bool _ _); simpl; [rewrite IH|]; reflexivity.
Qed.

Lemma nearest_length env query l : length (nearest env query l) = length l.
Proof.
  induction l as [|x l IH]; simpl; [reflexivity|].
  rewrite insert_by_length, IH. reflexivity.
Qed.

Lemma search_finds_all env st query k :
  backend_matches st →
  fault env (call_search query k) = None →
  Z.of_nat (length (stored_entries st)) <= k →
  ∃ docs, similarity_search env st query k None = Ok docs
          ∧ length docs = length (stored_entries st)
          ∧ ∀ e, In e (stored_entries st) → In (entry_doc e) docs.
Proof.
  intros Hm Hsearch Hk.
  assert (Hall : ∀ l, Z.of_nat (length l) <= k →
            length (map fst (map (scored env query)
                      (firstn (Z.to_nat k) (nearest env query l)))) = length l
            ∧ ∀ e, In e l →
                In (entry_doc e)
                   (map fst (map (scored env query)
                      (firstn (Z.to_nat k) (nearest env query l))))).
  { intros l Hl. rewrite firstn_all2 by (rewrite nearest_length; lia). split.
    - rewrite !length_map. apply nearest_length.
    - intros e He. apply in_map_iff. exists (scored env query e). split; [reflexivity|].
      apply in_map, nearest_In. exact He. }
  revert Hk. unfold similarity_search, lib_similarity_search,
    lib_similarity_search_with_score, attempt, stored_entries.
  rewrite Hsearch.
  destruct Hm as [[Hty Hb]|[Hty [index Hb]]]; rewrite Hty, Hb; simpl.
  - unfold chroma_entries. destruct (chroma_disk st) as [|l|msg]; simpl; intros Hk.
    + exists []. split; [reflexivity|]. split; [reflexivity|]. intros e [].
    + eexists. split; [reflexivity|]. apply Hall. exact Hk.
    + exists []. split; [reflexivity|]. split; [reflexivity|]. intros e [].
  - intros Hk. eexists. split; [reflexivity|]. apply Hall. exact Hk.
Qed.

(** X19: what was added can be found: after a successful
    [add_documents] on a store whose backend is the one its type names, a
    search that asks for at least as many results as the store holds
    entries, and whose library call goes through, returns every stored
    chunk, the new ones (one per returned identifier) included. *)
Theorem added_chunks_are_found (env : Env) (documents : list Document)
    (st st' : VectorStore) (ids : list string) (query : string) (k : Z) :
  backend_matches st →
  add_documents env documents st = (Ok ids, st') →
  fault env (call_search query k) = None →
  Z.of_nat (length (stored_entries st')) <= k →
  ∃ docs new,
    similarity_search env st' query k None = Ok docs
    ∧ stored_entries st' = stored_entries st ++ new
    ∧ ids = map entry_id new
    ∧ length docs = length (stored_entries st')
    ∧ ∀ e, In e new → In (entry_doc e) docs.
Proof.
  intros Hm Hadd Hsearch Hk.
  pose proof (add_documents_backend_matches _ _ _ _ _ Hm Hadd) as Hm'.
  destruct (search_finds_all env st' query k Hm' Hsearch Hk) as (docs & Hdocs & Hlen & Hall).
  assert (Hnew : ∃ new, stored_entries st' = stored_entries st ++ new
                        ∧ ids = map entry_id new).
  { destruct documents as [|doc documents].
    - injection Hadd as <- <-. exists []. split; [symmetry; apply app_nil_r|reflexivity].
    - apply add_documents_success in Hadd as (chunked & u' & _ & Hent & Hids & _);
        [|discriminate].
      eauto. }
  destruct Hnew as (new & Hent & Hids).
  exists docs, new. repeat split; auto.
  intros e He. apply Hall. rewrite Hent. apply in_or_app. right. exact He.
Qed.

Lemma added_chunks_are_found_witness :
  ∃ ids st' docs,
    add_documents quiet_env [long_test_doc] (chroma_store [sample_entry]) = (Ok ids, st')
    ∧ similarity_search quiet_env st' "aaa" 10 None = Ok docs
    ∧ length docs = length (stored_entries st').
Proof.
  destruct (add_documents quiet_env [long_test_doc] (chroma_store [sample_entry]))
    as [[ids|e] st'] eqn:Hadd; [|vm_compute in Hadd; discriminate].
  destruct (added_chunks_are_found quiet_env [long_test_doc] (chroma_store [sample_entry])
              st' ids "aaa" 10) as (docs & new & Hdocs & _ & _ & Hlen & _).
  - left. split; reflexivity.
  - exact Hadd.
  - reflexivity.
  - vm_compute in Hadd. injection Hadd as _ <-. vm_compute. discriminate.
  - exists ids, st', docs. split; [reflexivity|]. split; [exact Hdocs|exact Hlen].
Defined.

(** ** The retrieval tool: ingestion and reports *)

Lemma process_each_nothing env file_paths :
  Forall (fun p => path_exists env (Path.str p) = false
                   ∨ is_supported env (Path.str p) = false) file_paths →
  process_each env file_paths = Ok [].
Proof.
  induction 1 as [|p rest Hp _ IH]; simpl; [reflexivity|].
  rewrite IH. unfold process_file.
  destruct (path_exists env (Path.str p)); simpl; [|reflexivity].
  destruct Hp as [Hp|Hp]; [discriminate|]. rewrite Hp. reflexivity.
Qed.

(** X20: the two ingestion methods never raise. [add_documents_from_files]
    reports that no valid documents were found, and leaves the store as it
    was, when every path is missing or has an unsupported extension (or no
    path is given); when files were loaded but every document in them is
    blank, it reports success for 0 documents, again with the store as it
    was. [add_documents_from_directory] reports that no valid documents
    were found in the directory, named as the caller wrote it, when the path
    is not an existing directory. *)
Theorem ingestion_without_content (env : Env) (st : VectorStore) :
  (∀ file_paths,
     (∃ msg st', add_documents_from_files env file_paths st = (Ok msg, st'))
     ∧ (Forall (fun p => path_exists env (Path.str p) = false
                         ∨ is_supported env (Path.str p) = false) file_paths →
        add_documents_from_files env file_paths st
        = (Ok "No valid documents found in the provided files.", st))
     ∧ (∀ documents, process_each env file_paths = Ok documents → documents ≠ [] →
          validate_documents documents = [] →
          add_documents_from_files env file_paths st
          = (Ok ("Successfully added 0 documents from "
                 +:+ pretty (Z.of_nat (length file_paths)) +:+ " files to knowledge base."),
             st)))
  ∧ (∀ directory_path recursive file_patterns,
       (∃ msg st', add_documents_from_directory env directory_path recursive file_patterns st
                   = (Ok msg, st'))
       ∧ (path_exists env (Path.str directory_path) = false
          ∨ path_is_dir env (Path.str directory_path) = false →
          add_documents_from_directory env directory_path recursive file_patterns st
          = (Ok ("No valid documents found in directory '" +:+ directory_path +:+ "'."),
             st))).
Proof.
  split.
  - intros file_paths. split; [|split].
    + unfold add_documents_from_files.
      apply (try_exceptM_ok _ (fun e => "Error adding documents from files: " +:+ exn_str e)).
    + intros Hnone. unfold add_documents_from_files. run.
      rewrite process_each_nothing by exact Hnone. reflexivity.
    + intros documents Hp Hne Hblank. unfold add_documents_from_files. run.
      rewrite Hp. destruct documents as [|doc documents]; [congruence|].
      rewrite Hblank. reflexivity.
  - intros directory_path recursive file_patterns. split.
    + unfold add_documents_from_directory.
      apply (try_exceptM_ok _
               (fun e => "Error adding documents from directory: " +:+ exn_str e)).
    + intros Hnot. unfold add_documents_from_directory, process_directory. run.
      destruct Hnot as [-> | Hdir]; [reflexivity|].
      rewrite Hdir, orb_true_r. reflexivity.
Qed.

Lemma ingestion_without_content_witness :
  add_documents_from_files quiet_env ["missing.txt"; "c.bin"] (faiss_store [sample_entry])
  = (Ok "No valid documents found in the provided files.", faiss_store [sample_entry])
  ∧ add_documents_from_files docs_env ["docs/blank.txt"] (faiss_store [sample_entry])
    = (Ok "Successfully added 0 documents from 1 files to knowledge base.",
       faiss_store [sample_entry])
  ∧ add_documents_from_directory quiet_env "nowhere/" true None (faiss_store [sample_entry])
    = (Ok "No valid documents found in directory 'nowhere/'.", faiss_store [sample_entry]).
Proof.
  destruct (ingestion_without_content quiet_env (faiss_store [sample_entry])) as [Hf Hd].
  destruct (ingestion_without_content docs_env (faiss_store [sample_entry])) as [Hf' _].
  split; [|split].
  - apply (Hf ["missing.txt"; "c.bin"]).
    constructor; [left; reflexivity|]. constructor; [right; reflexivity|constructor].
  - destruct (Hf' ["docs/blank.txt"]) as (_ & _ & H).
    apply (H [mkDocument "  "
                (update (<["source" := VStr "docs/blank.txt"]> ∅)
                   (<["modified_at" := VFloat (inject_Z 1700000000)]>
                   (<["created_at" := VFloat (inject_Z 1700000000)]>
                   (<["file_size" := VInt 5]>
                   (<["doc_id" := VStr (_generate_doc_id "docs/blank.txt")]>
                   (<["file_extension" := VStr ".txt"]>
                   (<["filename" := VStr "blank.txt"]>
                   (<["source" := VStr "docs/blank.txt"]> ∅))))))))]);
      [vm_compute; reflexivity|discriminate|reflexivity].
  - apply (Hd "nowhere/" true None). left. reflexivity.
Defined.

(** X21: the collection report of the tool has one line per entry of the
    info dict, with the key in title case and underscores as spaces; on a
    Chroma or FAISS store the last line is the document count, a number or
    the word Unknown. *)
Theorem collection_info_lines (env : Env) (st : VectorStore) (count : value) :
  document_count env st = Some count →
  tool_get_collection_info env st
  = Ok (Py.join LF
          ["Vector Store Information:";
           "- Store Type: " +:+ store_type st;
           "- Collection Name: " +:+ collection_name st;
           "- Persist Directory: " +:+ persist_directory st;
           "- Embedding Model: " +:+ embedding_model st;
           "- Document Count: " +:+ value_str env count])
  ∧ ((∃ n, count = VInt n ∧ 0 <= n) ∨ count = VStr "Unknown").
Proof.
  intros Hcount. split.
  - unfold tool_get_collection_info, get_collection_info. rewrite Hcount. reflexivity.
  - revert Hcount. unfold document_count, lib_count, lib_ntotal, attempt, chroma_entries.
    destruct (String.eqb (store_type st) "chroma").
    + destruct (vector_store st) as [[|index]|]; simpl;
        [|intros [= <-]; auto..].
      destruct (fault env call_count); simpl; [intros [= <-]; auto|].
      destruct (chroma_disk st); simpl; intros [= <-]; auto.
      left. eexists. split; [reflexivity|lia].
    + destruct (String.eqb (store_type st) "faiss"); [|discriminate].
      destruct (vector_store st) as [[|index]|]; simpl; intros [= <-]; auto.
      left. eexists. split; [reflexivity|lia].
Qed.

Lemma collection_info_lines_witness :
  tool_get_collection_info quiet_env (faiss_store [sample_entry])
  = Ok (Py.join LF
          ["Vector Store Information:";
           "- Store Type: faiss";
           "- Collection Name: langchain_agent_docs";
           "- Persist Directory: data/vector_store";
           "- Embedding Model: sentence-transformers/all-MiniLM-L6-v2";
           "- Document Count: 1"]).
Proof.
  apply (collection_info_lines quiet_env (faiss_store [sample_entry]) (VInt 1)).
  reflexivity.
Defined.

(** ** The management tool: the action *)

Lemma lower_char_isspace (c : ascii) : Py.isspace (Py.lower_char c) = Py.isspace c.
Proof. destruct c as [[] [] [] [] [] [] [] []]; reflexivity. Qed.

Lemma lower_char_idem (c : ascii) : Py.lower_char (Py.lower_char c) = Py.lower_char c.
Proof. destruct c as [[] [] [] [] [] [] [] []]; reflexivity. Qed.

Lemma lower_idem (s : string) : Py.lower (Py.lower s) = Py.lower s.
Proof.
  induction s as [|c s IH]; simpl; [reflexivity|]. rewrite lower_char_idem, IH. reflexivity.
Qed.

Lemma lower_lstrip (s : string) : Py.lower (Py.lstrip s) = Py.lstrip (Py.lower s).
Proof.
  induction s as [|c s IH]; simpl; [reflexivity|].
  rewrite lower_char_isspace. destruct (Py.isspace c); [exact IH|reflexivity].
Qed.

Lemma lower_rstrip (s : string) : Py.lower (Py.rstrip s) = Py.rstrip (Py.lower s).
Proof.
  induction s as [|c s IH]; simpl; [reflexivity|].
  rewrite <- IH, lower_char_isspace.
  destruct (Py.rstrip s); simpl; [destruct (Py.isspace c)|]; reflexivity.
Qed.

Lemma lower_strip (s : string) : Py.lower (Py.strip s) = Py.strip (Py.lower s).
Proof. unfold Py.strip. rewrite lower_rstrip, lower_lstrip. reflexivity. Qed.

(** X22: the structured dispatch reads its action without regard to the
    case of the letters or to surrounding whitespace: it behaves on an
    action as on the action in lower case and stripped. *)
Theorem manage_rag_action_normalised (env : Env) (action : string)
    (path content title : option string) (recursive : bool)
    (patterns : option (list string)) (st : VectorStore) :
  _manage_rag_structured env action path content title recursive patterns st
  = _manage_rag_structured env (Py.strip (Py.lower action)) path content title
      recursive patterns st.
Proof.
  assert (H : Py.strip (Py.lower (Py.strip (Py.lower action)))
              = Py.strip (Py.lower action))
    by (rewrite lower_strip, lower_idem, strip_idem; reflexivity).
  unfold _manage_rag_structured. rewrite H. reflexivity.
Qed.


Example words_example :
  PyStr.words "  two  words " = ["two"; "words"]
  ∧ PyStr.split1 ":" "a:b:c" = Some ("a", "b:c")
  ∧ _parse_filter "source = a.txt , k=v=w,junk" = <["k" := "v=w"]> (<["source" := "a.txt"]> ∅)
  ∧ _parse_input "what is rag | k: 3 |filter:a=b" 
    = <["filter" := "a=b"]> (<["k" := "3"]> (<["query" := "what is rag"]> ∅)).
Proof. repeat split; vm_compute; reflexivity. Qed.

(** ** [extract_metadata_from_content] *)

Lemma lstrip_blank_rstrip (s : string) : Py.lstrip s = "" → Py.rstrip s = "".
Proof.
  induction s as [|c r IH]; [reflexivity|].
  cbn [Py.lstrip Py.rstrip]. destruct (Py.isspace c) eqn:Hc; [|discriminate].
  intros H. rewrite (IH H). reflexivity.
Qed.

Lemma strip_blank (s : string) : Py.strip s = "" ↔ Py.lstrip s = "".
Proof.
  unfold Py.strip. split; [|intros ->; reflexivity].
  destruct (lstrip_head s) as [->|(c & r & -> & Hc)]; [reflexivity|].
  destruct (rstrip_cons_keep c r Hc) as [r' ->]. discriminate.
Qed.

Lemma strip_rstrip (s : string) : Py.rstrip (Py.strip s) = Py.strip s.
Proof. unfold Py.strip. apply rstrip_idem. Qed.

Lemma title_after_hash (x : string) :
  Py.rstrip x = x → Py.startswith "# " x = true → Py.strip (Py.drop 2 x) ≠ "".
Proof.
  destruct x as [|a [|b rest]]; try discriminate.
  - cbn [Py.startswith]. destruct (Ascii.eqb "#" a); discriminate.
  - cbn [Py.startswith Py.drop].
    destruct (Ascii.eqb_spec "#" a) as [<-|]; [|discriminate].
    destruct (Ascii.eqb_spec " " b) as [<-|]; [|discriminate].
    intros Hx _ Hblank. apply strip_blank, lstrip_blank_rstrip in Hblank.
    cbn [Py.rstrip] in Hx. rewrite Hblank in Hx. vm_compute in Hx. discriminate.
Qed.

Lemma find_title_spec (lines : list string) (title : string) :
  find_title lines = Some title →
  title ≠ "" ∧ Py.strip title = title
  ∧ ∃ line, In line lines
      ∧ (title = Py.strip line ∧ Py.startswith "#" title = false ∧ Py.len title < 100
         ∨ Py.startswith "# " (Py.strip line) = true
           ∧ title = Py.strip (Py.drop 2 (Py.strip line))).
Proof.
  induction lines as [|line rest IH]; [discriminate|].
  cbn [find_title]. cbv zeta.
  assert (Hrest : find_title rest = Some title →
            title ≠ "" ∧ Py.strip title = title
            ∧ ∃ l, In l (line :: rest)
                ∧ (title = Py.strip l ∧ Py.startswith "#" title = false ∧ Py.len title < 100
                   ∨ Py.startswith "# " (Py.strip l) = true
                     ∧ title = Py.strip (Py.drop 2 (Py.strip l)))).
  { intros H. destruct (IH H) as (? & ? & l & ? & ?).
    split; [auto|]. split; [auto|]. exists l. split; [right|]; auto. }
  destruct (String.eqb_spec (Py.strip line) "") as [Hempty|Hfull];
    destruct (Py.startswith "#" (Py.strip line)) eqn:Hhash;
    destruct (Py.startswith "# " (Py.strip line)) eqn:Hsp;
    cbn [negb andb]; try exact Hrest.
  - rewrite Hempty in Hsp. discriminate.
  - rewrite Hempty in Hsp. discriminate.
  - intros [= <-]. split; [apply title_after_hash; [apply strip_rstrip|exact Hsp]|].
    split; [apply strip_idem|]. exists line. split; [left; reflexivity|]. right. auto.
  - destruct (Z.ltb_spec (Py.len (Py.strip line)) 100); [|discriminate].
    intros [= <-]. split; [exact Hfull|]. split; [apply strip_idem|].
    exists line. split; [left; reflexivity|]. left. auto.
  - destruct (Z.ltb_spec (Py.len (Py.strip line)) 100); [|discriminate].
    intros [= <-]. split; [exact Hfull|]. split; [apply strip_idem|].
    exists line. split; [left; reflexivity|]. left. auto.
Qed.

(** X23: [extract_metadata_from_content] sets a title only when a file
    path is given, and a title it sets is never empty and has no
    surrounding whitespace: it is one of the first ten lines, stripped,
    which then does not start with [#] and is shorter than 100 characters,
    or what follows the [# ] of such a line, stripped. *)
Theorem extracted_title_is_clean (content : string) (file_path : option string)
    (title : value) :
  extract_metadata_from_content content file_path !! "extracted_title" = Some title →
  nonempty file_path ≠ None
  ∧ ∃ t, title = VStr t ∧ t ≠ "" ∧ Py.strip t = t
      ∧ ∃ line, In line (firstn 10 (Py.split LF_char content))
          ∧ (t = Py.strip line ∧ Py.startswith "#" t = false ∧ Py.len t < 100
             ∨ Py.startswith "# " (Py.strip line) = true
               ∧ t = Py.strip (Py.drop 2 (Py.strip line))).
Proof.
  unfold extract_metadata_from_content.
  destruct (nonempty file_path) as [p|]; [|rewrite !lookup_insert_ne by discriminate;
                                           rewrite lookup_empty; discriminate].
  destruct (find_title _) as [t|] eqn:Ht.
  - rewrite lookup_insert_eq. intros [= <-]. split; [discriminate|].
    exists t. split; [reflexivity|]. apply find_title_spec. exact Ht.
  - rewrite !lookup_insert_ne by discriminate. rewrite lookup_empty. discriminate.
Qed.

Lemma extracted_title_is_clean_witness :
  extract_metadata_from_content ("## Notes" +:+ LF +:+ " # Setup guide " +:+ LF +:+ "text")
    (Some "guide.md") !! "extracted_title" = Some (VStr "Setup guide")
  ∧ nonempty (Some "guide.md") ≠ None.
Proof.
  split; [vm_compute; reflexivity|].
  apply (extracted_title_is_clean
           ("## Notes" +:+ LF +:+ " # Setup guide " +:+ LF +:+ "text")
           (Some "guide.md") (VStr "Setup guide")).
  vm_compute. reflexivity.
Defined.

Lemma split_nonempty (c : ascii) (s : string) : Py.split c s ≠ [].
Proof.
  destruct s as [|a r]; simpl; [discriminate|].
  destruct (Ascii.eqb a c); [discriminate|]. destruct (Py.split c r); discriminate.
Qed.

Lemma split_length (c : ascii) (s : string) :
  Z.of_nat (length (Py.split c s)) = PyStr.count c s + 1.
Proof.
  induction s as [|a r IH]; [reflexivity|].
  cbn [Py.split PyStr.count]. destruct (Ascii.eqb a c).
  - cbn [length]. lia.
  - pose proof (split_nonempty c r). destruct (Py.split c r); [congruence|].
    cbn [length] in *. lia.
Qed.

Lemma count_bounds (c : ascii) (s : string) : 0 <= PyStr.count c s <= Py.len s.
Proof.
  unfold Py.len. induction s as [|a r IH]; simpl String.length; cbn [PyStr.count]; [lia|].
  destruct (Ascii.eqb a c); lia.
Qed.

Lemma words_bound (s : string) :
  2 * Z.of_nat (length (PyStr.words s)) <= Py.len s + 1
  ∧ (∀ c r, s = String c r → Py.isspace c = true →
       2 * Z.of_nat (length (PyStr.words s)) <= Py.len s).
Proof.
  unfold Py.len. induction s as [|c r [IH1 IH2]]; [split; [simpl; lia|discriminate]|].
  cbn [PyStr.words]. simpl String.length.
  destruct (Py.isspace c) eqn:Hc.
  - split; [lia|]. intros _ _ _ _. lia.
  - split; [|intros c' r' [= <- <-] Hc'; congruence].
    destruct r as [|d r']; [simpl; lia|].
    destruct (Py.isspace d) eqn:Hd.
    + specialize (IH2 d r' eq_refl Hd). cbn [length]. lia.
    + destruct (PyStr.words (String d r')); cbn [length] in *;
        simpl String.length in *; lia.
Qed.

Lemma words_blank (s : string) : PyStr.words s = [] ↔ Py.lstrip s = "".
Proof.
  induction s as [|c r IH]; [split; reflexivity|].
  cbn [PyStr.words Py.lstrip]. destruct (Py.isspace c); [exact IH|].
  split; [|discriminate].
  destruct r as [|d r']; [discriminate|].
  destruct (Py.isspace d); [discriminate|].
  destruct (PyStr.words (String d r')); discriminate.
Qed.

(** X24: the three counts of [extract_metadata_from_content] are always
    set: the number of characters; the number of lines, which is the number
    of pieces the line feeds cut the content into, at least 1; and the number
    of words, at most half the number of characters (rounded up) and 0
    exactly for a content of nothing but whitespace. *)
Theorem extracted_counts (content : string) (file_path : option string) :
  ∃ lines words,
    extract_metadata_from_content content file_path !! "content_length"
      = Some (VInt (Py.len content))
    ∧ extract_metadata_from_content content file_path !! "line_count" = Some (VInt lines)
    ∧ extract_metadata_from_content content file_path !! "word_count" = Some (VInt words)
    ∧ lines = Z.of_nat (length (Py.split LF_char content))
    ∧ 1 <= lines <= Py.len content + 1
    ∧ 0 <= 2 * words <= Py.len content + 1
    ∧ (words = 0 ↔ Py.strip content = "").
Proof.
  exists (PyStr.count LF_char content + 1), (Z.of_nat (length (PyStr.words content))).
  assert (Hlook : ∀ key, key ≠ "extracted_title" →
            extract_metadata_from_content content file_path !! key
            = (<["line_count" := VInt (PyStr.count LF_char content + 1)]>
               (<["word_count" := VInt (Z.of_nat (length (PyStr.words content)))]>
               (<["content_length" := VInt (Py.len content)]> (∅ : gmap string value))))
              !! key).
  { intros key Hkey. unfold extract_metadata_from_content.
    destruct (nonempty file_path); [|reflexivity].
    destruct (find_title _); [|reflexivity].
    apply lookup_insert_ne. congruence. }
  rewrite !Hlook by discriminate.
  split; [rewrite !lookup_insert_ne by discriminate; apply lookup_insert_eq|].
  split; [apply lookup_insert_eq|].
  split; [rewrite lookup_insert_ne by discriminate; apply lookup_insert_eq|].
  split; [symmetry; apply split_length|].
  pose proof (count_bounds LF_char content). pose proof (words_bound content) as [Hw _].
  split; [lia|]. split; [lia|].
  rewrite strip_blank, <- words_blank.
  destruct (PyStr.words content); simpl; split; intros; try reflexivity; try discriminate; lia.
Qed.


(** ** The string interface: [_parse_filter] *)

Lemma has_cons (c a : ascii) (r : string) :
  PyStr.has c (String a r) = Ascii.eqb c a || PyStr.has c r.
Proof.
  unfold PyStr.has. cbn [Py.contains Py.startswith].
  destruct (Ascii.eqb c a); reflexivity.
Qed.

Lemma has_app (c : ascii) (a b : string) :
  PyStr.has c (a +:+ b) = PyStr.has c a || PyStr.has c b.
Proof.
  induction a as [|x a IH]; [reflexivity|].
  rewrite append_cons, !has_cons, IH. apply orb_assoc.
Qed.

Lemma split1_none (c : ascii) (s : string) :
  PyStr.has c s = false → PyStr.split1 c s = None.
Proof.
  induction s as [|a r IH]; [reflexivity|].
  rewrite has_cons. cbn [PyStr.split1]. rewrite (Ascii.eqb_sym c a).
  destruct (Ascii.eqb a c); [discriminate|]. simpl. intros H. rewrite (IH H). reflexivity.
Qed.

Lemma split1_app (c : ascii) (k v : string) :
  PyStr.has c k = false → PyStr.split1 c (k +:+ String c v) = Some (k, v).
Proof.
  induction k as [|a k IH].
  - intros _. change ("" +:+ String c v) with (String c v). cbn [PyStr.split1].
    rewrite Ascii.eqb_refl. reflexivity.
  - rewrite has_cons, append_cons. cbn [PyStr.split1]. rewrite (Ascii.eqb_sym c a).
    destruct (Ascii.eqb a c); [discriminate|]. simpl. intros H. rewrite (IH H). reflexivity.
Qed.

Lemma split_no_sep (c : ascii) (x : string) :
  PyStr.has c x = false → Py.split c x = [x].
Proof.
  induction x as [|a x IH]; [reflexivity|].
  rewrite has_cons. cbn [Py.split]. rewrite (Ascii.eqb_sym c a).
  destruct (Ascii.eqb a c); [discriminate|]. simpl. intros H. rewrite (IH H). reflexivity.
Qed.

Lemma split_app (c : ascii) (x rest : string) :
  PyStr.has c x = false → Py.split c (x +:+ String c rest) = x :: Py.split c rest.
Proof.
  induction x as [|a x IH].
  - intros _. change ("" +:+ String c rest) with (String c rest). cbn [Py.split].
    rewrite Ascii.eqb_refl. reflexivity.
  - rewrite has_cons, append_cons. cbn [Py.split]. rewrite (Ascii.eqb_sym c a).
    destruct (Ascii.eqb a c); [discriminate|]. simpl. intros H. rewrite (IH H). reflexivity.
Qed.

Lemma split_join (c : ascii) (l : list string) :
  Forall (fun x => PyStr.has c x = false) l → l ≠ [] →
  Py.split c (Py.join (String c EmptyString) l) = l.
Proof.
  induction 1 as [|x l Hx Hl IH]; [congruence|]. intros _.
  destruct l as [|y l]; [exact (split_no_sep c x Hx)|].
  change (Py.join (String c "") (x :: y :: l))
    with (x +:+ String c "" +:+ Py.join (String c "") (y :: l)).
  change (String c "" +:+ Py.join (String c "") (y :: l))
    with (String c (Py.join (String c "") (y :: l))).
  rewrite split_app by exact Hx. f_equal. apply IH. discriminate.
Qed.

Lemma split_pieces_without (c d : ascii) (s : string) :
  PyStr.has c s = false → Forall (fun p => PyStr.has c p = false) (Py.split d s).
Proof.
  induction s as [|a r IH]; [intros _; repeat constructor|].
  rewrite has_cons. intros H. apply orb_false_iff in H as [Ha Hr].
  specialize (IH Hr). cbn [Py.split]. destruct (Ascii.eqb a d).
  - constructor; [reflexivity|exact IH].
  - destruct (Py.split d r) as [|w ws]; [repeat constructor; rewrite has_cons, Ha; reflexivity|].
    apply Forall_cons in IH as [Hw Hws]. constructor; [|exact Hws].
    rewrite has_cons, Ha, Hw. reflexivity.
Qed.

Lemma foldl_parse_pair_stripped (pairs : list string) (acc : gmap string string) :
  map_Forall (fun k v => Py.strip k = k ∧ Py.strip v = v) acc →
  map_Forall (fun k v => Py.strip k = k ∧ Py.strip v = v) (foldl parse_pair acc pairs).
Proof.
  revert acc. induction pairs as [|p pairs IH]; intros acc Hacc; [exact Hacc|].
  simpl. apply IH. unfold parse_pair.
  destruct (PyStr.split1 "=" p) as [[key value]|]; [|exact Hacc].
  apply map_Forall_insert_2; [|exact Hacc]. split; apply strip_idem.
Qed.

Lemma foldl_insert_pairs (pairs : list (string * string)) (acc : gmap string string) :
  foldl (fun m kv => <[kv.1 := kv.2]> m) acc pairs = list_to_map (reverse pairs) ∪ acc.
Proof.
  revert acc. induction pairs as [|[k v] pairs IH]; intros acc; simpl.
  - rewrite (left_id_L ∅ (∪)). reflexivity.
  - rewrite IH, reverse_cons, list_to_map_app. simpl.
    rewrite <- (assoc_L (∪)). f_equal.
    rewrite insert_union_singleton_l. reflexivity.
Qed.

(** X25: [_parse_filter] returns only keys and values without
    surrounding whitespace; a string without an equals sign gives the empty
    filter; and a string in the documented format [key=value,key2=value2]
    parses back to its pairs, a later pair winning over an earlier one with
    the same key. *)
Theorem parse_filter_round_trip (filter_str : string) :
  (∀ key value, _parse_filter filter_str !! key = Some value →
     Py.strip key = key ∧ Py.strip value = value)
  ∧ (PyStr.has "=" filter_str = false → _parse_filter filter_str = ∅)
  ∧ (∀ pairs, Forall clean_pair pairs → filter_str = filter_string pairs →
       _parse_filter filter_str = list_to_map (reverse pairs)).
Proof.
  split; [|split].
  - intros key value. unfold _parse_filter.
    destruct (String.eqb filter_str ""); [rewrite lookup_empty; discriminate|].
    apply (foldl_parse_pair_stripped (Py.split "," filter_str) ∅). apply map_Forall_empty.
  - intros Hno. unfold _parse_filter. destruct (String.eqb filter_str ""); [reflexivity|].
    pose proof (split_pieces_without "=" "," filter_str Hno) as Hall.
    induction Hall as [|p ps Hp _ IH]; [reflexivity|].
    simpl. unfold parse_pair at 2. rewrite (split1_none _ _ Hp). exact IH.
  - intros pairs Hclean ->. unfold _parse_filter.
    destruct pairs as [|kv pairs]; [reflexivity|].
    assert (Hne : String.eqb (filter_string (kv :: pairs)) "" = false).
    { apply String.eqb_neq. unfold filter_string. destruct kv as [k v].
      assert (Hk : ∀ t, k +:+ "=" +:+ t ≠ "") by (intros t; destruct k; discriminate).
      destruct pairs as [|kv' pairs]; simpl.
      - apply Hk.
      - rewrite append_assoc. change ("=" +:+ v) with (String "=" v).
        rewrite append_cons. apply Hk. }
    rewrite Hne. unfold filter_string.
    rewrite (split_join ","); [| |discriminate].
    2:{ apply Forall_map. eapply Forall_impl; [exact Hclean|].
        intros [k v] (_ & _ & Hk & Hv & _). simpl in *.
        rewrite !has_app, Hk, Hv. reflexivity. }
    rewrite <- (right_id_L ∅ (∪) (list_to_map _)), <- foldl_insert_pairs.
    generalize (∅ : gmap string string). revert Hclean. generalize (kv :: pairs).
    intros l Hl. induction Hl as [|[k v] l (Hk & Hv & _ & _ & He) _ IH]; intros acc;
      [reflexivity|].
    simpl in *. rewrite <- IH. f_equal. unfold parse_pair.
    change ("=" +:+ v) with (String "=" v). rewrite (split1_app "=" k v He), Hk, Hv.
    reflexivity.
Qed.

Lemma parse_filter_round_trip_witness :
  _parse_filter "category=programming,source=test1"
  = list_to_map (reverse [("category", "programming"); ("source", "test1")]).
Proof.
  apply (parse_filter_round_trip "category=programming,source=test1").
  - repeat constructor.
  - reflexivity.
Defined.

(** ** The string interface: [_retrieve_documents] *)

(** X26: the string interface of the retrieval tool never raises and is
    the structured interface on the parsed parameters. The number of
    documents is 5 when no part of the input is labelled [k], and
    otherwise what [int] makes of the text after that label; when [int]
    rejects it, the result is the error string with the message of [int].
    The query, the score flag (true for the word true in any case) and the
    filter are those [_parse_input] and [_parse_filter] find; an input
    without a bar is a query for 5 documents, without scores and without
    filter. *)
Theorem retrieve_documents_parses (int : string → result Z) (env : Env)
    (st : VectorStore) (input_str : string) :
  let params := _parse_input input_str in
  let requested := match params !! "k" with
                   | Some s => int s
                   | None => Ok 5
                   end in
  (∃ out, _retrieve_documents int env st input_str = Ok out)
  ∧ (PyStr.has "|" input_str = false →
     _retrieve_documents int env st input_str
     = _retrieve_documents_structured env st (Py.strip input_str) 5 false None)
  ∧ (∀ e, requested = Raise e →
       _retrieve_documents int env st input_str
       = Ok ("Error retrieving documents: " +:+ exn_str e))
  ∧ (∀ k, requested = Ok k →
       _retrieve_documents int env st input_str
       = _retrieve_documents_structured env st
           (default (Py.strip input_str) (params !! "query")) k
           (String.eqb (Py.lower (default "false" (params !! "with_scores"))) "true")
           (match nonempty (params !! "filter") with
            | Some filter_str => Some (VStr <$> _parse_filter filter_str)
            | None => None
            end)).
Proof.
  intros params requested. split; [|split; [|split]].
  - unfold _retrieve_documents.
    apply (try_except_ok _ (fun e => "Error retrieving documents: " +:+ exn_str e)).
  - intros Hbar. unfold _retrieve_documents, _parse_input. rewrite Hbar.
    rewrite lookup_insert_eq. rewrite !lookup_insert_ne by discriminate.
    rewrite !lookup_empty. reflexivity.
  - intros e He. unfold _retrieve_documents. fold params. fold requested.
    rewrite He. reflexivity.
  - intros k Hk. unfold _retrieve_documents. fold params. fold requested.
    rewrite Hk. reflexivity.
Qed.

(** An input with bars and no [k]: five documents are asked for, and
    [int] is not called. *)
Example retrieve_documents_without_k (int : string → result Z) :
  _retrieve_documents int quiet_env (faiss_store [sample_entry])
    "what is RAG? | with_scores: True | filter: doc_id=d1"
  = _retrieve_documents_structured quiet_env (faiss_store [sample_entry])
      "what is RAG?" 5 true (Some (<["doc_id" := VStr "d1"]> ∅)).
Proof. vm_compute. reflexivity. Qed.

(** An input with a [k]: whatever [int] makes of the text is asked for. *)
Example retrieve_documents_with_k (int : string → result Z) (k : Z) :
  int "3" = Ok k →
  _retrieve_documents int quiet_env (faiss_store [sample_entry]) "what is RAG?|k: 3"
  = _retrieve_documents_structured quiet_env (faiss_store [sample_entry])
      "what is RAG?" k false None.
Proof.
  intros Hk. unfold _retrieve_documents.
  replace (_parse_input "what is RAG?|k: 3")
    with (<["k" := "3"]> (<["query" := "what is RAG?"]> (∅ : gmap string string)))
    by (vm_compute; reflexivity).
  rewrite lookup_insert_eq, Hk.
  rewrite !lookup_insert_ne by discriminate. rewrite lookup_insert_eq, !lookup_empty.
  reflexivity.
Qed.

(** ** The string interface: [_manage_rag] *)

Lemma foldl_directory (parts : list string) (params : directory_params) :
  directory (foldl parse_directory_part params parts) = directory params
  ∧ ((∀ ps, patterns_param params = Some ps → ps ≠ [] ∧ Forall (fun p => Py.strip p = p) ps) →
     ∀ ps, patterns_param (foldl parse_directory_part params parts) = Some ps →
       ps ≠ [] ∧ Forall (fun p => Py.strip p = p) ps).
Proof.
  revert params. induction parts as [|part parts IH]; intros params; [auto|].
  simpl. destruct (IH (parse_directory_part params part)) as [Hd Hp].
  assert (Hstep : directory (parse_directory_part params part) = directory params
            ∧ ((∀ ps, patterns_param params = Some ps →
                  ps ≠ [] ∧ Forall (fun p => Py.strip p = p) ps) →
               ∀ ps, patterns_param (parse_directory_part params part) = Some ps →
                 ps ≠ [] ∧ Forall (fun p => Py.strip p = p) ps)).
  { unfold parse_directory_part.
    destruct (PyStr.split1 ":" part) as [[key value]|]; [|auto].
    destruct (String.eqb (Py.strip key) "recursive"); [auto|].
    destruct (String.eqb (Py.strip key) "patterns"); [|auto].
    split; [reflexivity|]. intros _ ps [= <-]. split.
    - pose proof (split_nonempty "," (Py.strip value)).
      destruct (Py.split "," (Py.strip value)); [congruence|discriminate].
    - apply Forall_map, Forall_true. intros p. apply strip_idem. }
  destruct Hstep as [Hd' Hp']. split; [congruence|]. intros H. apply Hp, Hp', H.
Qed.

Lemma foldl_text (parts : list string) (params : gmap string string) :
  is_Some (params !! "text") →
  map_Forall (fun k v => Py.strip k = k ∧ Py.strip v = v) params →
  is_Some (foldl parse_text_part params parts !! "text")
  ∧ map_Forall (fun k v => Py.strip k = k ∧ Py.strip v = v)
      (foldl parse_text_part params parts).
Proof.
  revert params. induction parts as [|part parts IH]; intros params Ht Hs; [auto|].
  simpl. apply IH; unfold parse_text_part;
    destruct (PyStr.split1 ":" part) as [[key value]|]; auto.
  - rewrite lookup_insert_is_Some. destruct (decide (Py.strip key = "text")); auto.
  - apply map_Forall_insert_2; [|exact Hs]. split; apply strip_idem.
Qed.

(** X27: what the two parameter parsers of the string interface return:
    the directory is always set and stripped, the patterns when set are a
    non-empty list of stripped strings, and without a bar nothing else is
    set; the text parameters always hold a [text] entry (so the lookup of
    [params['text']] cannot fail), all their keys and values are stripped,
    and without a bar [text] is the only entry. *)
Theorem legacy_params_shape (params_str : string) :
  (Py.strip (directory (_parse_directory_params params_str))
     = directory (_parse_directory_params params_str)
   ∧ (∀ ps, patterns_param (_parse_directory_params params_str) = Some ps →
        ps ≠ [] ∧ Forall (fun p => Py.strip p = p) ps)
   ∧ (PyStr.has "|" params_str = false →
      _parse_directory_params params_str
      = mkDirectoryParams (Py.strip params_str) None None))
  ∧ (is_Some (_parse_text_params params_str !! "text")
     ∧ (∀ key value, _parse_text_params params_str !! key = Some value →
          Py.strip key = key ∧ Py.strip value = value)
     ∧ (PyStr.has "|" params_str = false →
        _parse_text_params params_str = <["text" := Py.strip params_str]> ∅)).
Proof.
  split.
  - unfold _parse_directory_params.
    destruct (PyStr.has "|" params_str); [|simpl; split; [apply strip_idem|]; split;
                                           [discriminate|reflexivity]].
    destruct (Py.split "|" params_str) as [|first rest];
      [simpl; split; [apply strip_idem|]; split; discriminate|].
    destruct (foldl_directory rest (mkDirectoryParams (Py.strip first) None None))
      as [-> Hp].
    simpl. split; [apply strip_idem|]. split; [|discriminate].
    apply Hp. discriminate.
  - assert (Hbase : ∀ x : string,
              is_Some ((<["text" := Py.strip x]> ∅ : gmap string string) !! "text")
              ∧ map_Forall (fun k v => Py.strip k = k ∧ Py.strip v = v)
                  (<["text" := Py.strip x]> ∅ : gmap string string)).
    { intros x. split; [rewrite lookup_insert_eq; eauto|].
      apply map_Forall_insert_2; [|apply map_Forall_empty].
      split; [reflexivity|apply strip_idem]. }
    unfold _parse_text_params.
    destruct (PyStr.has "|" params_str).
    + destruct (Py.split "|" params_str) as [|first rest].
      * destruct (Hbase params_str) as [Ht Hs]. split; [exact Ht|]. split; [|discriminate].
        intros key value. apply Hs.
      * rewrite insert_insert_eq.
        destruct (Hbase first) as [Ht Hs].
        destruct (foldl_text rest _ Ht Hs) as [Ht' Hs'].
        split; [exact Ht'|]. split; [|discriminate]. intros key value. apply Hs'.
    + destruct (Hbase params_str) as [Ht Hs]. split; [exact Ht|]. split; [|reflexivity].
      intros key value. apply Hs.
Qed.

(** X28: the string interface of the management tool never raises.
    Without a colon it knows [info] and [clear] only, on which it does what
    the structured interface does, and answers anything else with the
    invalid-action string; with a colon, [info] and [clear] are unknown
    actions, like every other word that is not an add action; and
    [add_file], [add_files], [add_directory] and [add_text] do what the
    structured interface does with the text after the first colon as
    path or content (stripped, except for [add_files]), when that is not
    empty and, for a directory or a text, holds no bar. *)
Theorem manage_rag_legacy (env : Env) (input_str : string) (st : VectorStore) :
  (∃ msg st', _manage_rag env input_str st = (Ok msg, st'))
  ∧ (PyStr.split1 ":" input_str = None →
     (Py.strip (Py.lower input_str) ∈ ["info"; "clear"] →
      _manage_rag env input_str st
      = _manage_rag_structured env input_str None None None true None st)
     ∧ (Py.strip (Py.lower input_str) ∉ ["info"; "clear"] →
        _manage_rag env input_str st
        = (Ok "Invalid action. Use 'info' or 'clear', or specify action:parameters format.",
           st)))
  ∧ (∀ action params_str, PyStr.split1 ":" input_str = Some (action, params_str) →
       let a := Py.strip (Py.lower action) in
       (a ∉ ["add_file"; "add_files"; "add_directory"; "add_text"] →
        _manage_rag env input_str st
        = (Ok ("Unknown action: " +:+ a
             +:+ ". Available actions: add_file, add_files, add_directory, add_text, info, clear"),
           st))
       ∧ (a = "add_file" → Py.strip params_str ≠ "" →
          _manage_rag env input_str st
          = _manage_rag_structured env action (Some (Py.strip params_str)) None None
              true None st)
       ∧ (a = "add_files" → params_str ≠ "" →
          _manage_rag env input_str st
          = _manage_rag_structured env action (Some params_str) None None true None st)
       ∧ (a = "add_directory" → Py.strip params_str ≠ "" →
          PyStr.has "|" params_str = false →
          _manage_rag env input_str st
          = _manage_rag_structured env action (Some (Py.strip params_str)) None None
              true None st)
       ∧ (a = "add_text" → Py.strip params_str ≠ "" →
          PyStr.has "|" params_str = false →
          _manage_rag env input_str st
          = _manage_rag_structured env action None (Some (Py.strip params_str)) None
              true None st)).
Proof.
  split; [|split].
  - unfold _manage_rag.
    apply (try_exceptM_ok _ (fun e => "Error managing RAG system: " +:+ exn_str e)).
  - intros Hnone. unfold _manage_rag, _manage_rag_structured. rewrite Hnone.
    rewrite <- lower_strip. split.
    + intros Hin. apply elem_of_cons in Hin as [->|Hin]; [reflexivity|].
      apply elem_of_cons in Hin as [->|Hin]; [reflexivity|].
      apply elem_of_nil in Hin as [].
    + intros Hout. repeat (apply eqb_not_in in Hout as [-> Hout]). reflexivity.
  - intros action params_str Hsome a. subst a.
    unfold _manage_rag, _manage_rag_structured. rewrite Hsome.
    rewrite <- !lower_strip.
    split; [|split; [|split; [|split]]].
    + intros Hout. repeat (apply eqb_not_in in Hout as [-> Hout]). reflexivity.
    + intros -> Hne. simpl. apply String.eqb_neq in Hne. rewrite Hne. reflexivity.
    + intros -> Hne. simpl. apply String.eqb_neq in Hne. rewrite Hne. reflexivity.
    + intros -> Hne Hbar. simpl. apply String.eqb_neq in Hne. rewrite Hne.
      unfold _parse_directory_params. rewrite Hbar. reflexivity.
    + intros -> Hne Hbar. simpl. apply String.eqb_neq in Hne. rewrite Hne.
      unfold _parse_text_params. rewrite Hbar.
      rewrite lookup_insert_eq. rewrite lookup_insert_ne by discriminate.
      rewrite lookup_empty. reflexivity.
Qed.

Lemma manage_rag_legacy_witness :
  _manage_rag quiet_env "info: now" (faiss_store [sample_entry])
  = (Ok "Unknown action: info. Available actions: add_file, add_files, add_directory, add_text, info, clear",
     faiss_store [sample_entry])
  ∧ _manage_rag quiet_env " Add_File : a.txt " (faiss_store [sample_entry])
    = _manage_rag_structured quiet_env " Add_File " (Some "a.txt") None None true None
        (faiss_store [sample_entry]).
Proof.
  pose proof (manage_rag_legacy quiet_env "info: now" (faiss_store [sample_entry]))
    as (_ & _ & H1).
  pose proof (manage_rag_legacy quiet_env " Add_File : a.txt " (faiss_store [sample_entry]))
    as (_ & _ & H2).
  split.
  - destruct (H1 "info" " now" eq_refl) as [H _]. apply H.
    vm_compute. intros Hin.
    repeat (apply elem_of_cons in Hin as [Hin|Hin]; [discriminate|]).
    apply elem_of_nil in Hin as [].
  - destruct (H2 " Add_File " " a.txt " eq_refl) as (_ & H & _).
    apply H; [reflexivity|vm_compute; discriminate].
Defined.

(** ** More examples and reports *)

Lemma process_directory_selects_witness :
  ∃ doc, process_directory docs_env "docs/" true (Some ["*.txt"]) (Some ["blank*"]) = Ok [doc]
         ∧ page_content doc = "hello"
         ∧ ∃ f from_file, is_supported docs_env f = true
                          ∧ process_file docs_env f None = Ok from_file ∧ In doc from_file.
Proof.
  destruct (process_directory_selects docs_env "docs/" true (Some ["*.txt"]) (Some ["blank*"]))
    as (documents & Hp & _ & Hsel).
  destruct documents as [|doc [|doc' rest]]; try (vm_compute in Hp; discriminate).
  exists doc. split; [exact Hp|].
  split; [vm_compute in Hp; injection Hp as <-; reflexivity|].
  destruct (Hsel doc) as (_ & f & from_file & _ & _ & _ & Hs & Hf & Hin & _);
    [left; reflexivity|].
  exists f, from_file. auto.
Defined.

Lemma clear_chroma_index env st st' :
  store_type st = "chroma" →
  clear_collection env st = (Ok true, st') →
  stored_entries st' = [].
Proof.
  intros Hty. unfold clear_collection, with_store, lib_delete_collection, _init_chroma,
    mkdir_chroma, rmtree_chroma, lib_Chroma, chroma_entries, stored_entries. run.
  rewrite Hty. simpl.
  destruct (vector_store st) as [[|index]|]; simpl; try discriminate.
  - destruct (fault env call_delete_collection); simpl; [discriminate|].
    destruct (chroma_disk st); simpl; try discriminate.
    destruct (fault env (call_mkdir _)) eqn:Hmk; simpl; [discriminate|].
    destruct (fault env call_Chroma) as [e|]; simpl.
    + destruct (is_schema_mismatch (exn_str e)); simpl; [|discriminate].
      destruct (fault env (call_rmtree _)); simpl; [discriminate|].
      rewrite Hmk. simpl. discriminate.
    + intros [= <-]. reflexivity.
  - destruct (fault env call_delete_collection); simpl; discriminate.
Qed.

Lemma clear_faiss_index env st st' :
  store_type st = "faiss" →
  clear_collection env st = (Ok true, st') →
  ∃ id, stored_entries st' = [mkEntry id dummy_doc].
Proof.
  intros Hty. unfold clear_collection. run. rewrite Hty. simpl.
  assert (Hr : ∃ r1 st1, (if bool_decide (is_Some (faiss_disk st))
                          then rmtree_faiss env else (fun st0 => (Ok tt, st0))) st = (r1, st1)
                         ∧ (r1 = Ok tt → faiss_disk st1 = None)).
  { destruct (faiss_disk st) as [d|] eqn:Hd; simpl.
    - unfold rmtree_faiss. run. destruct (fault env (call_rmtree _)); simpl;
        eexists _, _; (split; [reflexivity|]); simpl; auto; discriminate.
    - eexists _, _. split; [reflexivity|]. auto. }
  destruct Hr as (r1 & st1 & -> & Hd1).
  destruct r1 as [[]|e]; [|discriminate]. specialize (Hd1 eq_refl).
  destruct (_init_faiss env st1) as [[[]|e] st2] eqn:Hinit; [|discriminate].
  intros [= <-].
  apply _init_faiss_fresh in Hinit as (_ & id & Hv).
  2:{ unfold loadable. rewrite Hd1. destruct (fault env call_load_local); reflexivity. }
  exists id. unfold stored_entries. rewrite Hv. reflexivity.
Qed.

(** X30: [clear_knowledge_base] never raises and never reaches its own
    error message, since [clear_collection] returns a boolean whatever
    happens: it answers with the success string exactly when
    [clear_collection] returned [True], and then, on a Chroma or FAISS
    store, no entry is left in the store but the dummy document of a FAISS
    index. *)
Theorem clear_knowledge_base_reports (env : Env) (st : VectorStore) :
  ∃ success st',
    clear_collection env st = (Ok success, st')
    ∧ clear_knowledge_base env st
      = (Ok (if success then "Successfully cleared all documents from knowledge base."
             else "Failed to clear knowledge base."), st')
    ∧ (success = true → store_type st = "chroma" ∨ store_type st = "faiss" →
       Forall (fun e => entry_doc e = dummy_doc) (stored_entries st')).
Proof.
  destruct (clear_collection env st) as [[success|e] st'] eqn:Hclear.
  2:{ exfalso. revert Hclear. unfold clear_collection, try_exceptM, ret.
      destruct (bindM _ _ st) as [[b|e'] st'']; discriminate. }
  exists success, st'. split; [reflexivity|]. split.
  - unfold clear_knowledge_base. run. rewrite Hclear. destruct success; reflexivity.
  - intros -> [Hty|Hty].
    + rewrite (clear_chroma_index _ _ _ Hty Hclear). constructor.
    + destruct (clear_faiss_index _ _ _ Hty Hclear) as [id ->].
      constructor; [reflexivity|constructor].
Qed.


(** ** The stores the code builds hold stripped chunks *)

Lemma stripped_state_store (st : VectorStore) : stripped_state st → stripped_store st.
Proof.
  intros (Hv & Hc & _). unfold stripped_store, stored_entries.
  destruct (vector_store st) as [[|index]|]; [|auto|constructor].
  destruct (chroma_disk st); auto; constructor.
Qed.

Lemma returns_weaken {A} (P Q : A → Prop) (c : M A) :
  returns P c → (∀ a, P a → Q a) → returns Q c.
Proof. intros Hc HPQ st r st' Hst Hrun. destruct (Hc st r st' Hst Hrun). split; auto. Qed.

Lemma returns_ret {A} (P : A → Prop) (a : A) : P a → returns P (ret a).
Proof. intros Ha st r st' Hst [= <- <-]. split; [exact Hst|]. intros ? [= <-]. exact Ha. Qed.

Lemma returns_raise {A} (P : A → Prop) (e : exn) : returns P (raise e).
Proof. intros st r st' Hst [= <- <-]. split; [exact Hst|]. discriminate. Qed.

Lemma returns_lift {A} (P : A → Prop) (r : result A) :
  (∀ a, r = Ok a → P a) → returns P (lift r).
Proof. intros Hr st r' st' Hst [= <- <-]. split; [exact Hst|exact Hr]. Qed.

Lemma returns_get {A} (f : VectorStore → A) (P : A → Prop) :
  (∀ st, stripped_state st → P (f st)) → returns P (get f).
Proof.
  intros Hf st r st' Hst [= <- <-]. split; [exact Hst|]. intros ? [= <-]. auto.
Qed.

Lemma returns_read {A} (f : VectorStore → result A) (P : A → Prop) :
  (∀ st a, stripped_state st → f st = Ok a → P a) → returns P (fun st => (f st, st)).
Proof. intros Hf st r st' Hst [= <- <-]. split; [exact Hst|]. intros a. apply Hf, Hst. Qed.

Lemma returns_modify (f : VectorStore → VectorStore) :
  (∀ st, stripped_state st → stripped_state (f st)) → returns (fun _ => True) (modify f).
Proof. intros Hf st r st' Hst [= <- <-]. split; auto. Qed.

Lemma returns_bind {A B} (P : A → Prop) (Q : B → Prop) (c : M A) (k : A → M B) :
  returns P c → (∀ a, P a → returns Q (k a)) → returns Q (bindM c k).
Proof.
  intros Hc Hk st r st' Hst. unfold bindM.
  destruct (c st) as [[a|e] st1] eqn:Hrun; destruct (Hc _ _ _ Hst Hrun) as [Hst1 Ha].
  - apply Hk; auto.
  - intros [= <- <-]. split; [exact Hst1|discriminate].
Qed.

Lemma returns_try {A} (P : A → Prop) (body : M A) (h : exn → M A) :
  returns P body → (∀ e, returns P (h e)) → returns P (try_exceptM body h).
Proof.
  intros Hb Hh st r st' Hst. unfold try_exceptM.
  destruct (body st) as [[a|e] st1] eqn:Hrun; destruct (Hb _ _ _ Hst Hrun) as [Hst1 Ha].
  - intros [= <- <-]. split; [exact Hst1|exact Ha].
  - apply Hh. exact Hst1.
Qed.

Lemma returns_with_store {A} (P : A → Prop) (method : Backend → M A) :
  (∀ b, stripped_backend b → returns P (method b)) → returns P (with_store method).
Proof.
  intros Hm. unfold with_store.
  apply (returns_bind (fun v => ∀ b, v = Some b → stripped_backend b)).
  - apply returns_get. intros st (Hv & _) b Hb index ->. auto.
  - intros [b|] Hb; [apply Hm; auto|apply returns_raise].
Qed.

Lemma stripped_fresh_entries env u (docs : list Document) :
  Forall (fun d => Py.strip (page_content d) = page_content d) docs →
  Forall stripped_entry (fresh_entries env u docs).
Proof.
  intros Hdocs. apply List.Forall_forall. intros e He.
  rewrite List.Forall_forall in Hdocs. apply Hdocs.
  rewrite <- (fresh_entries_docs env u docs). apply in_map. exact He.
Qed.

Lemma returns_mkdir_faiss env : returns (fun _ => True) (mkdir_faiss env).
Proof.
  unfold mkdir_faiss.
  apply (returns_bind (fun _ => True)); [apply returns_get; auto|]. intros p _.
  apply (returns_bind (fun _ => True)); [apply returns_lift; auto|]. intros _ _.
  apply returns_modify. intros st Hst.
  destruct (faiss_disk st) eqn:Hd; [exact Hst|].
  destruct Hst as (Hv & Hc & Hf). repeat split; auto. simpl. discriminate.
Qed.

Lemma returns_rmtree_faiss env : returns (fun _ => True) (rmtree_faiss env).
Proof.
  unfold rmtree_faiss.
  apply (returns_bind (fun _ => True)); [apply returns_get; auto|]. intros p _.
  apply (returns_bind (fun _ => True)); [apply returns_lift; auto|]. intros _ _.
  apply returns_modify. intros st (Hv & Hc & Hf). repeat split; auto. simpl. discriminate.
Qed.

Lemma returns_mkdir_chroma env : returns (fun _ => True) (mkdir_chroma env).
Proof.
  unfold mkdir_chroma.
  apply (returns_bind (fun _ => True)); [apply returns_get; auto|]. intros p _.
  apply returns_lift; auto.
Qed.

Lemma returns_rmtree_chroma env : returns (fun _ => True) (rmtree_chroma env).
Proof.
  unfold rmtree_chroma.
  apply (returns_bind (fun _ => True)); [apply returns_get; auto|]. intros p _.
  apply (returns_bind (fun _ => True)); [apply returns_lift; auto|]. intros _ _.
  apply returns_modify. intros st (Hv & Hc & Hf). repeat split; auto. simpl. discriminate.
Qed.

Lemma stripped_set_vector_store (b : option Backend) (st : VectorStore) :
  (∀ b', b = Some b' → stripped_backend b') →
  stripped_state st → stripped_state (set_vector_store b st).
Proof.
  intros Hb (Hv & Hc & Hf). repeat split; auto. simpl. intros index ->.
  apply (Hb (FAISS index) eq_refl index eq_refl).
Qed.

Lemma returns_set_backend (b : Backend) :
  stripped_backend b → returns (fun _ => True) (modify (set_vector_store (Some b))).
Proof.
  intros Hb. apply returns_modify. intros st. apply stripped_set_vector_store.
  intros b' [= <-]. exact Hb.
Qed.

Lemma returns_lib_Chroma env : returns stripped_backend (lib_Chroma env).
Proof.
  unfold lib_Chroma.
  apply (returns_bind (fun _ => True)); [apply returns_lift; auto|]. intros _ _.
  apply (returns_bind (fun _ => True)); [apply returns_get; auto|]. intros d _.
  assert (Hchroma : stripped_backend Chroma) by (intros index; discriminate).
  destruct d; [|apply returns_ret; exact Hchroma|apply returns_raise].
  apply (returns_bind (fun _ => True)); [|intros; apply returns_ret; exact Hchroma].
  apply returns_modify. intros st (Hv & Hc & Hf). repeat split; auto.
  simpl. intros l [= <-]. constructor.
Qed.

Lemma returns_lib_load_local env : returns stripped_backend (lib_load_local env).
Proof.
  unfold lib_load_local.
  apply (returns_bind (fun _ => True)); [apply returns_lift; auto|]. intros _ _.
  apply (returns_bind (fun d => ∀ l, d = Some (Some l) → Forall stripped_entry l)).
  - apply returns_get. intros st (_ & _ & Hf). exact Hf.
  - intros [[index|]|] Hd; try apply returns_raise.
    apply returns_ret. intros index' [= <-]. auto.
Qed.

Lemma returns_lib_from_documents env (docs : list Document) :
  Forall (fun d => Py.strip (page_content d) = page_content d) docs →
  returns stripped_backend (lib_from_documents env docs).
Proof.
  intros Hdocs. unfold lib_from_documents.
  apply (returns_bind (fun _ => True)); [apply returns_lift; auto|]. intros _ _.
  apply (returns_bind (fun _ => True)); [apply returns_get; auto|]. intros u _.
  apply (returns_bind (fun _ => True)).
  - apply returns_modify. intros st Hst. exact Hst.
  - intros _ _. apply returns_ret. intros index [= <-].
    apply stripped_fresh_entries. exact Hdocs.
Qed.

Lemma returns_lib_save_local env (b : Backend) :
  stripped_backend b → returns (fun _ => True) (lib_save_local env b).
Proof.
  intros Hb. unfold lib_save_local.
  apply (returns_bind (fun _ => True)); [apply returns_lift; auto|]. intros _ _.
  destruct b as [|index]; [apply returns_raise|].
  apply returns_modify. intros st (Hv & Hc & Hf). repeat split; auto.
  simpl. intros l [= <-]. apply (Hb index eq_refl).
Qed.

Lemma returns_chroma_entries :
  returns (Forall stripped_entry) (fun st => (chroma_entries st, st)).
Proof.
  apply returns_read. intros st l (_ & Hc & _). unfold chroma_entries.
  destruct (chroma_disk st) eqn:Hd; try discriminate. intros [= <-]. auto.
Qed.

Lemma returns_lib_add_documents env (b : Backend) (docs : list Document) :
  stripped_backend b →
  Forall (fun d => Py.strip (page_content d) = page_content d) docs →
  returns (fun _ => True) (lib_add_documents env b docs).
Proof.
  intros Hb Hdocs. unfold lib_add_documents.
  apply (returns_bind (fun _ => True)); [apply returns_lift; auto|]. intros _ _.
  apply (returns_bind (fun _ => True)); [apply returns_get; auto|]. intros u _.
  apply (returns_bind (fun _ => True)).
  { apply returns_modify. intros st Hst. exact Hst. }
  intros _ _. pose proof (stripped_fresh_entries env u docs Hdocs) as Hnew.
  destruct b as [|index].
  - apply (returns_bind (Forall stripped_entry)); [apply returns_chroma_entries|].
    intros old Hold.
    apply (returns_bind (fun _ => True)); [|intros; apply returns_ret; exact I].
    apply returns_modify. intros st (Hv & Hc & Hf). repeat split; auto.
    simpl. intros l [= <-]. apply Forall_app. auto.
  - apply (returns_bind (fun _ => True)); [|intros; apply returns_ret; exact I].
    apply returns_set_backend. intros index' [= <-].
    apply Forall_app. split; [apply (Hb index eq_refl)|exact Hnew].
Qed.

Lemma returns_lib_delete env (b : Backend) (ids : list string) :
  returns (fun _ => True) (lib_delete env b ids).
Proof.
  unfold lib_delete.
  apply (returns_bind (fun _ => True)); [apply returns_lift; auto|]. intros _ _.
  destruct b as [|index]; [|apply returns_raise].
  apply (returns_bind (Forall stripped_entry)); [apply returns_chroma_entries|].
  intros old Hold.
  apply returns_modify. intros st (Hv & Hc & Hf). repeat split; auto.
  simpl. intros l [= <-]. apply List.Forall_forall. intros e He.
  apply filter_In in He as [He _]. rewrite List.Forall_forall in Hold. auto.
Qed.

Lemma returns_lib_delete_collection env (b : Backend) :
  returns (fun _ => True) (lib_delete_collection env b).
Proof.
  unfold lib_delete_collection.
  apply (returns_bind (fun _ => True)); [apply returns_lift; auto|]. intros _ _.
  destruct b as [|index]; [|apply returns_raise].
  apply (returns_bind (Forall stripped_entry)); [apply returns_chroma_entries|].
  intros _ _.
  apply returns_modify. intros st (Hv & Hc & Hf). repeat split; auto. simpl. discriminate.
Qed.

Lemma returns_open_chroma env :
  returns (fun _ => True) (b <~ lib_Chroma env ;; modify (set_vector_store (Some b))).
Proof.
  apply (returns_bind stripped_backend); [apply returns_lib_Chroma|].
  intros b Hb. apply returns_set_backend. exact Hb.
Qed.

Lemma returns_init_chroma env : returns (fun _ => True) (_init_chroma env).
Proof.
  unfold _init_chroma.
  apply (returns_bind (fun _ => True)); [apply returns_mkdir_chroma|]. intros _ _.
  apply returns_try; [apply returns_open_chroma|]. intros e.
  destruct (is_schema_mismatch (exn_str e)); [|apply returns_raise].
  apply returns_try; [|intros; apply returns_raise].
  apply (returns_bind (fun _ => True)); [apply returns_rmtree_chroma|]. intros _ _.
  apply (returns_bind (fun _ => True)); [apply returns_mkdir_chroma|]. intros _ _.
  apply returns_open_chroma.
Qed.

Lemma dummy_doc_stripped :
  Forall (fun d => Py.strip (page_content d) = page_content d) [dummy_doc].
Proof. constructor; [vm_compute; reflexivity|constructor]. Qed.

Lemma returns_init_faiss env : returns (fun _ => True) (_init_faiss env).
Proof.
  unfold _init_faiss.
  apply (returns_bind (fun _ => True)); [apply returns_mkdir_faiss|]. intros _ _.
  apply (returns_bind (fun _ => True)); [apply returns_get; auto|]. intros d _.
  apply (returns_bind (fun _ => True)).
  { destruct (bool_decide (is_Some d)); [|apply returns_ret; exact I].
    apply returns_try.
    - apply (returns_bind stripped_backend); [apply returns_lib_load_local|].
      intros b Hb. apply returns_set_backend. exact Hb.
    - intros _. apply returns_modify. intros st. apply stripped_set_vector_store.
      discriminate. }
  intros _ _.
  apply (returns_bind (fun _ => True)); [apply returns_get; auto|]. intros v _.
  destruct v; [apply returns_ret; exact I|].
  apply (returns_bind stripped_backend);
    [apply returns_lib_from_documents, dummy_doc_stripped|].
  intros b Hb. apply returns_set_backend. exact Hb.
Qed.

Lemma returns_initialize env : returns (fun _ => True) (_initialize_vector_store env).
Proof.
  unfold _initialize_vector_store.
  apply returns_try; [|intros; apply returns_raise].
  apply (returns_bind (fun _ => True)); [apply returns_get; auto|]. intros ty _.
  destruct (String.eqb ty "chroma").
  - apply returns_try; [apply returns_init_chroma|]. intros _.
    apply (returns_bind (fun _ => True)); [|intros; apply returns_init_faiss].
    apply returns_modify. intros st Hst. exact Hst.
  - destruct (String.eqb ty "faiss"); [apply returns_init_faiss|apply returns_raise].
Qed.

Lemma stripped_after_init env ty persist model name chroma faiss uuids r st :
  (∀ l, chroma = Collection l → Forall stripped_entry l) →
  (∀ l, faiss = Some (Some l) → Forall stripped_entry l) →
  __init__ env ty persist model name chroma faiss uuids = (r, st) →
  stripped_state st.
Proof.
  intros Hc Hf. unfold __init__.
  set (st0 := mkVectorStore _ _ _ _ _ _ _ _).
  assert (Hst0 : stripped_state st0) by (repeat split; auto; discriminate).
  assert (Hret : returns (fun _ => True)
                   (lift (attempt env (call_mkdir (Path.str persist))) ;;;
                    lift (attempt env call_HuggingFaceEmbeddings) ;;;
                    _initialize_vector_store env)).
  { apply (returns_bind (fun _ => True)); [apply returns_lift; auto|]. intros _ _.
    apply (returns_bind (fun _ => True)); [apply returns_lift; auto|]. intros _ _.
    apply returns_initialize. }
  intros Hrun. exact (proj1 (Hret st0 r st Hst0 Hrun)).
Qed.

Lemma chunk_documents_stripped env u u' (documents chunked : list Document) :
  chunk_documents env (TextSplitter.split_text text_splitter) u documents
    = Ok (chunked, u') →
  Forall (fun d => Py.strip (page_content d) = page_content d) chunked.
Proof.
  intros Hchunk. apply List.Forall_forall. intros chunk Hin.
  destruct (chunk_documents_contents _ _ _ _ _ _ Hchunk _ Hin) as (d & texts & _ & Hsplit & Ht).
  destruct (split_text_well_cut (page_content d)) as (out & Hout & Hcut).
  rewrite Hout in Hsplit. injection Hsplit as <-.
  rewrite List.Forall_forall in Hcut. apply (Hcut _ Ht).
Qed.

Lemma returns_add_documents env (documents : list Document) :
  returns (fun _ => True) (add_documents env documents).
Proof.
  unfold add_documents. apply returns_try; [|intros; apply returns_raise].
  destruct documents as [|doc documents]; [apply returns_ret; exact I|].
  set (docs := doc :: documents).
  apply (returns_bind (fun _ => True)); [apply returns_get; auto|]. intros u _.
  apply (returns_bind
           (fun r => Forall (fun d => Py.strip (page_content d) = page_content d) r.1)).
  { apply returns_lift. intros [chunked u'] Hchunk.
    exact (chunk_documents_stripped _ _ _ _ _ Hchunk). }
  intros r Hr.
  apply (returns_bind (fun _ => True)).
  { apply returns_modify. intros st Hst. exact Hst. }
  intros _ _.
  apply (returns_bind (fun _ => True)); [apply returns_get; auto|]. intros ty _.
  assert (Hadd : returns (fun _ : list string => True)
                   (with_store (fun b => lib_add_documents env b r.1))).
  { apply returns_with_store. intros b Hb. apply returns_lib_add_documents; auto. }
  destruct (String.eqb ty "chroma"); [exact Hadd|].
  destruct (String.eqb ty "faiss"); [|apply returns_raise].
  apply (returns_bind (fun _ => True)); [exact Hadd|]. intros ids _.
  apply (returns_bind (fun _ => True)); [|intros; apply returns_ret; exact I].
  apply returns_with_store. intros b Hb. apply returns_lib_save_local. exact Hb.
Qed.

Lemma returns_delete_documents env (doc_ids : list string) :
  returns (fun _ => True) (delete_documents env doc_ids).
Proof.
  unfold delete_documents. apply returns_try; [|intros; apply returns_ret; exact I].
  apply (returns_bind (fun _ => True)); [apply returns_get; auto|]. intros ty _.
  destruct (String.eqb ty "chroma").
  - apply (returns_bind (fun _ => True)); [|intros; apply returns_ret; exact I].
    apply returns_with_store. intros b _. apply returns_lib_delete.
  - destruct (String.eqb ty "faiss"); apply returns_ret; exact I.
Qed.

Lemma returns_clear_collection env : returns (fun _ => True) (clear_collection env).
Proof.
  unfold clear_collection. apply returns_try; [|intros; apply returns_ret; exact I].
  apply (returns_bind (fun _ => True)); [apply returns_get; auto|]. intros ty _.
  apply (returns_bind (fun _ => True)); [|intros; apply returns_ret; exact I].
  destruct (String.eqb ty "chroma").
  - apply (returns_bind (fun _ => True)); [|intros; apply returns_init_chroma].
    apply returns_with_store. intros b _. apply returns_lib_delete_collection.
  - destruct (String.eqb ty "faiss"); [|apply returns_ret; exact I].
    apply (returns_bind (fun _ => True)); [apply returns_get; auto|]. intros d _.
    apply (returns_bind (fun _ => True)); [|intros; apply returns_init_faiss].
    destruct (bool_decide (is_Some d)); [apply returns_rmtree_faiss|apply returns_ret; exact I].
Qed.

Lemma reachable_stripped env (st : VectorStore) : reachable env st → stripped_store st.
Proof.
  intros Hreach. apply stripped_state_store.
  induction Hreach as [ty persist model name uuids r st Hinit
                      |ty persist model name st0 r st _ IH Hinit
                      |documents st0 r st _ IH Hrun
                      |doc_ids st0 r st _ IH Hrun
                      |st0 r st _ IH Hrun].
  - eapply stripped_after_init; [| |exact Hinit]; discriminate.
  - destruct IH as (_ & Hc & Hf). eapply stripped_after_init; [exact Hc|exact Hf|exact Hinit].
  - exact (proj1 (returns_add_documents env documents st0 r st IH Hrun)).
  - exact (proj1 (returns_delete_documents env doc_ids st0 r st IH Hrun)).
  - exact (proj1 (returns_clear_collection env st0 r st IH Hrun)).
Qed.

Lemma scored_results_stored env st query k f scored :
  similarity_search_with_score env st query k f = Ok scored →
  ∀ doc, In doc (map fst scored) → ∃ e, In e (stored_entries st) ∧ entry_doc e = doc.
Proof.
  unfold similarity_search_with_score. destruct (vector_store st) as [b|] eqn:Hb; simpl.
  2:{ intros [= <-] doc []. }
  assert (Hlib : ∀ f' r, lib_similarity_search_with_score env b query k f' st = Ok r →
            ∀ doc, In doc (map fst r) → ∃ e, In e (stored_entries st) ∧ entry_doc e = doc).
  { intros f' r Hr doc Hin. apply in_map_iff in Hin as (ds & <- & Hin).
    destruct (lib_search_with_score_stored _ _ _ _ _ _ _ Hb Hr ds Hin) as (e & He & -> & _).
    exists e. auto. }
  destruct (String.eqb (store_type st) "chroma").
  - destruct (given f) as [m|];
      destruct (lib_similarity_search_with_score env b query k _ st) as [r|] eqn:Hr; simpl;
      intros [= <-]; try (intros doc []); eapply Hlib; eauto.
  - destruct (String.eqb (store_type st) "faiss"); simpl.
    2:{ intros [= <-] doc []. }
    destruct (lib_similarity_search_with_score env b query k None st) as [r|] eqn:Hr; simpl.
    2:{ intros [= <-] doc []. }
    destruct (given f) as [m|]; simpl; intros [= <-] doc Hin; [|eapply Hlib; eauto].
    apply in_map_iff in Hin as (ds & <- & Hin). apply filter_In in Hin as [Hin _].
    eapply Hlib; [exact Hr|]. apply in_map. exact Hin.
Qed.

Lemma stripped_results (st : VectorStore) (docs : list Document) :
  stripped_store st →
  (∀ doc, In doc docs → ∃ e, In e (stored_entries st) ∧ entry_doc e = doc) →
  ∀ doc, In doc docs → Py.strip (page_content doc) = page_content doc.
Proof.
  intros Hst Hfrom doc Hin. destruct (Hfrom doc Hin) as (e & He & <-).
  unfold stripped_store in Hst. rewrite List.Forall_forall in Hst. exact (Hst e He).
Qed.

(** ** Formatting the results: the report of a retrieval *)

(** C10: a retrieval always returns a non-empty string; with no result it
    is the single "No documents found" line; with results, the block of
    each one has a content line with a preview. On a store whose chunks
    have no surrounding whitespace, as those of every store the code builds
    (constructed, reopened, added to, deleted from, cleared), the preview
    is the chunk content cut to its first 300 characters and followed by
    "..." exactly when the chunk content is longer than 300 characters,
    and the chunk content itself otherwise. On any store whatever, the
    preview is made in this way from the content without its surrounding
    whitespace. *)
Theorem retrieve_reports (env : Env) (st : VectorStore) (query : string) (k : Z)
    (with_scores : bool) (filter_metadata : option (gmap string value)) :
  ∃ s docs,
    _retrieve_documents_structured env st query k with_scores filter_metadata = Ok s
    ∧ s ≠ ""
    ∧ (if with_scores
       then ∃ scored, similarity_search_with_score env st query k filter_metadata = Ok scored
                      ∧ docs = map fst scored
       else similarity_search env st query k filter_metadata = Ok docs)
    ∧ (docs = [] → s = "No documents found for query: '" +:+ query +:+ "'")
    ∧ (docs ≠ [] →
       ∃ output, s = Py.join LF output
                 ∧ ∀ doc, In doc docs →
                     In ("Content: " +:+ preview (page_content doc)) output)
    ∧ (stripped_store st ∨ reachable env st →
       ∀ doc, In doc docs →
         (300 < Py.len (page_content doc) →
          preview (page_content doc) = Py.take 300 (page_content doc) +:+ "..."
          ∧ Py.len (preview (page_content doc)) = 303)
         ∧ (Py.len (page_content doc) <= 300 →
            preview (page_content doc) = page_content doc))
    ∧ (∀ doc, In doc docs →
         let content := Py.strip (page_content doc) in
         (300 < Py.len content →
          preview (page_content doc) = Py.take 300 content +:+ "..."
          ∧ Py.len (preview (page_content doc)) = 303)
         ∧ (Py.len content <= 300 → preview (page_content doc) = content)).
Proof.
  assert (Hstripped : ∀ docs,
            (∀ doc, In doc docs → ∃ e, In e (stored_entries st) ∧ entry_doc e = doc) →
            stripped_store st ∨ reachable env st →
            ∀ doc, In doc docs →
              (300 < Py.len (page_content doc) →
               preview (page_content doc) = Py.take 300 (page_content doc) +:+ "..."
               ∧ Py.len (preview (page_content doc)) = 303)
              ∧ (Py.len (page_content doc) <= 300 →
                 preview (page_content doc) = page_content doc)).
  { intros docs Hfrom Hst doc Hin.
    assert (Hs : stripped_store st) by (destruct Hst; [assumption|eapply reachable_stripped; eauto]).
    pose proof (stripped_results st docs Hs Hfrom doc Hin) as Hdoc.
    pose proof (preview_spec (page_content doc)) as Hp. cbv zeta in Hp.
    rewrite Hdoc in Hp. exact Hp. }
  unfold _retrieve_documents_structured. destruct with_scores.
  - destruct (search_swallows_errors_scored env st query k filter_metadata) as [scored Hs].
    rewrite Hs. exists (_format_scored_results env scored query), (map fst scored).
    destruct (format_scored_results_spec env scored query) as (Hne & Hnil & Hcons).
    split; [reflexivity|]. split; [exact Hne|]. split; [eauto|].
    split; [exact Hnil|]. split; [exact Hcons|].
    split; [apply Hstripped; exact (scored_results_stored _ _ _ _ _ _ Hs)|].
    intros doc _. apply preview_spec.
  - destruct (search_swallows_errors_plain env st query k filter_metadata) as [docs Hs].
    rewrite Hs. exists (_format_results env docs query), docs.
    destruct (format_results_spec env docs query) as (Hne & Hnil & Hcons).
    split; [reflexivity|]. split; [exact Hne|]. split; [reflexivity|].
    split; [exact Hnil|]. split; [exact Hcons|].
    split; [apply Hstripped; exact (similarity_search_stored _ _ _ _ _ _ Hs)|].
    intros doc _. apply preview_spec.
Qed.

Lemma built_store_reachable : reachable quiet_env built_store.
Proof.
  unfold built_store. eapply reach_add; [eapply reach_new|]; apply surjective_pairing.
Qed.

Lemma retrieve_reports_witness :
  reachable quiet_env built_store
  ∧ ∃ s docs doc,
      _retrieve_documents_structured quiet_env built_store "aaa" 5 false None = Ok s
      ∧ similarity_search quiet_env built_store "aaa" 5 None = Ok docs
      ∧ In doc docs
      ∧ Py.len (page_content doc) = 1000
      ∧ preview (page_content doc) = Py.take 300 (page_content doc) +:+ "...".
Proof.
  split; [exact built_store_reachable|].
  destruct (retrieve_reports quiet_env built_store "aaa" 5 false None)
    as (s & docs & Hs & _ & Hdocs & _ & _ & Hprev & _).
  specialize (Hprev (or_intror built_store_reachable)).
  assert (Hlong : ∃ doc, In doc docs ∧ Py.len (page_content doc) = 1000).
  { vm_compute in Hdocs. injection Hdocs as <-.
    eexists. split; [right; right; left; reflexivity|]. vm_compute. reflexivity. }
  destruct Hlong as (doc & Hin & Hlen).
  exists s, docs, doc. split; [exact Hs|]. split; [exact Hdocs|]. split; [exact Hin|].
  split; [exact Hlen|]. apply (Hprev doc Hin). lia.
Defined.
